(** * ACDbot: the issue reconciler and the recording harvester

    A shallow embedding of [.github/ACDbot/scripts/handle_issue.py] and
    [.github/ACDbot/scripts/poll_zoom_recordings.py].

    Python [str] values are ASCII texts ([string], and [list ascii] inside
    the text-processing code); code points above 127 are not modelled.
    Python [int] is [Z].  JSON floats and arrays do not occur in the mapping
    file the scripts write and are left out of [pyval]. *)

From Stdlib Require Import List String Ascii Bool Arith ZArith Lia.
Import ListNotations.

Local Open Scope list_scope.

(* ================================================================== *)
(** * Texts *)
(* ================================================================== *)

Definition text := list ascii.

Definition la (s : string) : text := list_ascii_of_string s.
Definition str (t : text) : string := string_of_list_ascii t.

Definition code (c : ascii) : nat := nat_of_ascii c.

Definition in_range (lo hi : nat) (c : ascii) : bool :=
  (lo <=? code c) && (code c <=? hi).

(** [\d] on ASCII text. *)
Definition is_digit : ascii -> bool := in_range 48 57.
Definition is_upper : ascii -> bool := in_range 65 90.
Definition is_lower : ascii -> bool := in_range 97 122.
(** [[A-Za-z]] *)
Definition is_alpha (c : ascii) : bool := is_upper c || is_lower c.
(** [\w] on ASCII text: letters, digits and the underscore. *)
Definition is_word (c : ascii) : bool :=
  is_alpha c || is_digit c || Ascii.eqb c "_".
(** [\s], and what [str.strip] removes, on ASCII text: 0x09-0x0D,
    0x1C-0x1F and the blank. *)
Definition is_space (c : ascii) : bool :=
  in_range 9 13 c || in_range 28 31 c || Ascii.eqb c " ".

Definition newline : ascii := ascii_of_nat 10.

Definition to_lower (c : ascii) : ascii :=
  if is_upper c then ascii_of_nat (code c + 32) else c.

Definition lower (t : text) : text := map to_lower t.

Fixpoint text_eqb (a b : text) : bool :=
  match a, b with
  | [], [] => true
  | x :: a', y :: b' => Ascii.eqb x y && text_eqb a' b'
  | _, _ => false
  end.

Fixpoint take_while (p : ascii -> bool) (t : text) : text * text :=
  match t with
  | [] => ([], [])
  | c :: t' =>
      if p c then let (a, b) := take_while p t' in (c :: a, b)
      else ([], t)
  end.

Fixpoint drop_while (p : ascii -> bool) (t : text) : text :=
  match t with
  | [] => []
  | c :: t' => if p c then drop_while p t' else t
  end.

(** [s.strip()] *)
Definition strip (t : text) : text :=
  rev (drop_while is_space (rev (drop_while is_space t))).

Fixpoint starts_with (p t : text) : bool :=
  match p, t with
  | [], _ => true
  | x :: p', y :: t' => Ascii.eqb x y && starts_with p' t'
  | _ :: _, [] => false
  end.

(** [needle in hay] for texts. *)
Fixpoint contains (needle hay : text) : bool :=
  starts_with needle hay ||
  match hay with
  | [] => false
  | _ :: hay' => contains needle hay'
  end.

(** [s.split(sep)[-1]]: what follows the last occurrence of [sep], the whole
    text when [sep] does not occur.  [sep] is not empty. *)
Fixpoint after_last (sep t : text) : text :=
  match t with
  | [] => []
  | c :: t' =>
      if contains sep t' then after_last sep t'
      else if starts_with sep t then skipn (List.length sep) t
      else t
  end.

(** ** Decimal digits *)

Definition digit_of (n : nat) : ascii := ascii_of_nat (48 + n).
Definition digit_val (c : ascii) : nat := code c - 48.

(** The number a text of decimal digits spells: [int(s)] where the text
    is within the limit of [py_int] below. *)
Definition nat_of_digits (t : text) : nat :=
  fold_left (fun acc c => 10 * acc + digit_val c) t 0.

Definition int_of_digits (t : text) : Z :=
  fold_left (fun acc c => (10 * acc + Z.of_nat (digit_val c))%Z) t 0%Z.

(** [f"{n:02d}"] and [f"{n:04d}"] for [n] below 100 and 10000. *)
Definition pad2 (n : nat) : text :=
  [digit_of (n / 10 mod 10); digit_of (n mod 10)].
Definition pad4 (n : nat) : text :=
  [digit_of (n / 1000 mod 10); digit_of (n / 100 mod 10);
   digit_of (n / 10 mod 10); digit_of (n mod 10)].

(** [str(n)] for a natural number: decimal, no padding. *)
Fixpoint dec_fuel (fuel n : nat) (acc : text) : text :=
  match fuel with
  | 0 => acc
  | S fuel' =>
      let acc' := digit_of (n mod 10) :: acc in
      if n <? 10 then acc' else dec_fuel fuel' (n / 10) acc'
  end.

Definition dec_of_nat (n : nat) : text := dec_fuel (S n) n [].

(** [str(z)] for a Python [int]. *)
Definition dec_of_Z (z : Z) : text :=
  if (z <? 0)%Z then "-"%char :: dec_of_nat (Z.to_nat (- z))
  else dec_of_nat (Z.to_nat z).

(** The default of [sys.get_int_max_str_digits()]. *)
Definition int_max_str_digits : nat := 4300.

(** [int(s)] for a text of decimal digits: the value, or the message of the
    [ValueError] that [int] raises for a text of more digits than the
    limit. *)
Definition py_int (t : text) : string + Z :=
  if int_max_str_digits <? List.length t
  then inl (str (la "Exceeds the limit (4300 digits) for integer string conversion: value has "
                 ++ dec_of_nat (List.length t)
                 ++ la " digits; use sys.set_int_max_str_digits() to increase the limit"))
  else inr (int_of_digits t).

(* ================================================================== *)
(** * Regular expressions: the backtracking matcher of [re] *)
(* ================================================================== *)

(** The fragment of [re] syntax the two patterns use.  A character test
    stands for a literal, a class or an escape such as [\d]. *)
Inductive regex : Type :=
| Empty
| Chr (p : ascii -> bool)
| Cat (r1 r2 : regex)
| Alt (r1 r2 : regex)
| Repeat (lo : nat) (hi : option nat) (r : regex)   (* greedy r{lo,hi} *)
| Group (name : string) (r : regex)
| WordBoundary                                       (* \b *)
| LineStart.                                         (* ^ under (?m) *)

Definition Opt (r : regex) : regex := Repeat 0 (Some 1) r.      (* r?  *)
Definition Star (r : regex) : regex := Repeat 0 None r.         (* r*  *)
Definition Plus (r : regex) : regex := Repeat 1 None r.         (* r+  *)
Definition Times (n : nat) (r : regex) : regex := Repeat n (Some n) r.

Definition lit (c : ascii) : regex := Chr (Ascii.eqb c).
(** A literal under [re.IGNORECASE]. *)
Definition lit_ci (c : ascii) : regex :=
  Chr (fun x => Ascii.eqb (to_lower x) (to_lower c)).

Fixpoint cat_all (rs : list regex) : regex :=
  match rs with
  | [] => Empty
  | [r] => r
  | r :: rs' => Cat r (cat_all rs')
  end.

Fixpoint alt_all (rs : list regex) : regex :=
  match rs with
  | [] => Chr (fun _ => false)
  | [r] => r
  | r :: rs' => Alt r (alt_all rs')
  end.

Definition word (s : string) : regex := cat_all (map lit (la s)).
Definition word_ci (s : string) : regex := cat_all (map lit_ci (la s)).

(** A position of the matcher in the subject: the character before it, the
    text from it on, its offset, and the spans of the groups closed so far
    (most recent first). *)
Record mstate : Type := MState {
  prev : option ascii;
  rest : text;
  pos : nat;
  caps : list (string * (nat * nat))
}.

Definition is_word_at (o : option ascii) : bool :=
  match o with Some c => is_word c | None => false end.

(** Greedy repetition: one more round first, stopping second.  A round
    that consumes nothing is dropped; no repeated body of the patterns below
    can match the empty text. *)
Fixpoint iterate (step : mstate -> list mstate) (fuel lo : nat)
    (hi : option nat) (st : mstate) : list mstate :=
  let stop := match lo with 0 => [st] | S _ => [] end in
  match fuel, hi with
  | 0, _ => stop
  | _, Some 0 => stop
  | S fuel', _ =>
      flat_map
        (fun st' =>
           if pos st <? pos st'
           then iterate step fuel' (pred lo) (option_map pred hi) st'
           else [])
        (step st) ++ stop
  end.

(** All the ways [r] matches at [st], in the order the backtracking matcher
    tries them: the head is the match [re] reports. *)
Fixpoint run (r : regex) (st : mstate) : list mstate :=
  match r with
  | Empty => [st]
  | Chr p =>
      match rest st with
      | c :: t =>
          if p c then [MState (Some c) t (S (pos st)) (caps st)] else []
      | [] => []
      end
  | Cat r1 r2 => flat_map (run r2) (run r1 st)
  | Alt r1 r2 => run r1 st ++ run r2 st
  | Repeat lo hi r' => iterate (run r') (S (List.length (rest st))) lo hi st
  | Group name r' =>
      map (fun st' =>
             MState (prev st') (rest st') (pos st')
                    ((name, (pos st, pos st')) :: caps st'))
          (run r' st)
  | WordBoundary =>
      if xorb (is_word_at (prev st)) (is_word_at (hd_error (rest st)))
      then [st] else []
  | LineStart =>
      match prev st with
      | None => [st]
      | Some c => if Ascii.eqb c newline then [st] else []
      end
  end.

(** A match object: where the match starts and the state at its end. *)
Record rmatch : Type := RMatch { m_start : nat; m_end : mstate }.

Fixpoint search_from (r : regex) (before : option ascii) (t : text)
    (at_ : nat) : option rmatch :=
  match run r (MState before t at_ []) with
  | st :: _ => Some (RMatch at_ st)
  | [] =>
      match t with
      | [] => None
      | c :: t' => search_from r (Some c) t' (S at_)
      end
  end.

(** [re.search(r, subject)] *)
Definition re_search (r : regex) (subject : text) : option rmatch :=
  search_from r None subject 0.

Fixpoint span_of (name : string) (cs : list (string * (nat * nat)))
  : option (nat * nat) :=
  match cs with
  | [] => None
  | (n, sp) :: cs' => if String.eqb n name then Some sp else span_of name cs'
  end.

Definition slice (t : text) (sp : nat * nat) : text :=
  firstn (snd sp - fst sp) (skipn (fst sp) t).

(** [m.group(name)]: [None] for a group that took no part in the match. *)
Definition group (subject : text) (m : rmatch) (name : string) : option text :=
  option_map (slice subject) (span_of name (caps (m_end m))).

(** ** The patterns of [parse_issue_for_time] *)

Definition digit : regex := Chr is_digit.
Definition ws : regex := Chr is_space.

(** [date_pattern], compiled with [re.IGNORECASE | re.VERBOSE]. *)
Definition date_pattern : regex :=
  cat_all
    [ Opt (lit "[");
      Opt (Cat (alt_all (map word_ci ["Mon"; "Tue"; "Wed"; "Thu"; "Fri";
                                      "Sat"; "Sun"]%string))
               (Plus ws));
      Group "month" (Repeat 3 (Some 9) (Chr is_alpha)); Plus ws;
      Group "day" (Repeat 1 (Some 2) digit); Opt (lit ","); Plus ws;
      Group "year" (Times 4 digit); Opt (lit ","); Plus ws;
      Group "hour" (Repeat 1 (Some 2) digit); lit ":";
      Group "minute" (Times 2 digit);
      Opt (cat_all [ lit "-"; Group "end_hour" (Repeat 1 (Some 2) digit);
                     lit ":"; Group "end_minute" (Times 2 digit) ]);
      Star ws; word_ci "UTC";
      Opt (lit "]") ].

Definition unit_suffix (w : string -> regex) : regex :=
  Opt (alt_all [w "minutes"; w "min"; w "m"]%string).

(** [(?i)duration(?:\s*(?:in)?\s*minutes)?[:\s-]*(\d+)\s*(?:minutes|min|m)?\b] *)
Definition duration_pattern : regex :=
  cat_all
    [ word_ci "duration";
      Opt (cat_all [Star ws; Opt (word_ci "in"); Star ws; word_ci "minutes"]);
      Star (Chr (fun c => Ascii.eqb c ":" || is_space c || Ascii.eqb c "-"));
      Group "1" (Plus digit);
      Star ws;
      unit_suffix word_ci;
      WordBoundary ].

(** [(?m)^\s*-\s*(\d+)\s*(?:minutes|min|m)?\b] *)
Definition bullet_pattern : regex :=
  cat_all
    [ LineStart; Star ws; lit "-"; Star ws;
      Group "1" (Plus digit);
      Star ws;
      unit_suffix word;
      WordBoundary ].

(* ================================================================== *)
(** * [datetime.strptime] and [datetime.isoformat] *)
(* ================================================================== *)

(** Exceptions of the two scripts.  [ServiceError] stands for whatever an
    external service call raises. *)
Inductive exn : Type :=
| ValueError (msg : string)
| AttributeError
| TypeError
| KeyError (key : string)
| UnboundLocalError (var : string)
| ServiceError (msg : string).

(** A naive [datetime] with zero seconds, which is all the format
    ["%B %d %Y %H:%M"] can produce. *)
Record datetime : Type := DateTime {
  dt_year : nat; dt_month : nat; dt_day : nat;
  dt_hour : nat; dt_minute : nat
}.

Definition full_month_names : list text :=
  map la ["january"; "february"; "march"; "april"; "may"; "june"; "july";
          "august"; "september"; "october"; "november"; "december"]%string.

Definition abbr_month_names : list text :=
  map la ["jan"; "feb"; "mar"; "apr"; "may"; "jun"; "jul"; "aug"; "sep";
          "oct"; "nov"; "dec"]%string.

(** The month directive of the format: [%B] or [%b]. *)
Inductive month_directive : Type := PctB | Pctb.

Definition directive_names (d : month_directive) : list text :=
  match d with PctB => full_month_names | Pctb => abbr_month_names end.

Definition format_text (d : month_directive) : text :=
  match d with
  | PctB => la "%B %d %Y %H:%M"
  | Pctb => la "%b %d %Y %H:%M"
  end.

Fixpoint index_of (x : text) (l : list text) (i : nat) : option nat :=
  match l with
  | [] => None
  | y :: l' => if text_eqb x y then Some i else index_of x l' (S i)
  end.

Definition is_leap (y : nat) : bool :=
  (y mod 4 =? 0) && (negb (y mod 100 =? 0) || (y mod 400 =? 0)).

Definition days_in_month (y m : nat) : nat :=
  match m with
  | 2 => if is_leap y then 29 else 28
  | 4 | 6 | 9 | 11 => 30
  | _ => 31
  end.

(** [repr] of a text without quotes, backslashes or control characters,
    which is what the joined groups of [date_pattern] are. *)
Definition py_repr (t : text) : text := "'"%char :: t ++ ["'"%char].

(** The minute field [%M], last of the format: [[0-5]\d|\d], and what it
    leaves unread. *)
Definition read_minute (t : text) : option (text * text) :=
  match t with
  | c1 :: c2 :: t' =>
      if in_range 48 53 c1 && is_digit c2 then Some ([c1; c2], t')
      else if is_digit c1 then Some ([c1], c2 :: t')
      else None
  | [c1] => if is_digit c1 then Some ([c1], []) else None
  | [] => None
  end.

(** Modelled on the documented behaviour of [datetime.strptime] for the
    formats ["%B %d %Y %H:%M"] and ["%b %d %Y %H:%M"] (English month names,
    matched without regard to case): a month name, a day 1..31 in one or
    two digits, a year in four digits, an hour 0..23 in one or two digits, a
    colon and a minute 0..59; blanks of the format stand for one or more
    white-space characters; the whole text must be read; the date must
    exist.  The result is the message of the [ValueError], or the value. *)
Definition strptime (d : month_directive) (s : text) : string + datetime :=
  let mismatch : string + datetime :=
    inl (str (la "time data " ++ py_repr s ++ la " does not match format "
              ++ py_repr (format_text d))) in
  let (mon, s1) := take_while is_alpha s in
  match index_of (lower mon) (directive_names d) 1 with
  | None => mismatch
  | Some month =>
      let (w1, s2) := take_while is_space s1 in
      let (dd, s3) := take_while is_digit s2 in
      let (w2, s4) := take_while is_space s3 in
      let (yy, s5) := take_while is_digit s4 in
      let (w3, s6) := take_while is_space s5 in
      let (hh, s7) := take_while is_digit s6 in
      let day := nat_of_digits dd in
      let year := nat_of_digits yy in
      let hour := nat_of_digits hh in
      if negb ((1 <=? List.length w1) && (1 <=? List.length w2)
               && (1 <=? List.length w3)
               && (1 <=? List.length dd) && (List.length dd <=? 2)
               && (1 <=? day) && (day <=? 31)
               && (List.length yy =? 4)
               && (1 <=? List.length hh) && (List.length hh <=? 2)
               && (hour <=? 23))
      then mismatch
      else
        match s7 with
        | sep :: s8 =>
            if Ascii.eqb sep ":" then
              match read_minute s8 with
              | None => mismatch
              | Some (mm, unread) =>
                  match unread with
                  | _ :: _ =>
                      inl (str (la "unconverted data remains: " ++ unread))
                  | [] =>
                      if year =? 0 then inl "year 0 is out of range"%string
                      else if days_in_month year month <? day
                      then inl "day is out of range for month"%string
                      else inr (DateTime year month day hour
                                         (nat_of_digits mm))
                  end
              end
            else mismatch
        | [] => mismatch
        end
  end.

(** [dt.isoformat()] of a [datetime] with zero seconds. *)
Definition isoformat (dt : datetime) : text :=
  pad4 (dt_year dt) ++ la "-" ++ pad2 (dt_month dt) ++ la "-"
  ++ pad2 (dt_day dt) ++ la "T" ++ pad2 (dt_hour dt) ++ la ":"
  ++ pad2 (dt_minute dt) ++ la ":00".

Fixpoint days_before_month (y m : nat) : nat :=
  match m with
  | 0 => 0
  | S m' => match m' with
            | 0 => 0
            | _ => days_before_month y m' + days_in_month y m'
            end
  end.

(** [date.toordinal()]: days since the last day of the year 0. *)
Definition toordinal (dt : datetime) : Z :=
  let y := (Z.of_nat (dt_year dt) - 1)%Z in
  (y * 365 + y / 4 - y / 100 + y / 400
   + Z.of_nat (days_before_month (dt_year dt) (dt_month dt))
   + Z.of_nat (dt_day dt))%Z.

(** Minutes since the start of day 0, the scale on which two [datetime]s
    are compared and subtracted. *)
Definition minutes_of (dt : datetime) : Z :=
  (toordinal dt * 1440
   + Z.of_nat (dt_hour dt) * 60 + Z.of_nat (dt_minute dt))%Z.

(* ================================================================== *)
(** * [parse_issue_for_time] *)
(* ================================================================== *)

(** How an f-string shows a group: its text, or [None]. *)
Definition fstr (g : option text) : text :=
  match g with Some t => t | None => la "None" end.

(** Truth value of a group: a text that is not empty. *)
Definition group_truthy (g : option text) : bool :=
  match g with Some (_ :: _) => true | _ => false end.

Definition join_fields (month day year hour minute : option text) : text :=
  fstr month ++ la " " ++ fstr day ++ la " " ++ fstr year ++ la " "
  ++ fstr hour ++ la ":" ++ fstr minute.

(** [try: strptime(s, "%B ...") except ValueError: strptime(s, "%b ...")] *)
Definition strptime_either (s : text) : string + datetime :=
  match strptime PctB s with
  | inr dt => inr dt
  | inl _ => strptime Pctb s
  end.

(** The two duration searches: the label first, the dash bullet second. *)
Definition duration_search (body : text) : option rmatch :=
  match re_search duration_pattern body with
  | Some m => Some m
  | None => re_search bullet_pattern body
  end.

(** [datetime_str] and [end_time_str], from the groups of the date match. *)
Definition start_text (body : text) (date_match : rmatch) : text :=
  join_fields (group body date_match "month") (group body date_match "day")
              (group body date_match "year") (group body date_match "hour")
              (group body date_match "minute").

Definition end_text (body : text) (date_match : rmatch) : text :=
  join_fields (group body date_match "month") (group body date_match "day")
              (group body date_match "year")
              (group body date_match "end_hour")
              (group body date_match "end_minute").

(** [end_hour and end_minute] *)
Definition has_end_time (body : text) (date_match : rmatch) : bool :=
  group_truthy (group body date_match "end_hour")
  && group_truthy (group body date_match "end_minute").

(** The message of the last [raise] of the function. *)
Definition missing_duration : string :=
  "Missing or invalid duration format. Provide duration in minutes after the date/time.".

(** Part 3 of the function: the duration from the end time, or the final
    [raise]. *)
Definition duration_from_end_time (body : text) (date_match : rmatch)
    (start_dt : datetime) : exn + Z :=
  if has_end_time body date_match then
    match strptime_either (end_text body date_match) with
    | inl e => inl (ValueError e)
    | inr end_dt =>
        if (minutes_of end_dt <=? minutes_of start_dt)%Z
        then inl (ValueError "End time must be after start time.")
        else inr (minutes_of end_dt - minutes_of start_dt)%Z
    end
  else
    inl (ValueError missing_duration).

Definition parse_issue_for_time (issue_body : string)
  : exn + (string * Z) :=
  let body := la issue_body in
  match re_search date_pattern body with
  | None => inl (ValueError "Missing or invalid date/time format.")
  | Some date_match =>
      match strptime_either (start_text body date_match) with
      | inl e =>
          inl (ValueError ("Unable to parse the start time: " ++ e)%string)
      | inr start_dt =>
          let start_time_utc := str (isoformat start_dt ++ la "Z") in
          match duration_search body with
          | Some duration_match =>
              match py_int (fstr (group body duration_match "1")) with
              | inl e => inl (ValueError e)
              | inr duration => inr (start_time_utc, duration)
              end
          | None =>
              match duration_from_end_time body date_match start_dt with
              | inl e => inl e
              | inr duration_minutes =>
                  inr (start_time_utc, duration_minutes)
              end
          end
      end
  end.

(* ================================================================== *)
(** * Python values and the mapping *)
(* ================================================================== *)

(** What [json.load] yields for the mapping file and what the service
    modules hand back: [None], booleans, integers, strings and [dict]s
    (in insertion order, keys unique). *)
#[warnings="-register-all"]
Inductive pyval : Type :=
| VNone
| VBool (b : bool)
| VInt (z : Z)
| VStr (s : string)
| VDict (d : list (string * pyval)).

Definition pydict : Type := list (string * pyval).

Fixpoint dict_get (d : pydict) (k : string) : option pyval :=
  match d with
  | [] => None
  | (k', v) :: d' => if String.eqb k' k then Some v else dict_get d' k
  end.

(** [d[k] = v]: a key already present keeps its place, a new key goes
    last. *)
Fixpoint dict_set (d : pydict) (k : string) (v : pyval) : pydict :=
  match d with
  | [] => [(k, v)]
  | (k', v') :: d' =>
      if String.eqb k' k then (k, v) :: d' else (k', v') :: dict_set d' k v
  end.

Definition dict_has (d : pydict) (k : string) : bool :=
  match dict_get d k with Some _ => true | None => false end.

(** [bool(v)] *)
Definition truthy (v : pyval) : bool :=
  match v with
  | VNone => false
  | VBool b => b
  | VInt z => negb (z =? 0)%Z
  | VStr s => negb (String.eqb s "")
  | VDict d => match d with [] => false | _ :: _ => true end
  end.

Definition is_dict (v : pyval) : bool :=
  match v with VDict _ => true | _ => false end.

Definition is_none (v : pyval) : bool :=
  match v with VNone => true | _ => false end.

(** [v.get(key, default)]: only a [dict] has the method. *)
Definition py_get (v : pyval) (key : string) (default : pyval)
  : exn + pyval :=
  match v with
  | VDict d =>
      inr (match dict_get d key with Some x => x | None => default end)
  | _ => inl AttributeError
  end.

(** [v == z] for an [int] [z]; [bool] is a subclass of [int]. *)
Definition eq_int (v : pyval) (z : Z) : bool :=
  match v with
  | VInt z' => (z' =? z)%Z
  | VBool b => (Z.b2z b =? z)%Z
  | _ => false
  end.

(** [v == s] for a [str] [s]. *)
Definition eq_str (v : pyval) (s : string) : bool :=
  match v with
  | VStr s' => String.eqb s' s
  | _ => false
  end.

(** [v >= z] for an [int] [z]: a [TypeError] unless [v] is a number. *)
Definition ge_int (v : pyval) (z : Z) : exn + bool :=
  match v with
  | VInt z' => inr (z <=? z')%Z
  | VBool b => inr (z <=? Z.b2z b)%Z
  | _ => inl TypeError
  end.

(** [v + 1]: a [TypeError] unless [v] is a number. *)
Definition add_one (v : pyval) : exn + pyval :=
  match v with
  | VInt z => inr (VInt (z + 1))
  | VBool b => inr (VInt (Z.b2z b + 1))
  | _ => inl TypeError
  end.

(** [repr(v)]; texts with quotes or control characters, which [repr]
    escapes, are not told apart. *)
Fixpoint repr_val (v : pyval) : text :=
  match v with
  | VNone => la "None"
  | VBool true => la "True"
  | VBool false => la "False"
  | VInt z => dec_of_Z z
  | VStr s => py_repr (la s)
  | VDict d =>
      la "{"
      ++ (fix items (l : list (string * pyval)) : text :=
            match l with
            | [] => []
            | [(k, x)] => py_repr (la k) ++ la ": " ++ repr_val x
            | (k, x) :: l' =>
                py_repr (la k) ++ la ": " ++ repr_val x ++ la ", "
                ++ items l'
            end) d
      ++ la "}"
  end.

(** [str(v)], also how an f-string shows [v]. *)
Definition py_str (v : pyval) : string :=
  match v with
  | VStr s => s
  | _ => str (repr_val v)
  end.

Fixpoint join_lines (ls : list string) : string :=
  match ls with
  | [] => ""
  | [l] => l
  | l :: ls' => l ++ String newline (join_lines ls')
  end%string.

(* ================================================================== *)
(** * State and exceptions *)
(* ================================================================== *)

(** A computation over a state [S] that returns or raises.  The state
    reached when an exception is raised is kept: what a [try] body did
    before it failed stays done. *)
Definition M (S A : Type) : Type := S -> (exn + A) * S.

Definition ret {S A} (a : A) : M S A := fun s => (inr a, s).

Definition bind {S A B} (m : M S A) (k : A -> M S B) : M S B :=
  fun s =>
    match m s with
    | (inr a, s') => k a s'
    | (inl e, s') => (inl e, s')
    end.

Definition raise {S A} (e : exn) : M S A := fun s => (inl e, s).

(** Lifts a pure result that may be an exception. *)
Definition lift {S A} (r : exn + A) : M S A := fun s => (r, s).

Definition get {S} : M S S := fun s => (inr s, s).

Definition modify {S} (f : S -> S) : M S unit := fun s => (inr tt, f s).

(** [try: body except Exception as e: handler(e)] *)
Definition try_catch {S A} (body : M S A) (handler : exn -> M S A)
  : M S A :=
  fun s =>
    match body s with
    | (inr a, s') => (inr a, s')
    | (inl e, s') => handler e s'
    end.

(** [try: body finally: final] *)
Definition try_finally {S A} (body : M S A) (final : M S unit) : M S A :=
  fun s =>
    match body s with
    | (r, s') =>
        match final s' with
        | (inr _, s'') => (r, s'')
        | (inl e, s'') => (inl e, s'')
        end
    end.

Declare Scope py_scope.
Delimit Scope py_scope with py.

Notation "x <- m ;; k" := (bind m (fun x => k))
  (at level 61, m at next level, right associativity) : py_scope.
Notation "' pat <- m ;; k" :=
  (bind m (fun x => match x with pat => k end))
  (at level 61, pat pattern, m at next level, right associativity)
  : py_scope.
Notation "m ;; k" := (bind m (fun _ => k))
  (at level 61, right associativity) : py_scope.

(** The first [(key, entry)] of the mapping whose entry has the given
    [issue_number], as the generator under [next(..., None)] finds it:
    entries are visited in order until one fits, and [entry.get] raises on
    an entry that is not a [dict]. *)
Fixpoint find_by_issue (mapping : pydict) (issue_number : Z)
  : exn + option (string * pyval) :=
  match mapping with
  | [] => inr None
  | (meeting_id, entry) :: mapping' =>
      match py_get entry "issue_number" VNone with
      | inl e => inl e
      | inr n =>
          if eq_int n issue_number then inr (Some (meeting_id, entry))
          else find_by_issue mapping' issue_number
      end
  end.

(** [{str(k): v for k, v in mapping.items()
      if v.get("discourse_topic_id") is not None}] *)
Fixpoint prune (mapping : pydict) : exn + pydict :=
  match mapping with
  | [] => inr []
  | (k, v) :: mapping' =>
      match py_get v "discourse_topic_id" VNone with
      | inl e => inl e
      | inr t =>
          match prune mapping' with
          | inl e => inl e
          | inr kept => inr (if is_none t then kept else (k, v) :: kept)
          end
      end
  end.

(* ================================================================== *)
(** * [handle_issue.py] *)
(* ================================================================== *)

Module handle_issue.

Local Open Scope py_scope.
Local Open Scope string_scope.

(** Calls to the outside world, in the order a run makes them.  A call is
    recorded when it is made, whether it returns or raises. *)
Inductive call : Type :=
| discourse_update_topic (topic_id : pyval) (title body : string)
| discourse_create_topic (title body : string)
| zoom_update_meeting (meeting_id topic start_time : string) (duration : Z)
| zoom_create_meeting (topic start_time : string) (duration : Z)
| gcal_update_event (event_id : pyval) (summary start_dt : string)
    (duration_minutes : Z) (description : string)
| gcal_create_event (summary start_dt : string) (duration_minutes : Z)
    (description : string)
| commit (content : pydict)
| issue_create_comment (body : string)
| telegram_send_message (text : string).

(** The issue as GitHub returns it and the answers of the services
    ([modules.discourse], [modules.zoom], [modules.gcal],
    [modules.telegram], the GitHub calls of [commit_mapping_file] and
    [issue.create_comment]) during one run. *)
Record services : Type := Services {
  issue_title : string;
  issue_body_field : option string;           (* issue.body *)
  issue_html_url : string;
  discourse_base_url : string;   (* DISCOURSE_BASE_URL or its default *)
  update_topic : pyval -> string -> string -> exn + pyval;
  create_topic : string -> string -> exn + pyval;
  update_meeting : string -> string -> string -> Z -> exn + pyval;
  create_meeting : string -> string -> Z -> exn + (pyval * pyval);
  update_event : pyval -> string -> string -> Z -> string -> exn + string;
  create_event : string -> string -> Z -> string -> exn + string;
  commit_mapping_file : pydict -> exn + unit;
  create_comment : string -> exn + unit;
  send_message : string -> exn + unit
}.

(** The mapping file, the calls made so far, and the two variables of
    [handle_github_issue] that outlive its [try] block. *)
Record state : Type := State {
  file : option pydict;          (* None: MAPPING_FILE does not exist *)
  calls : list call;
  mapping : pydict;
  comment_lines : list string
}.

Definition initial (f : option pydict) : state := State f [] [] [].

Definition do_call {A} (c : call) (answer : exn + A) : M state A :=
  modify (fun st =>
            State (file st) (calls st ++ [c]) (mapping st) (comment_lines st))
  ;; lift answer.

Definition set_mapping (m : pydict) : M state unit :=
  modify (fun st => State (file st) (calls st) m (comment_lines st)).

Definition append_comment (line : string) : M state unit :=
  modify (fun st =>
            State (file st) (calls st) (mapping st)
                  (comment_lines st ++ [line])).

Definition load_meeting_topic_mapping : M state pydict :=
  st <- get ;;
  ret (match file st with Some m => m | None => [] end).

Definition save_meeting_topic_mapping (m : pydict) : M state unit :=
  modify (fun st => State (Some m) (calls st) (mapping st) (comment_lines st)).

(** [save_meeting_topic_mapping(mapping); commit_mapping_file()] *)
Definition save_and_commit (sv : services) : M state unit :=
  st <- get ;;
  save_meeting_topic_mapping (mapping st) ;;
  do_call (commit (mapping st)) (commit_mapping_file sv (mapping st)).

(** [issue.body or "(No issue body provided.)"] *)
Definition issue_body (sv : services) : string :=
  match issue_body_field sv with
  | Some b => if String.eqb b "" then "(No issue body provided.)" else b
  | None => "(No issue body provided.)"
  end.

Definition discourse_url (sv : services) (topic_id : pyval) : string :=
  discourse_base_url sv ++ "/t/" ++ py_str topic_id.

Definition topic_comment (sv : services) (topic_id : pyval)
    (action : string) : M state unit :=
  append_comment ("**Discourse Topic ID:** " ++ py_str topic_id) ;;
  append_comment ("- Action: " ++ action) ;;
  append_comment ("- URL: " ++ discourse_url sv topic_id).

(** Lines 47-78: the topic of the issue is looked up in the mapping, then
    updated or created.  Nothing here is inside a [try]. *)
Definition discourse_handling (sv : services) (issue_number : Z)
  : M state pyval :=
  st <- get ;;
  existing <- lift (find_by_issue (mapping st) issue_number) ;;
  topic_id <-
    match existing with
    | Some (_, existing_entry) =>
        if truthy existing_entry
        then lift (py_get existing_entry "discourse_topic_id" VNone)
        else ret VNone
    | None => ret VNone
    end ;;
  if truthy topic_id then
    _ <- do_call (discourse_update_topic topic_id (issue_title sv)
                                         (issue_body sv))
                 (update_topic sv topic_id (issue_title sv) (issue_body sv)) ;;
    topic_comment sv topic_id "Updated" ;;
    ret topic_id
  else
    discourse_response <-
      do_call (discourse_create_topic (issue_title sv) (issue_body sv))
              (create_topic sv (issue_title sv) (issue_body sv)) ;;
    topic_id <- lift (py_get discourse_response "topic_id" VNone) ;;
    topic_comment sv topic_id "Created" ;;
    ret topic_id.

(** The record written at lines 134-145. *)
Definition new_record (sv : services) (topic_id : pyval)
    (start_time : string) (duration issue_number : Z) (meeting_id : string)
  : pyval :=
  VDict [ ("discourse_topic_id", topic_id);
          ("issue_title", VStr (issue_title sv));
          ("start_time", VStr start_time);
          ("duration", VInt duration);
          ("issue_number", VInt issue_number);
          ("meeting_id", VStr meeting_id);
          ("Youtube_upload_processed", VBool false);
          ("transcript_processed", VBool false);
          ("upload_attempt_count", VInt 0);
          ("transcript_attempt_count", VInt 0) ].

(** Reading a local variable that may not have been assigned. *)
Definition read_local {A} (name : string) (v : option A) : M state A :=
  match v with
  | Some a => ret a
  | None => raise (UnboundLocalError name)
  end.

Definition event_description (sv : services) (join_url : pyval) : string :=
  "Issue: " ++ issue_html_url sv ++ String newline ("Zoom: " ++ py_str join_url).

(** Lines 86-126: the meeting of the issue is left alone, updated or
    created.  Returns [zoom_id], [join_url] when it was assigned, and
    [meeting_updated], with whether an item was found. *)
Definition resolve_meeting (sv : services) (issue_number : Z)
    (start_time : string) (duration : Z)
  : M state (pyval * option pyval * bool * bool) :=
  st <- get ;;
  existing_item <- lift (find_by_issue (mapping st) issue_number) ;;
  match existing_item with
  | Some (existing_zoom_meeting_id, existing_entry) =>
      stored_start <- lift (py_get existing_entry "start_time" VNone) ;;
      stored_duration <- lift (py_get existing_entry "duration" VNone) ;;
      if truthy stored_start && truthy stored_duration
         && eq_str stored_start start_time
         && eq_int stored_duration duration
      then ret (VStr existing_zoom_meeting_id, None, false, true)
      else
        zoom_response <-
          do_call (zoom_update_meeting existing_zoom_meeting_id
                     (issue_title sv) start_time duration)
                  (update_meeting sv existing_zoom_meeting_id
                     (issue_title sv) start_time duration) ;;
        append_comment (String newline "**Zoom Meeting Updated**") ;;
        url <- lift (py_get zoom_response "join_url" VNone) ;;
        append_comment ("- Meeting URL: " ++ py_str url) ;;
        append_comment ("- Meeting ID: " ++ existing_zoom_meeting_id) ;;
        ret (VStr existing_zoom_meeting_id, None, true, true)
  | None =>
      '(join_url, zoom_id) <-
        do_call (zoom_create_meeting (issue_title sv) start_time duration)
                (create_meeting sv (issue_title sv) start_time duration) ;;
      append_comment (String newline "**Zoom Meeting Created**") ;;
      append_comment ("- Meeting URL: " ++ py_str join_url) ;;
      append_comment ("- Meeting ID: " ++ py_str zoom_id) ;;
      ret (zoom_id, Some join_url, true, false)
  end.

(** Lines 152-180: the calendar event of the meeting.  The arguments of
    the call, of which [description] reads [join_url], are evaluated before
    the call is made. *)
Definition calendar_handling (sv : services) (meeting_id : string)
    (join_url : option pyval) (start_time : string) (duration : Z)
  : M state unit :=
  st <- get ;;
  entry <- lift (match dict_get (mapping st) meeting_id with
                 | Some e => inr e
                 | None => inl (KeyError meeting_id)
                 end) ;;
  existing_event_id <- lift (py_get entry "calendar_event_id" VNone) ;;
  if truthy existing_event_id then
    url <- read_local "join_url" join_url ;;
    _ <- do_call (gcal_update_event existing_event_id (issue_title sv)
                    start_time duration (event_description sv url))
                 (update_event sv existing_event_id (issue_title sv)
                    start_time duration (event_description sv url)) ;;
    ret tt
  else
    url <- read_local "join_url" join_url ;;
    event_link <-
      do_call (gcal_create_event (issue_title sv) start_time duration
                 (event_description sv url))
              (create_event sv (issue_title sv) start_time duration
                 (event_description sv url)) ;;
    st <- get ;;
    match dict_get (mapping st) meeting_id with
    | Some (VDict d) =>
        set_mapping
          (dict_set (mapping st) meeting_id
             (VDict (dict_set d "calendar_event_id"
                       (VStr (str (after_last (la "eid=")
                                              (la event_link))))))) ;;
        save_and_commit sv
    | _ => raise TypeError
    end.

(** The body of the [try] block, lines 82-180. *)
Definition meeting_and_calendar (sv : services) (issue_number : Z)
    (topic_id : pyval) : M state unit :=
  '(start_time, duration) <- lift (parse_issue_for_time (issue_body sv)) ;;
  '(zoom_id, join_url, meeting_updated, found) <-
    resolve_meeting sv issue_number start_time duration ;;
  let meeting_id := py_str zoom_id in
  (if meeting_updated || negb found then
     st <- get ;;
     set_mapping
       (dict_set (mapping st) meeting_id
          (new_record sv topic_id start_time duration issue_number
                      meeting_id)) ;;
     save_and_commit sv
   else ret tt) ;;
  calendar_handling sv meeting_id join_url start_time duration.

Definition telegram_message (sv : services) (topic_id : pyval) : string :=
  "New Discourse Topic: " ++ issue_title sv
  ++ String newline (String newline (issue_body sv))
  ++ String newline (discourse_url sv topic_id).

(** [handle_github_issue(issue_number, repo_name)], from the point where
    the issue has been fetched.  Both [except] clauses of the [try] block
    only print. *)
Definition handle_github_issue (sv : services) (issue_number : Z)
  : M state unit :=
  m <- load_meeting_topic_mapping ;;
  set_mapping m ;;
  topic_id <- discourse_handling sv issue_number ;;
  try_catch (meeting_and_calendar sv issue_number topic_id)
            (fun _ => ret tt) ;;
  st <- get ;;
  (match comment_lines st with
   | [] => ret tt
   | _ :: _ =>
       do_call (issue_create_comment (join_lines (comment_lines st)))
               (create_comment sv (join_lines (comment_lines st)))
   end) ;;
  try_catch (do_call (telegram_send_message (telegram_message sv topic_id))
                     (send_message sv (telegram_message sv topic_id)))
            (fun _ => ret tt) ;;
  st <- get ;;
  pruned <- lift (prune (mapping st)) ;;
  set_mapping pruned.

(** One run of the script on the mapping file [f]: how it ends, and the
    state it leaves. *)
Definition run_issue (sv : services) (f : option pydict) (issue_number : Z)
  : (exn + unit) * state :=
  handle_github_issue sv issue_number (initial f).

End handle_issue.

(* ================================================================== *)
(** * [poll_zoom_recordings.py] *)
(* ================================================================== *)

Module poll_zoom_recordings.

Local Open Scope py_scope.
Local Open Scope string_scope.

Inductive call : Type :=
| post_zoom_transcript_to_discourse (meeting_id : string)
| commit (content : pydict)
| zoom_get_recordings_list.

(** The answers of [modules.transcript], [modules.zoom] and GitHub during
    one run.  [recording_eligible] stands for
    [is_meeting_eligible(strptime(end_time_str, ...))] at the time of the
    run: the clock is not modelled. *)
Record services : Type := Services {
  post_transcript : string -> exn + pyval;
  commit_mapping_file : pydict -> exn + unit;
  get_recordings_list : exn + list pyval;
  recording_eligible : pyval -> exn + bool
}.

Record state : Type := State {
  file : option pydict;
  calls : list call;
  mapping : pydict
}.

Definition initial (f : option pydict) : state := State f [] [].

Definition do_call {A} (c : call) (answer : exn + A) : M state A :=
  modify (fun st => State (file st) (calls st ++ [c]) (mapping st)) ;;
  lift answer.

Definition set_mapping (m : pydict) : M state unit :=
  modify (fun st => State (file st) (calls st) m).

Definition load_meeting_topic_mapping : M state pydict :=
  st <- get ;;
  ret (match file st with Some m => m | None => [] end).

Definition save_and_commit (sv : services) : M state unit :=
  st <- get ;;
  modify (fun st => State (Some (mapping st)) (calls st) (mapping st)) ;;
  do_call (commit (mapping st)) (commit_mapping_file sv (mapping st)).

(** [mapping.get(key)] *)
Definition mapping_get (m : pydict) (key : string) : pyval :=
  match dict_get m key with Some v => v | None => VNone end.

(** [entry[field] = v] for the entry object stored under [meeting_id]: the
    entry is shared with the mapping, which sees the change. *)
Definition set_entry_field (meeting_id field : string) (v : pyval)
  : M state unit :=
  st <- get ;;
  match dict_get (mapping st) meeting_id with
  | Some (VDict d) =>
      set_mapping (dict_set (mapping st) meeting_id
                            (VDict (dict_set d field v)))
  | _ => raise TypeError
  end.

(** [validate_meeting_id] *)
Definition validate_meeting_id (meeting_id : string) : string :=
  str (strip (la meeting_id)).

(** Lines 75-94, the body of the [try] of the forced mode. *)
Definition force_process (sv : services) (meeting_id : string)
  : M state unit :=
  m <- load_meeting_topic_mapping ;;
  set_mapping m ;;
  let entry := mapping_get m meeting_id in
  discourse_topic_id <-
    (if is_dict entry then lift (py_get entry "discourse_topic_id" VNone)
     else ret entry) ;;
  (if negb (truthy discourse_topic_id)
   then raise (ValueError ("No Discourse topic mapping found for meeting "
                           ++ meeting_id))
   else ret tt) ;;
  _ <- do_call (post_zoom_transcript_to_discourse meeting_id)
               (post_transcript sv meeting_id) ;;
  title <- lift (py_get entry "issue_title"
                        (VStr ("Meeting " ++ meeting_id))) ;;
  st <- get ;;
  set_mapping (dict_set (mapping st) meeting_id
                 (VDict [ ("discourse_topic_id", discourse_topic_id);
                          ("issue_title", title) ])) ;;
  save_and_commit sv.

(** [list(mapping.items())[-5:]], newest first. *)
Definition last_five (m : pydict) : pydict :=
  rev (skipn (List.length m - 5) m).

(** Lines 107-123: one round of the loop over the last five entries;
    returns what it adds to [processed_count]. *)
Definition process_recent (sv : services) (meeting_id : string)
    (entry : pyval) : M state nat :=
  if negb (is_dict entry) then ret 0
  else
    processed <- lift (py_get entry "transcript_processed" VNone) ;;
    if truthy processed then ret 0
    else
      try_catch
        (_ <- do_call (post_zoom_transcript_to_discourse meeting_id)
                      (post_transcript sv meeting_id) ;;
         set_entry_field meeting_id "transcript_processed" (VBool true) ;;
         save_and_commit sv ;;
         ret 1)
        (fun _ => ret 0).

Fixpoint recent_loop (sv : services) (items : pydict) : M state nat :=
  match items with
  | [] => ret 0
  | (meeting_id, entry) :: items' =>
      n <- process_recent sv meeting_id entry ;;
      k <- recent_loop sv items' ;;
      ret (n + k)
  end.

(** Lines 135-157: one recording of the provider's list; returns the
    candidate it adds to [meetings_to_process], if any. *)
Definition screen_recording (sv : services) (meeting : pyval)
  : M state (option (string * pyval)) :=
  id <- lift (py_get meeting "id" VNone) ;;
  let meeting_id := py_str id in
  end_time_str <- lift (py_get meeting "end_time" VNone) ;;
  if String.eqb meeting_id "" || negb (truthy end_time_str) then ret None
  else
    st <- get ;;
    let existing_entry := mapping_get (mapping st) meeting_id in
    skip <-
      (if truthy existing_entry then
         if is_dict existing_entry then
           t <- lift (py_get existing_entry "discourse_topic_id" VNone) ;;
           p <- lift (py_get existing_entry "transcript_processed" VNone) ;;
           ret (truthy t && truthy p)
         else
           ret (match existing_entry with
                | VInt _ | VBool _ | VStr _ => true
                | _ => false
                end)
       else ret false) ;;
    if (skip : bool) then ret None
    else
      ok <- lift (recording_eligible sv end_time_str) ;;
      if (ok : bool) then
        topic <- lift (py_get meeting "topic" VNone) ;;
        ret (Some (meeting_id, topic))
      else ret None.

Fixpoint screen_loop (sv : services) (recordings : list pyval)
  : M state (list (string * pyval)) :=
  match recordings with
  | [] => ret []
  | meeting :: recordings' =>
      c <- screen_recording sv meeting ;;
      cs <- screen_loop sv recordings' ;;
      ret (match c with Some x => x :: cs | None => cs end)
  end.

(** Lines 163-193: one candidate of [meetings_to_process]. *)
Definition process_candidate (sv : services) (meeting_id : string)
  : M state unit :=
  st <- get ;;
  (if negb (dict_has (mapping st) meeting_id)
      || negb (is_dict (mapping_get (mapping st) meeting_id))
   then set_mapping (dict_set (mapping st) meeting_id (VDict []))
   else ret tt) ;;
  st <- get ;;
  let const_entry := mapping_get (mapping st) meeting_id in
  processed <- lift (py_get const_entry "transcript_processed" VNone) ;;
  if truthy processed then ret tt
  else
    count <- lift (py_get const_entry "upload_attempt_count" (VInt 0)) ;;
    ceiling <- lift (ge_int count 10) ;;
    if (ceiling : bool) then ret tt
    else
      try_finally
        (try_catch
           (topic_id <- do_call (post_zoom_transcript_to_discourse meeting_id)
                                (post_transcript sv meeting_id) ;;
            set_entry_field meeting_id "discourse_topic_id" topic_id ;;
            set_entry_field meeting_id "transcript_processed" (VBool true))
           (fun _ =>
              st <- get ;;
              old <- lift (py_get (mapping_get (mapping st) meeting_id)
                                  "upload_attempt_count" (VInt 0)) ;;
              new <- lift (add_one old) ;;
              set_entry_field meeting_id "upload_attempt_count" new))
        (save_and_commit sv).

Fixpoint candidates_loop (sv : services) (cs : list (string * pyval))
  : M state unit :=
  match cs with
  | [] => ret tt
  | (meeting_id, _) :: cs' =>
      process_candidate sv meeting_id ;;
      candidates_loop sv cs'
  end.

(** Lines 101-193: the sweep over the last five entries and, when it
    processed nothing, over the recordings the provider lists. *)
Definition sweep (sv : services) : M state unit :=
  m <- load_meeting_topic_mapping ;;
  set_mapping m ;;
  processed_count <- recent_loop sv (last_five m) ;;
  if Nat.eqb processed_count 0 then
    m <- load_meeting_topic_mapping ;;
    set_mapping m ;;
    recordings <- do_call zoom_get_recordings_list (get_recordings_list sv) ;;
    meetings_to_process <- screen_loop sv recordings ;;
    candidates_loop sv meetings_to_process
  else ret tt.

(** [main()], with the value of [--force_meeting_id]. *)
Definition main (sv : services) (force_meeting_id : option string)
  : M state unit :=
  match force_meeting_id with
  | Some id =>
      if String.eqb id "" then sweep sv
      else
        let meeting_id := validate_meeting_id id in
        if String.eqb meeting_id "" then sweep sv
        else try_catch (force_process sv meeting_id) (fun _ => ret tt)
  | None => sweep sv
  end.

Definition run_main (sv : services) (f : option pydict)
    (force_meeting_id : option string) : (exn + unit) * state :=
  main sv force_meeting_id (initial f).

End poll_zoom_recordings.

(* ================================================================== *)
(** * Runs used below *)
(* ================================================================== *)

Module scenario.

Local Open Scope string_scope.

(** Services that all answer: the topic created gets id 7, the meeting
    created gets id 123. *)
Definition answering (body : string) : handle_issue.services :=
  handle_issue.Services
    "ACDE #1" (Some body) "https://github.com/o/r/issues/1"
    "https://ethereum-magicians.org"
    (fun _ _ _ => inr (VDict []))
    (fun _ _ => inr (VDict [("topic_id", VInt 7)]))
    (fun _ _ _ _ => inr (VDict [("join_url", VStr "https://zoom.us/j/123")]))
    (fun _ _ _ => inr (VStr "https://zoom.us/j/123", VInt 123))
    (fun _ _ _ _ _ => inr "https://calendar.google.com/event?eid=abc")
    (fun _ _ _ _ => inr "https://calendar.google.com/event?eid=abc")
    (fun _ => inr tt) (fun _ => inr tt) (fun _ => inr tt).

(** The same, but the forum's answer to the creation carries no
    [topic_id]. *)
Definition no_topic_id (body : string) : handle_issue.services :=
  handle_issue.Services
    "ACDE #1" (Some body) "https://github.com/o/r/issues/1"
    "https://ethereum-magicians.org"
    (fun _ _ _ => inr (VDict []))
    (fun _ _ => inr (VDict []))
    (fun _ _ _ _ => inr (VDict [("join_url", VStr "https://zoom.us/j/123")]))
    (fun _ _ _ => inr (VStr "https://zoom.us/j/123", VInt 123))
    (fun _ _ _ _ _ => inr "https://calendar.google.com/event?eid=abc")
    (fun _ _ _ _ => inr "https://calendar.google.com/event?eid=abc")
    (fun _ => inr tt) (fun _ => inr tt) (fun _ => inr tt).

Definition half_hour : string := "[Tue May 14, 2024 15:00-15:30 UTC]".
Definition full_hour : string := "[Tue May 14, 2024 15:00-16:00 UTC]".

(** A record of issue 1 as an earlier run and the harvester left it. *)
Definition harvested_record : pyval :=
  VDict [ ("discourse_topic_id", VInt 7);
          ("issue_title", VStr "ACDE #1");
          ("start_time", VStr "2024-05-14T15:00:00Z");
          ("duration", VInt 30);
          ("issue_number", VInt 1);
          ("meeting_id", VStr "123");
          ("Youtube_upload_processed", VBool true);
          ("transcript_processed", VBool true);
          ("upload_attempt_count", VInt 3);
          ("transcript_attempt_count", VInt 2);
          ("calendar_event_id", VStr "abc") ].

Definition harvested_store : pydict := [("123", harvested_record)].

(** A record of issue 1 whose stored duration is 0. *)
Definition zero_duration_record : pyval :=
  VDict [ ("discourse_topic_id", VInt 7);
          ("issue_title", VStr "ACDE #1");
          ("start_time", VStr "2024-05-14T15:00:00Z");
          ("duration", VInt 0);
          ("issue_number", VInt 1);
          ("meeting_id", VStr "123") ].

Definition zero_duration_body : string :=
  "May 14, 2024 15:00 UTC" ++ String newline "Duration: 0 minutes".

(** A legacy entry: a bare topic id. *)
Definition legacy_store : pydict := [("111", VInt 42)].

(** The record of issue 1 followed by a legacy entry. *)
Definition mixed_store : pydict :=
  [("123", harvested_record); ("111", VInt 42)].

(** A harvester whose transcript fetch fails and for which the provider
    lists no recording. *)
Definition failing_fetch : poll_zoom_recordings.services :=
  poll_zoom_recordings.Services
    (fun _ => inl (ServiceError "no transcript"))
    (fun _ => inr tt)
    (inr [])
    (fun _ => inr true).

(** A harvester whose calls all answer. *)
Definition fetching : poll_zoom_recordings.services :=
  poll_zoom_recordings.Services
    (fun _ => inr (VInt 7))
    (fun _ => inr tt)
    (inr [])
    (fun _ => inr true).

(** A record that has used up its ten upload attempts. *)
Definition exhausted_store : pydict :=
  [("555", VDict [ ("discourse_topic_id", VInt 7);
                   ("issue_title", VStr "ACDE #1");
                   ("transcript_processed", VBool false);
                   ("upload_attempt_count", VInt 10) ])].

(** The runs. *)

(** A first run on the issue when the forum's answer has no [topic_id]. *)
Definition failed_create_run : (exn + unit) * handle_issue.state :=
  handle_issue.run_issue (no_topic_id half_hour) None 1.

(** A second run after the duration in the body went from 30 to 60. *)
Definition drift_run : (exn + unit) * handle_issue.state :=
  handle_issue.run_issue (answering full_hour) (Some harvested_store) 1.

(** A second run on the unchanged body. *)
Definition unchanged_run : (exn + unit) * handle_issue.state :=
  handle_issue.run_issue (answering half_hour) (Some harvested_store) 1.

(** A second run on an unchanged body whose duration is 0. *)
Definition zero_duration_run : (exn + unit) * handle_issue.state :=
  handle_issue.run_issue (answering zero_duration_body)
                         (Some [("123", zero_duration_record)]) 1.

Definition no_date_body : string := "Agenda to follow.".

(** A first run on a body without a date. *)
Definition no_date_run : (exn + unit) * handle_issue.state :=
  handle_issue.run_issue (answering no_date_body) None 1.

Definition legacy_run : (exn + unit) * handle_issue.state :=
  handle_issue.run_issue (answering half_hour) (Some legacy_store) 1.

Definition mixed_run : (exn + unit) * handle_issue.state :=
  handle_issue.run_issue (answering half_hour) (Some mixed_store) 1.

(** A sweep of the harvester over the exhausted record. *)
Definition exhausted_sweep : (exn + unit) * poll_zoom_recordings.state :=
  poll_zoom_recordings.run_main failing_fetch (Some exhausted_store) None.

(** Forced mode on an id that is not in the mapping, and on one that
    is. *)
Definition unmapped_forced : (exn + unit) * poll_zoom_recordings.state :=
  poll_zoom_recordings.run_main fetching None (Some "555").

Definition mapped_forced : (exn + unit) * poll_zoom_recordings.state :=
  poll_zoom_recordings.run_main fetching (Some exhausted_store) (Some "555").

(** The record the forced mode leaves. *)
Definition minimized_store : pydict :=
  [("555", VDict [ ("discourse_topic_id", VInt 7);
                   ("issue_title", VStr "ACDE #1") ])].

(** Bodies for the extractor. *)
Definition label_and_end_time : string :=
  "[Tue May 14, 2024 15:00-15:30 UTC]" ++ String newline
    "Duration: 45 minutes".

Definition bullet_and_end_time : string :=
  "May 14, 2024 15:00-15:30 UTC" ++ String newline "- 15 minutes".

Definition bullet_only : string :=
  "May 14, 2024 15:00 UTC" ++ String newline "- 15 minutes".

Definition end_time_only : string := "May 14, 2024 15:00-15:30 UTC".

Definition start_only : string := "May 14, 2024 15:00 UTC".

Definition token_in_sentence : string :=
  "The call is on May 14, 2024 15:00-15:30 UTC; agenda to follow.".

End scenario.

(** Counting the calls of a run. *)
Definition count {A} (p : A -> bool) (l : list A) : nat :=
  List.length (filter p l).

Definition is_meeting_update (c : handle_issue.call) : bool :=
  match c with handle_issue.zoom_update_meeting _ _ _ _ => true | _ => false end.

Definition is_meeting_create (c : handle_issue.call) : bool :=
  match c with handle_issue.zoom_create_meeting _ _ _ => true | _ => false end.

Definition is_event_update (c : handle_issue.call) : bool :=
  match c with
  | handle_issue.gcal_update_event _ _ _ _ _ => true
  | _ => false
  end.

Definition is_event_create (c : handle_issue.call) : bool :=
  match c with
  | handle_issue.gcal_create_event _ _ _ _ => true
  | _ => false
  end.

Definition is_comment (c : handle_issue.call) : bool :=
  match c with handle_issue.issue_create_comment _ => true | _ => false end.

Definition is_fetch_of (meeting_id : string) (c : poll_zoom_recordings.call)
  : bool :=
  match c with
  | poll_zoom_recordings.post_zoom_transcript_to_discourse m =>
      String.eqb m meeting_id
  | _ => false
  end.

(** The field of the record stored under [meeting_id] in a mapping file;
    [None] when there is no such file, record or field. *)
Definition stored_field (f : option pydict) (meeting_id field : string)
  : option pyval :=
  match f with
  | Some m =>
      match dict_get m meeting_id with
      | Some (VDict d) => dict_get d field
      | _ => None
      end
  | None => None
  end.


(* ================================================================== *)
(** * Vocabulary of the statements *)
(* ================================================================== *)

(** What [load_meeting_topic_mapping] returns for a mapping file. *)
Definition stored_mapping (f : option pydict) : pydict :=
  match f with Some m => m | None => [] end.

(** The test of line 98 of [handle_issue.py] on a stored record. *)
Definition schedule_unchanged (entry : pyval) (start_time : string)
    (duration : Z) : bool :=
  match py_get entry "start_time" VNone, py_get entry "duration" VNone with
  | inr stored_start, inr stored_duration =>
      truthy stored_start && truthy stored_duration
      && eq_str stored_start start_time && eq_int stored_duration duration
  | _, _ => false
  end.

(** A kind of call that is neither to the forum nor a comment or a
    notification. *)
Definition backstage (p : handle_issue.call -> bool) : Prop :=
  (forall a b c, p (handle_issue.discourse_update_topic a b c) = false)
  /\ (forall a b, p (handle_issue.discourse_create_topic a b) = false)
  /\ (forall a, p (handle_issue.issue_create_comment a) = false)
  /\ (forall a, p (handle_issue.telegram_send_message a) = false).

(** The forum answers every call, a creation with a [dict]. *)
Definition forum_answers (sv : handle_issue.services) : Prop :=
  (forall t a b, exists r, handle_issue.update_topic sv t a b = inr r)
  /\ (forall a b, exists d, handle_issue.create_topic sv a b = inr (VDict d)).

(** The topic id the forced mode of the harvester reads from an entry
    (line 79 of [poll_zoom_recordings.py]). *)
Definition mapped_topic (entry : pyval) : pyval :=
  match entry with
  | VDict d => match dict_get d "discourse_topic_id" with
               | Some t => t
               | None => VNone
               end
  | v => v
  end.

(* ================================================================== *)
(** * Date tokens of the shape [Month D, YYYY HH:MM-HH:MM UTC] *)
(* ================================================================== *)

(** A text in pieces, some of which are runs of decimal digits. *)
Inductive segment : Type :=
| Lit (t : text)
| Digits (t : text).

Definition seg_text (s : segment) : text :=
  match s with Lit t => t | Digits t => t end.

Definition flat (segs : list segment) : text := List.concat (map seg_text segs).

(** The same text with every digit of a digit run replaced by a zero. *)
Definition seg_zeroed (s : segment) : text :=
  match s with
  | Lit t => t
  | Digits t => repeat "0"%char (List.length t)
  end.

Definition zeroed (segs : list segment) : text := List.concat (map seg_zeroed segs).

Fixpoint digit_runs (segs : list segment) : bool :=
  match segs with
  | [] => true
  | Lit _ :: segs' => digit_runs segs'
  | Digits t :: segs' => forallb is_digit t && digit_runs segs'
  end.

(** The matcher does not tell one digit from another: [norm] sends them
    all to the zero. *)
Definition norm (c : ascii) : ascii := if is_digit c then "0"%char else c.

Definition norm_state (st : mstate) : mstate :=
  MState (option_map norm (prev st)) (map norm (rest st)) (pos st) (caps st).

Definition all_ascii : list ascii := map ascii_of_nat (seq 0 256).

(** A character test that gives the same answer on all digits. *)
Definition test_blind (p : ascii -> bool) : bool :=
  forallb (fun c => Bool.eqb (p (norm c)) (p c)) all_ascii.

Fixpoint regex_blind (r : regex) : bool :=
  match r with
  | Chr p => test_blind p
  | Cat r1 r2 | Alt r1 r2 => regex_blind r1 && regex_blind r2
  | Repeat _ _ r' | Group _ r' => regex_blind r'
  | Empty | WordBoundary | LineStart => true
  end.

(** Where a match starts and the spans of its groups. *)
Definition spans (m : rmatch) : nat * list (string * (nat * nat)) :=
  (m_start m, caps (m_end m)).

Inductive spelling : Type := FullName | Abbreviation.

Definition weekday_text (w : nat) : text :=
  la (nth w ["Mon"; "Tue"; "Wed"; "Thu"; "Fri"; "Sat"; "Sun"]%string
          ""%string).

Definition month_text (sp : spelling) (m : nat) : text :=
  la (nth (m - 1)
          (match sp with
           | FullName =>
               ["January"; "February"; "March"; "April"; "May"; "June";
                "July"; "August"; "September"; "October"; "November";
                "December"]
           | Abbreviation =>
               ["Jan"; "Feb"; "Mar"; "Apr"; "May"; "Jun"; "Jul"; "Aug";
                "Sep"; "Oct"; "Nov"; "Dec"]
           end)%string
          ""%string).

(** The pieces of a token: optional bracket, optional day of the week,
    month name, day, year, start and end time, and the zone marker. *)
Definition token_segments (bracket : bool) (weekday : option nat)
    (month dd yyyy hh mm eh em : text) : list segment :=
  [ Lit (if bracket then la "[" else []);
    Lit (match weekday with
         | Some w => weekday_text w ++ la " "
         | None => []
         end);
    Lit month; Lit (la " "); Digits dd; Lit (la ", "); Digits yyyy;
    Lit (la " "); Digits hh; Lit (la ":"); Digits mm; Lit (la "-");
    Digits eh; Lit (la ":"); Digits em; Lit (la " UTC");
    Lit (if bracket then la "]" else []) ].

Record date_token : Type := DateToken {
  tk_bracketed : bool;
  tk_weekday : option nat;       (* 0 for Mon ... 6 for Sun *)
  tk_spelled : spelling;
  tk_month : nat;
  tk_day : nat;
  tk_year : nat;
  tk_hour : nat;
  tk_minute : nat;
  tk_end_hour : nat;
  tk_end_minute : nat
}.

(** The token as it is written in an issue body: the day without padding,
    the year in four digits, hours and minutes in two. *)
Definition render_token (tk : date_token) : text :=
  flat (token_segments (tk_bracketed tk) (tk_weekday tk)
          (month_text (tk_spelled tk) (tk_month tk))
          (dec_of_nat (tk_day tk)) (pad4 (tk_year tk))
          (pad2 (tk_hour tk)) (pad2 (tk_minute tk))
          (pad2 (tk_end_hour tk)) (pad2 (tk_end_minute tk))).

(** A token that names a date and two times of day that exist. *)
Definition valid_token (tk : date_token) : bool :=
  match tk_weekday tk with Some w => w <? 7 | None => true end
  && (1 <=? tk_month tk) && (tk_month tk <=? 12)
  && (1 <=? tk_year tk) && (tk_year tk <? 100 * 100)
  && (1 <=? tk_day tk)
  && (tk_day tk <=? days_in_month (tk_year tk) (tk_month tk))
  && (tk_hour tk <=? 23) && (tk_minute tk <=? 59)
  && (tk_end_hour tk <=? 23) && (tk_end_minute tk <=? 59).

Definition start_minutes (tk : date_token) : nat :=
  60 * tk_hour tk + tk_minute tk.

Definition end_minutes (tk : date_token) : nat :=
  60 * tk_end_hour tk + tk_end_minute tk.

(** The start of the token in ISO-8601 with the zone marker. *)
Definition start_iso (tk : date_token) : string :=
  str (pad4 (tk_year tk) ++ la "-" ++ pad2 (tk_month tk) ++ la "-"
       ++ pad2 (tk_day tk) ++ la "T" ++ pad2 (tk_hour tk) ++ la ":"
       ++ pad2 (tk_minute tk) ++ la ":00Z").

(** What the extractor is to return for a token: the error when the end
    is not after the start, else the start and the difference. *)
Definition token_outcome (tk : date_token) : exn + (string * Z) :=
  if end_minutes tk <=? start_minutes tk
  then inl (ValueError "End time must be after start time.")
  else inr (start_iso tk, Z.of_nat (end_minutes tk - start_minutes tk)).

(** The groups a date token gives to [date_pattern]. *)
Record token_groups (body : text) (dm : rmatch)
    (mon dd yy hh mm eh em : text) : Prop := TokenGroups {
  g_month : group body dm "month" = Some mon;
  g_day : group body dm "day" = Some dd;
  g_year : group body dm "year" = Some yy;
  g_hour : group body dm "hour" = Some hh;
  g_minute : group body dm "minute" = Some mm;
  g_end_hour : group body dm "end_hour" = Some eh;
  g_end_minute : group body dm "end_minute" = Some em
}.

(** No character of [t], or its first one fails [p]. *)
Definition hd_fails (p : ascii -> bool) (t : text) : bool :=
  match t with [] => true | c :: _ => negb (p c) end.

(** The token of the scenario [[Tue May 14, 2024 15:00-15:30 UTC]], and the
    same without brackets and day of the week. *)
Definition may_14_token : date_token :=
  DateToken true (Some 1) Abbreviation 5 14 2024 15 0 15 30.

Definition may_14_bare : date_token :=
  DateToken false None Abbreviation 5 14 2024 15 0 15 30.
(* ================================================================== *)
(** * Vocabulary of the further properties *)
(* ================================================================== *)

(** A [datetime] that names a day of the calendar and a time of day. *)
Definition existing_datetime (dt : datetime) : Prop :=
  1 <= dt_year dt < 100 * 100
  /\ 1 <= dt_month dt <= 12
  /\ 1 <= dt_day dt <= days_in_month (dt_year dt) (dt_month dt)
  /\ dt_hour dt <= 23 /\ dt_minute dt <= 59.

Definition is_commit (c : handle_issue.call) : bool :=
  match c with handle_issue.commit _ => true | _ => false end.

(** A call to the meeting provider, and one to the calendar. *)
Definition is_meeting_call (c : handle_issue.call) : bool :=
  is_meeting_update c || is_meeting_create c.

Definition is_event_call (c : handle_issue.call) : bool :=
  is_event_update c || is_event_create c.

(** [issue.body] is [None] or empty: line 45 puts the placeholder in its
    place. *)
Definition no_body (sv : handle_issue.services) : bool :=
  match handle_issue.issue_body_field sv with
  | Some b => String.eqb b ""
  | None => true
  end.

(** Splits the goal on the innermost scrutinee of a [match] or [if]. *)
Ltac py_cases :=
  match goal with
  | |- context [match ?x with _ => _ end] =>
      lazymatch x with
      | context [match _ with _ => _ end] => fail
      | _ => destruct x eqn:?
      end
  | |- context [if ?x then _ else _] =>
      lazymatch x with
      | context [if _ then _ else _] => fail
      | _ => destruct x eqn:?
      end
  end.

(** A token whose times of day exist and whose day, at most 31, is past
    the end of its month: February 30, April 31. *)
Definition day_past_month_end (tk : date_token) : bool :=
  match tk_weekday tk with Some w => w <? 7 | None => true end
  && (1 <=? tk_month tk) && (tk_month tk <=? 12)
  && (1 <=? tk_year tk) && (tk_year tk <? 100 * 100)
  && (days_in_month (tk_year tk) (tk_month tk) <? tk_day tk)
  && (tk_day tk <=? 31)
  && (tk_hour tk <=? 23) && (tk_minute tk <=? 59)
  && (tk_end_hour tk <=? 23) && (tk_end_minute tk <=? 59).

(** A body whose duration label has 4301 digits. *)
Definition long_label : string :=
  str (la "May 14, 2024 15:00 UTC" ++ newline :: la "Duration: "
       ++ repeat "1"%char 4301).

(** The messages of the [ValueError]s that [parse_issue_for_time] raises
    itself. *)
Definition extractor_messages : list string :=
  [ "Missing or invalid date/time format.";
    "End time must be after start time.";
    missing_duration ]%string.

(** The separator of line 177 of [handle_issue.py]. *)
Definition eid : text := la "eid=".

(** What [event_link.split('eid=')[-1]] keeps of a link. *)
Definition event_id_of (event_link : string) : string :=
  str (after_last eid (la event_link)).

(** First and last character of a text, when it has one, are not white
    space. *)
Definition trimmed (t : text) : bool :=
  hd_fails is_space t && hd_fails is_space (rev t).

(** Every entry of the mapping is a [dict]. *)
Definition all_dicts (m : pydict) : bool :=
  forallb (fun kv => is_dict (snd kv)) m.

(** The test of the comprehension of line 201 on an entry that is a
    [dict]. *)
Definition has_topic (kv : string * pyval) : bool :=
  negb (is_none (mapped_topic (snd kv))).

Definition keys (m : pydict) : list string := map fst m.

(** The record after line 177 has stored the id of the event. *)
Definition with_event_id (record : pyval) (event_link : string) : pyval :=
  match record with
  | VDict d =>
      VDict (dict_set d "calendar_event_id" (VStr (event_id_of event_link)))
  | v => v
  end.

(** The lines of the comment: the topic, and the meeting created. *)
Definition topic_lines (sv : handle_issue.services) (topic_id : pyval)
    (action : string) : list string :=
  [ "**Discourse Topic ID:** " ++ py_str topic_id;
    "- Action: " ++ action;
    "- URL: " ++ handle_issue.discourse_url sv topic_id ]%string.

Definition created_lines (join_url zoom_id : pyval) : list string :=
  [ String newline "**Zoom Meeting Created**";
    "- Meeting URL: " ++ py_str join_url;
    "- Meeting ID: " ++ py_str zoom_id ]%string.

(** The same services with another answer of [telegram.send_message]. *)
Definition with_send_message (sv : handle_issue.services)
    (answer : string -> exn + unit) : handle_issue.services :=
  handle_issue.Services
    (handle_issue.issue_title sv) (handle_issue.issue_body_field sv)
    (handle_issue.issue_html_url sv) (handle_issue.discourse_base_url sv)
    (handle_issue.update_topic sv) (handle_issue.create_topic sv)
    (handle_issue.update_meeting sv) (handle_issue.create_meeting sv)
    (handle_issue.update_event sv) (handle_issue.create_event sv)
    (handle_issue.commit_mapping_file sv) (handle_issue.create_comment sv)
    answer.

(** The state in which [handle_github_issue] enters the forum phase. *)
Definition loaded (f : option pydict) : handle_issue.state :=
  handle_issue.State f [] (stored_mapping f) [].

Definition is_listing (c : poll_zoom_recordings.call) : bool :=
  match c with
  | poll_zoom_recordings.zoom_get_recordings_list => true
  | _ => false
  end.

Definition is_fetch (c : poll_zoom_recordings.call) : bool :=
  match c with
  | poll_zoom_recordings.post_zoom_transcript_to_discourse _ => true
  | _ => false
  end.

Definition is_harvest_commit (c : poll_zoom_recordings.call) : bool :=
  match c with poll_zoom_recordings.commit _ => true | _ => false end.

(** The record the forced mode writes at lines 88-91. *)
Definition minimal_record (topic_id title : pyval) : pyval :=
  VDict [("discourse_topic_id", topic_id); ("issue_title", title)]%string.

(** No key of the mapping file [f] is missing from [m]. *)
Definition keeps_keys (f : option pydict) (m : pydict) : Prop :=
  forall k, dict_has (stored_mapping f) k = true -> dict_has m k = true.

(** An entry the loop over the last five leaves alone: not a [dict], or
    with [transcript_processed] set. *)
Definition settled (kv : string * pyval) : bool :=
  match snd kv with
  | VDict d =>
      truthy (match dict_get d "transcript_processed" with
              | Some v => v
              | None => VNone
              end)
  | _ => true
  end.

(** The body of the loop of lines 163-193 on the same candidate, [k]
    times over: one pass for each run that reaches the loop. *)
Fixpoint attempts (sv : poll_zoom_recordings.services) (meeting_id : string)
    (k : nat) : M poll_zoom_recordings.state unit :=
  match k with
  | 0 => ret tt
  | S k' =>
      bind (poll_zoom_recordings.process_candidate sv meeting_id)
           (fun _ => attempts sv meeting_id k')
  end.

(** Neither the mapping in memory nor the mapping file has lost a key of
    the file [f] the run started from. *)
Definition keys_kept (f : option pydict) (st : poll_zoom_recordings.state)
  : Prop :=
  keeps_keys f (poll_zoom_recordings.mapping st)
  /\ keeps_keys f (stored_mapping (poll_zoom_recordings.file st)).

(* ================================================================== *)
(** * [commit_mapping_file], in both scripts *)
(* ================================================================== *)

Module github.

Local Open Scope string_scope.

Definition MAPPING_FILE : string := ".github/ACDbot/meeting_topic_mapping.json".

(** The calls to the repository, in the order they are made. *)
Inductive call : Type :=
| get_contents (path ref : string)
| update_file (path content sha branch : string)
| create_file (path content branch : string).

(** What [repo.get_contents] returns, as far as it is read. *)
Record contents : Type := Contents { path : string; sha : string }.

(** The answers of the repository.  A failure is the text [str(e)] of the
    exception the API raised. *)
Record repository : Type := Repository {
  on_get_contents : string -> string -> string + contents;
  on_update_file : string -> string -> string -> string -> string + unit;
  on_create_file : string -> string -> string -> string + unit
}.

(** What is raised inside the function: an exception of the API, or the
    [ValueError] of line 314 of [handle_issue.py]. *)
Inductive error : Type :=
| GithubException (text : string)
| PathMismatch (found : string).

(** [str(e)] *)
Definition error_text (e : error) : string :=
  match e with
  | GithubException t => t
  | PathMismatch found =>
      "Path mismatch: " ++ found ++ " vs " ++ MAPPING_FILE
  end.

Definition answer {A} (r : string + A) : error + A :=
  match r with inl t => inl (GithubException t) | inr a => inr a end.

(** [commit_mapping_file] of [handle_issue.py], lines 289-340, with the
    branch and the content read from the local file: the outcome and the
    calls made.  What [update_file] returns is only printed. *)
Definition handle_issue_commit (r : repository) (branch file_content : string)
  : (error + unit) * list call :=
  let get := get_contents MAPPING_FILE branch in
  let attempt : (error + unit) * list call :=
    match on_get_contents r MAPPING_FILE branch with
    | inl t => (inl (GithubException t), [get])
    | inr c =>
        if negb (String.eqb (path c) MAPPING_FILE)
        then (inl (PathMismatch (path c)), [get])
        else
          (answer (on_update_file r (path c) file_content (sha c) branch),
           [get; update_file (path c) file_content (sha c) branch])
    end in
  match attempt with
  | (inr u, made) => (inr u, made)
  | (inl e, made) =>
      if contains (la "404") (la (error_text e))
      then (answer (on_create_file r MAPPING_FILE file_content branch),
            (made ++ [create_file MAPPING_FILE file_content branch])%list)
      else (inl e, made)
  end.

(** [commit_mapping_file] of [poll_zoom_recordings.py], lines 21-54. *)
Definition poll_commit (r : repository) (branch file_content : string)
  : (error + unit) * list call :=
  let get := get_contents MAPPING_FILE branch in
  let attempt : (error + unit) * list call :=
    match on_get_contents r MAPPING_FILE branch with
    | inl t => (inl (GithubException t), [get])
    | inr c =>
        (answer (on_update_file r (path c) file_content (sha c) branch),
         [get; update_file (path c) file_content (sha c) branch])
    end in
  match attempt with
  | (inr u, made) => (inr u, made)
  | (inl _, made) =>
      (answer (on_create_file r MAPPING_FILE file_content branch),
       (made ++ [create_file MAPPING_FILE file_content branch])%list)
  end.

(** The text of the failure of the update, if [get_contents] or
    [update_file] fails. *)
Definition update_failure (r : repository) (branch file_content : string)
  : option string :=
  match on_get_contents r MAPPING_FILE branch with
  | inl t => Some t
  | inr c =>
      match on_update_file r (path c) file_content (sha c) branch with
      | inl t => Some t
      | inr _ => None
      end
  end.

(** The repository returns the file under the path it was asked for. *)
Definition path_kept (r : repository) (branch : string) : Prop :=
  forall c, on_get_contents r MAPPING_FILE branch = inr c ->
            path c = MAPPING_FILE.

Definition is_create (c : call) : bool :=
  match c with create_file _ _ _ => true | _ => false end.

End github.
(* ================================================================== *)
(** * Bodies made of a date token and the lines for the duration *)
(* ================================================================== *)

(** The token without an end time: [Month D, YYYY HH:MM UTC]. *)
Definition start_segments (month dd yyyy hh mm : text) : list segment :=
  [ Lit month; Lit (la " "); Digits dd; Lit (la ", "); Digits yyyy;
    Lit (la " "); Digits hh; Lit (la ":"); Digits mm; Lit (la " UTC") ].

(** What follows the token: nothing; a line [Duration: N minutes]; a line
    [- N minutes]; or the bullet line and then the label line. *)
Inductive duration_lines : Type :=
| NoLine
| LabelLine (nn : text)
| BulletLine (nn : text)
| BulletThenLabel (bullet nn : text).

(** A number of one to three digits. *)
Definition number_ok (nn : text) : bool :=
  forallb is_digit nn && (1 <=? List.length nn) && (List.length nn <=? 3).

Definition lines_ok (l : duration_lines) : bool :=
  match l with
  | NoLine => true
  | LabelLine nn | BulletLine nn => number_ok nn
  | BulletThenLabel bullet nn => number_ok bullet && number_ok nn
  end.

Definition label_segments (nn : text) : list segment :=
  [ Lit (newline :: la "Duration: "); Digits nn; Lit (la " minutes") ].

Definition bullet_segments (nn : text) : list segment :=
  [ Lit (newline :: la "- "); Digits nn; Lit (la " minutes") ].

Definition line_segments (l : duration_lines) : list segment :=
  match l with
  | NoLine => []
  | LabelLine nn => label_segments nn
  | BulletLine nn => bullet_segments nn
  | BulletThenLabel bullet nn => bullet_segments bullet ++ label_segments nn
  end.

(** A body: the token without brackets and day of the week, with or
    without its end time, and the lines after it. *)
Definition body_segments (with_end : bool)
    (month dd yyyy hh mm eh em : text) (l : duration_lines) : list segment :=
  (if with_end then token_segments false None month dd yyyy hh mm eh em
   else start_segments month dd yyyy hh mm)
  ++ line_segments l.

(** The body as it is written for a token: the day without padding, the
    year in four digits, hours and minutes in two. *)
Definition written_body (tk : date_token) (with_end : bool)
    (l : duration_lines) : string :=
  str (flat (body_segments with_end
               (month_text (tk_spelled tk) (tk_month tk))
               (dec_of_nat (tk_day tk)) (pad4 (tk_year tk))
               (pad2 (tk_hour tk)) (pad2 (tk_minute tk))
               (pad2 (tk_end_hour tk)) (pad2 (tk_end_minute tk)) l)).

(** The number a run of digits spells. *)
Definition number (nn : text) : Z := Z.of_nat (nat_of_digits nn).

(** A body with two tokens: the first has no end time, the second has. *)
Definition rescheduled_body : string :=
  "Rescheduled from May 7, 2024 15:00 UTC to May 14, 2024 15:00-15:30 UTC".

(* ================================================================== *)
(** * The matcher does not tell digits apart *)
(* ================================================================== *)

(** Turns a text whose length is known into a list of that many
    characters. *)
Ltac explicit_length t H :=
  repeat (destruct t as [| ? t]; cbn in H; try (exfalso; lia)).

Section DigitBlind.

Lemma all_ascii_complete (c : ascii) : In c all_ascii.
Proof.
  unfold all_ascii. rewrite <- (ascii_nat_embedding c).
  apply in_map, in_seq. pose proof (nat_ascii_bounded c). lia.
Qed.

Lemma test_blind_sound (p : ascii -> bool) :
  test_blind p = true -> forall c, p (norm c) = p c.
Proof.
  unfold test_blind. rewrite forallb_forall. intros H c.
  apply eqb_prop, H, all_ascii_complete.
Qed.

Lemma is_word_norm c : is_word (norm c) = is_word c.
Proof. apply test_blind_sound. vm_compute. reflexivity. Qed.

Lemma newline_norm c : Ascii.eqb (norm c) newline = Ascii.eqb c newline.
Proof.
  apply (test_blind_sound (fun c => Ascii.eqb c newline)).
  vm_compute. reflexivity.
Qed.

Lemma flat_map_map {A B C} (f : B -> list C) (g : A -> B) l :
  flat_map f (map g l) = flat_map (fun x => f (g x)) l.
Proof. induction l; cbn; congruence. Qed.

Lemma map_flat_map {A B C} (f : A -> list B) (g : B -> C) l :
  map g (flat_map f l) = flat_map (fun x => map g (f x)) l.
Proof. induction l; cbn; [reflexivity |]. rewrite map_app. congruence. Qed.

Lemma flat_map_ext' {A B} (f g : A -> list B) l :
  (forall x, f x = g x) -> flat_map f l = flat_map g l.
Proof. intros H. induction l; cbn; congruence. Qed.

Lemma iterate_norm (step : mstate -> list mstate) :
  (forall st, step (norm_state st) = map norm_state (step st)) ->
  forall fuel lo hi st,
    iterate step fuel lo hi (norm_state st)
    = map norm_state (iterate step fuel lo hi st).
Proof.
  intros Hstep. induction fuel as [| fuel IH]; intros lo hi st.
  - cbn. destruct lo; reflexivity.
  - cbn [iterate].
    assert (Hstop : (match lo with 0 => [norm_state st] | S _ => [] end)
                    = map norm_state (match lo with 0 => [st] | S _ => [] end))
      by (destruct lo; reflexivity).
    destruct hi as [[| h] |].
    + exact Hstop.
    + rewrite map_app, <- Hstop, Hstep, flat_map_map, map_flat_map.
      f_equal. apply flat_map_ext'. intros st'. cbn [pos norm_state].
      destruct (pos st <? pos st'); [apply IH | reflexivity].
    + rewrite map_app, <- Hstop, Hstep, flat_map_map, map_flat_map.
      f_equal. apply flat_map_ext'. intros st'. cbn [pos norm_state].
      destruct (pos st <? pos st'); [apply IH | reflexivity].
Qed.

Lemma run_norm (r : regex) :
  regex_blind r = true ->
  forall st, run r (norm_state st) = map norm_state (run r st).
Proof.
  induction r as [| p | r1 IH1 r2 IH2 | r1 IH1 r2 IH2 | lo hi r IH
                  | name r IH | |]; cbn [regex_blind]; intros Hb st.
  - reflexivity.
  - cbn. destruct (rest st) as [| c t]; [reflexivity |]. cbn.
    rewrite (test_blind_sound p Hb). destruct (p c); reflexivity.
  - apply andb_prop in Hb as [H1 H2]. cbn [run].
    rewrite IH1, flat_map_map, map_flat_map by assumption.
    apply flat_map_ext'. intros x. apply IH2. assumption.
  - apply andb_prop in Hb as [H1 H2]. cbn [run].
    rewrite map_app, IH1, IH2 by assumption. reflexivity.
  - cbn [run]. cbn [rest norm_state]. rewrite length_map.
    apply iterate_norm. apply IH. assumption.
  - cbn [run]. rewrite IH, !map_map by assumption. reflexivity.
  - cbn. destruct st as [pv rs ps cs]. cbn.
    replace (is_word_at (option_map norm pv)) with (is_word_at pv)
      by (destruct pv; cbn; [rewrite is_word_norm |]; reflexivity).
    replace (is_word_at (hd_error (map norm rs)))
      with (is_word_at (hd_error rs))
      by (destruct rs; cbn; [| rewrite is_word_norm]; reflexivity).
    destruct (xorb _ _); reflexivity.
  - cbn. destruct st as [[c |] rs ps cs]; cbn; [| reflexivity].
    pose proof (newline_norm c) as E. unfold newline in E. cbn in E.
    rewrite E. destruct (Ascii.eqb c _); reflexivity.
Qed.

Lemma search_from_norm (r : regex) :
  regex_blind r = true ->
  forall t before at_,
    option_map spans (search_from r (option_map norm before) (map norm t) at_)
    = option_map spans (search_from r before t at_).
Proof.
  intros Hb. induction t as [| c t IH]; intros before at_.
  - cbn [map search_from].
    change (MState (option_map norm before) [] at_ [])
      with (norm_state (MState before [] at_ [])).
    rewrite run_norm by assumption.
    destruct (run r _); reflexivity.
  - cbn [map search_from].
    change (MState (option_map norm before) (norm c :: map norm t) at_ [])
      with (norm_state (MState before (c :: t) at_ [])).
    rewrite run_norm by assumption.
    destruct (run r _); [| reflexivity].
    cbn [map]. apply (IH (Some c)).
Qed.

Lemma re_search_norm (r : regex) (t : text) :
  regex_blind r = true ->
  option_map spans (re_search r (map norm t))
  = option_map spans (re_search r t).
Proof. intros Hb. apply (search_from_norm r Hb t None 0). Qed.

Lemma norm_zeroed segs :
  digit_runs segs = true -> map norm (flat segs) = map norm (zeroed segs).
Proof.
  unfold flat, zeroed. induction segs as [| [t | t] segs IH]; cbn; intros H.
  - reflexivity.
  - rewrite !map_app, IH by assumption. reflexivity.
  - apply andb_prop in H as [Hd H]. rewrite !map_app, IH by assumption.
    f_equal. clear - Hd. induction t as [| c t IH]; cbn in *; [reflexivity |].
    apply andb_prop in Hd as [Hc Hd]. rewrite IH by assumption.
    f_equal. unfold norm. rewrite Hc. reflexivity.
Qed.

(** The spans of a search in a text with digit runs are those of the
    search in the text with zeros. *)
Lemma search_zeroed (r : regex) (segs : list segment) sp :
  regex_blind r = true ->
  digit_runs segs = true ->
  option_map spans (re_search r (zeroed segs)) = sp ->
  option_map spans (re_search r (flat segs)) = sp.
Proof.
  intros Hb Hd <-.
  rewrite <- (re_search_norm r (flat segs)), <- (re_search_norm r (zeroed segs))
    by assumption.
  rewrite norm_zeroed by assumption. reflexivity.
Qed.


Lemma blind_date : regex_blind date_pattern = true.
Proof. vm_compute. reflexivity. Qed.

Lemma blind_duration : regex_blind duration_pattern = true.
Proof. vm_compute. reflexivity. Qed.

Lemma blind_bullet : regex_blind bullet_pattern = true.
Proof. vm_compute. reflexivity. Qed.

Lemma spans_none r t :
  option_map spans (re_search r t) = None -> re_search r t = None.
Proof. destruct (re_search r t); [discriminate | reflexivity]. Qed.

Lemma spans_some r t s cs :
  option_map spans (re_search r t) = Some (s, cs) ->
  exists m, re_search r t = Some m /\ caps (m_end m) = cs.
Proof.
  destruct (re_search r t) as [m |]; [| discriminate].
  unfold spans. cbn. intros E. injection E as _ E. exists m. auto.
Qed.


Lemma token_search br wd sp m dd yy hh mm eh em :
  match wd with Some w => w < 7 | None => True end ->
  1 <= m <= 12 ->
  forallb is_digit dd = true -> 1 <= List.length dd <= 2 ->
  forallb is_digit yy = true -> List.length yy = 4 ->
  forallb is_digit hh = true -> List.length hh = 2 ->
  forallb is_digit mm = true -> List.length mm = 2 ->
  forallb is_digit eh = true -> List.length eh = 2 ->
  forallb is_digit em = true -> List.length em = 2 ->
  let body :=
    flat (token_segments br wd (month_text sp m) dd yy hh mm eh em) in
  (exists dm, re_search date_pattern body = Some dm
              /\ token_groups body dm (month_text sp m) dd yy hh mm eh em)
  /\ re_search duration_pattern body = None
  /\ re_search bullet_pattern body = None.
Proof.
  intros Hwd Hm Hdd Ldd Hyy Lyy Hhh Lhh Hmm Lmm Heh Leh Hem Lem body.
  assert (Hruns : digit_runs
                    (token_segments br wd (month_text sp m) dd yy hh mm eh em)
                  = true).
  { cbn. rewrite Hdd, Hyy, Hhh, Hmm, Heh, Hem. reflexivity. }
  clear Hdd Hyy Hhh Hmm Heh Hem.
  subst body.
  explicit_length dd Ldd; explicit_length yy Lyy; explicit_length hh Lhh;
    explicit_length mm Lmm; explicit_length eh Leh; explicit_length em Lem.
  all: clear Ldd Lyy Lhh Lmm Leh Lem.
  all: assert (Hm' : m = 1 \/ m = 2 \/ m = 3 \/ m = 4 \/ m = 5 \/ m = 6 \/ m = 7
                    \/ m = 8 \/ m = 9 \/ m = 10 \/ m = 11 \/ m = 12) by lia;
    clear Hm.
  all: assert (Hwd' : wd = None \/ wd = Some 0 \/ wd = Some 1 \/ wd = Some 2
                     \/ wd = Some 3 \/ wd = Some 4 \/ wd = Some 5
                     \/ wd = Some 6)
    by (destruct wd as [w |]; [| auto];
        do 7 (destruct w as [| w]; [tauto |]); lia);
    clear Hwd.
  all: repeat (destruct Hm' as [-> | Hm']); try subst m.
  all: repeat (destruct Hwd' as [-> | Hwd']); try subst wd.
  all: destruct br, sp.
  all: split; [| split].
  all: try (apply spans_none;
            first [ apply (search_zeroed _ _ _ blind_duration Hruns)
                  | apply (search_zeroed _ _ _ blind_bullet Hruns) ];
            vm_compute; reflexivity).
  all: eassert (H : option_map spans (re_search date_pattern _)
                     = Some (_, _))
    by (apply (search_zeroed _ _ _ blind_date Hruns); vm_compute;
        reflexivity).
  all: apply spans_some in H as (dm & Hs & Hc); exists dm;
    (split; [exact Hs |]).
  all: constructor; unfold group; rewrite Hc; vm_compute; reflexivity.
Qed.

End DigitBlind.


(* ================================================================== *)
(** * Digits, padding and [strptime] on joined fields *)
(* ================================================================== *)

Section Digits.

Lemma is_digit_digit_of n : n < 10 -> is_digit (digit_of n) = true.
Proof. intros H. do 10 (destruct n as [| n]; [reflexivity |]). lia. Qed.

Lemma digit_val_digit_of n : n < 10 -> digit_val (digit_of n) = n.
Proof. intros H. do 10 (destruct n as [| n]; [reflexivity |]). lia. Qed.

Lemma pad2_digits n : forallb is_digit (pad2 n) = true.
Proof.
  unfold pad2. cbn [forallb].
  rewrite !is_digit_digit_of by (apply Nat.mod_upper_bound; discriminate).
  reflexivity.
Qed.

Lemma pad4_digits n : forallb is_digit (pad4 n) = true.
Proof.
  unfold pad4. cbn [forallb].
  rewrite !is_digit_digit_of by (apply Nat.mod_upper_bound; discriminate).
  reflexivity.
Qed.

Lemma two_digits n : n < 100 -> 10 * (n / 10 mod 10) + n mod 10 = n.
Proof.
  intros H. pose proof (Nat.div_mod_eq n 10).
  assert (n / 10 < 10) by (apply Nat.Div0.div_lt_upper_bound; lia).
  rewrite (Nat.mod_small (n / 10)) by lia. lia.
Qed.

Lemma four_digits n :
  n < 100 * 100 ->
  10 * (10 * (10 * (n / 1000 mod 10) + n / 100 mod 10) + n / 10 mod 10)
  + n mod 10 = n.
Proof.
  intros H.
  replace (n / 1000) with (n / 10 / 10 / 10)
    by (rewrite !Nat.Div0.div_div; reflexivity).
  replace (n / 100) with (n / 10 / 10)
    by (rewrite !Nat.Div0.div_div; reflexivity).
  pose proof (Nat.div_mod_eq n 10).
  pose proof (Nat.div_mod_eq (n / 10) 10).
  pose proof (Nat.div_mod_eq (n / 10 / 10) 10).
  assert (n / 10 / 10 / 10 < 10)
    by (repeat apply Nat.Div0.div_lt_upper_bound; lia).
  rewrite (Nat.mod_small (n / 10 / 10 / 10)) by lia. lia.
Qed.

Lemma nat_of_digits_pad2 n : n < 100 -> nat_of_digits (pad2 n) = n.
Proof.
  intros H. unfold pad2, nat_of_digits. cbn [fold_left].
  rewrite !digit_val_digit_of by (apply Nat.mod_upper_bound; discriminate).
  rewrite Nat.mul_0_r, Nat.add_0_l. apply two_digits, H.
Qed.

Lemma nat_of_digits_pad4 n : n < 100 * 100 -> nat_of_digits (pad4 n) = n.
Proof.
  intros H. unfold pad4, nat_of_digits. cbn [fold_left].
  rewrite !digit_val_digit_of by (apply Nat.mod_upper_bound; discriminate).
  rewrite Nat.mul_0_r, Nat.add_0_l. apply four_digits, H.
Qed.

Lemma dec_of_nat_small n :
  n < 100 -> dec_of_nat n = if n <? 10 then [digit_of n] else pad2 n.
Proof. intros H. do 100 (destruct n as [| n]; [reflexivity |]). lia. Qed.

Lemma dec_of_nat_day n :
  n < 100 ->
  forallb is_digit (dec_of_nat n) = true
  /\ 1 <= List.length (dec_of_nat n) <= 2
  /\ nat_of_digits (dec_of_nat n) = n.
Proof.
  intros H. rewrite dec_of_nat_small by assumption.
  destruct (n <? 10) eqn:E.
  - apply Nat.ltb_lt in E. cbn [forallb List.length].
    rewrite is_digit_digit_of by assumption. repeat split; try lia.
    unfold nat_of_digits. cbn [fold_left].
    rewrite digit_val_digit_of by assumption. lia.
  - rewrite pad2_digits, nat_of_digits_pad2 by assumption. cbn. lia.
Qed.

(** A digit is neither white space nor a letter nor a colon. *)
Lemma digit_not_space c : is_digit c = true -> is_space c = false.
Proof.
  intros H. assert (E : (is_digit c && is_space c) = false).
  { clear H. destruct c as [[] [] [] [] [] [] [] []]; reflexivity. }
  rewrite H in E. exact E.
Qed.


Lemma take_while_prefix p w t :
  forallb p w = true -> hd_fails p t = true ->
  take_while p (w ++ t) = (w, t).
Proof.
  intros Hw Ht. induction w as [| c w IH]; cbn in *.
  - destruct t as [| c t]; [reflexivity |]. cbn in Ht |- *.
    destruct (p c); [discriminate | reflexivity].
  - apply andb_prop in Hw as [Hc Hw]. rewrite Hc, IH by assumption.
    reflexivity.
Qed.


Lemma hd_fails_digits p dd t :
  (forall c, is_digit c = true -> p c = false) ->
  1 <= List.length dd -> forallb is_digit dd = true ->
  hd_fails p (dd ++ t) = true.
Proof.
  intros Hp Hl Hd. destruct dd as [| c dd]; cbn in *; [lia |].
  apply andb_prop in Hd as [Hc _]. rewrite (Hp c Hc). reflexivity.
Qed.

Lemma read_minute_two mm :
  forallb is_digit mm = true -> List.length mm = 2 ->
  nat_of_digits mm <= 59 ->
  read_minute mm = Some (mm, []).
Proof.
  intros Hd Hl Hv.
  destruct mm as [| m1 [| m2 [| ? ?]]]; try discriminate.
  cbn in Hd. apply andb_prop in Hd as [H1 H2].
  apply andb_prop in H2 as [H2 _].
  unfold read_minute. rewrite H2.
  assert (E : in_range 48 53 m1 = true).
  { unfold nat_of_digits in Hv. cbn [fold_left] in Hv.
    unfold is_digit, in_range, digit_val in *.
    apply andb_prop in H1 as [A1 B1]. apply andb_prop in H2 as [A2 B2].
    apply Nat.leb_le in A1, B1, A2, B2.
    apply andb_true_intro. split; apply Nat.leb_le; lia. }
  rewrite E. reflexivity.
Qed.

Lemma leb_true a b : a <= b -> (a <=? b) = true.
Proof. apply Nat.leb_le. Qed.

Lemma strptime_fields d (mon : text) m (dd yy hh mm : text) :
  forallb is_alpha mon = true ->
  index_of (lower mon) (directive_names d) 1 = Some m ->
  forallb is_digit dd = true -> 1 <= List.length dd <= 2 ->
  1 <= nat_of_digits dd <= 31 ->
  forallb is_digit yy = true -> List.length yy = 4 ->
  forallb is_digit hh = true -> 1 <= List.length hh <= 2 ->
  nat_of_digits hh <= 23 ->
  forallb is_digit mm = true -> List.length mm = 2 ->
  nat_of_digits mm <= 59 ->
  strptime d (join_fields (Some mon) (Some dd) (Some yy) (Some hh) (Some mm))
  = if nat_of_digits yy =? 0 then inl "year 0 is out of range"%string
    else if days_in_month (nat_of_digits yy) m <? nat_of_digits dd
         then inl "day is out of range for month"%string
         else inr (DateTime (nat_of_digits yy) m (nat_of_digits dd)
                            (nat_of_digits hh) (nat_of_digits mm)).
Proof.
  intros Hmon Hidx Hdd Ldd Vdd Hyy Lyy Hhh Lhh Vhh Hmm Lmm Vmm.
  unfold strptime, join_fields, fstr.
  rewrite (take_while_prefix is_alpha mon) by (assumption || reflexivity).
  rewrite Hidx.
  rewrite (take_while_prefix is_space (la " "))
    by (reflexivity
        || (apply hd_fails_digits; auto using digit_not_space; lia)).
  rewrite (take_while_prefix is_digit dd) by (assumption || reflexivity).
  rewrite (take_while_prefix is_space (la " "))
    by (reflexivity
        || (apply hd_fails_digits; auto using digit_not_space; lia)).
  rewrite (take_while_prefix is_digit yy) by (assumption || reflexivity).
  rewrite (take_while_prefix is_space (la " "))
    by (reflexivity
        || (apply hd_fails_digits; auto using digit_not_space; lia)).
  rewrite (take_while_prefix is_digit hh) by (assumption || reflexivity).
  rewrite Lyy.
  rewrite !leb_true by (cbn; lia).
  cbn [negb andb Nat.eqb la list_ascii_of_string app].
  rewrite read_minute_two by assumption.
  reflexivity.
Qed.

Lemma strptime_unknown_month d (mon t : text) :
  forallb is_alpha mon = true ->
  index_of (lower mon) (directive_names d) 1 = None ->
  exists e, strptime d (mon ++ la " " ++ t) = inl e.
Proof.
  intros Hmon Hidx. unfold strptime.
  rewrite (take_while_prefix is_alpha mon) by (assumption || reflexivity).
  rewrite Hidx. eexists. reflexivity.
Qed.

End Digits.


(* ================================================================== *)
(** * The extractor on date tokens *)
(* ================================================================== *)

Section Token.

Lemma month_text_alpha sp m :
  1 <= m <= 12 -> forallb is_alpha (month_text sp m) = true.
Proof.
  intros H. destruct sp; do 13 (destruct m as [| m]; [try lia; reflexivity |]);
    lia.
Qed.

Lemma month_index_full m :
  1 <= m <= 12 ->
  index_of (lower (month_text FullName m)) (directive_names PctB) 1 = Some m.
Proof.
  intros H. do 13 (destruct m as [| m]; [try lia; reflexivity |]). lia.
Qed.

Lemma month_index_abbr m :
  1 <= m <= 12 ->
  index_of (lower (month_text Abbreviation m)) (directive_names Pctb) 1
  = Some m.
Proof.
  intros H. do 13 (destruct m as [| m]; [try lia; reflexivity |]). lia.
Qed.

(** No abbreviation but May is a full month name. *)
Lemma month_index_abbr_full m :
  1 <= m <= 12 ->
  index_of (lower (month_text Abbreviation m)) (directive_names PctB) 1
  = if m =? 5 then Some m else None.
Proof.
  intros H. do 13 (destruct m as [| m]; [try lia; reflexivity |]). lia.
Qed.

Lemma days_in_month_le y m : days_in_month y m <= 31.
Proof.
  unfold days_in_month.
  do 12 (destruct m as [| m]; [try destruct (is_leap y); lia |]). lia.
Qed.

Lemma strptime_either_token sp m (dd yy hh mm : text) :
  1 <= m <= 12 ->
  forallb is_digit dd = true -> 1 <= List.length dd <= 2 ->
  forallb is_digit yy = true -> List.length yy = 4 ->
  forallb is_digit hh = true -> 1 <= List.length hh <= 2 ->
  forallb is_digit mm = true -> List.length mm = 2 ->
  1 <= nat_of_digits yy ->
  1 <= nat_of_digits dd <= days_in_month (nat_of_digits yy) m ->
  nat_of_digits hh <= 23 -> nat_of_digits mm <= 59 ->
  strptime_either
    (join_fields (Some (month_text sp m)) (Some dd) (Some yy) (Some hh)
                 (Some mm))
  = inr (DateTime (nat_of_digits yy) m (nat_of_digits dd)
                  (nat_of_digits hh) (nat_of_digits mm)).
Proof.
  intros Hm Hdd Ldd Hyy Lyy Hhh Lhh Hmm Lmm Vy Vd Vh Vmi.
  assert (V31 : nat_of_digits dd <= 31).
  { pose proof (days_in_month_le (nat_of_digits yy) m). lia. }
  assert (Ey : (nat_of_digits yy =? 0) = false) by (apply Nat.eqb_neq; lia).
  assert (Ed : (days_in_month (nat_of_digits yy) m <? nat_of_digits dd)
               = false) by (apply Nat.ltb_ge; lia).
  pose proof (month_text_alpha sp m Hm) as Ha.
  assert (Ok : forall d,
             index_of (lower (month_text sp m)) (directive_names d) 1
             = Some m ->
             strptime d (join_fields (Some (month_text sp m)) (Some dd)
                                     (Some yy) (Some hh) (Some mm))
             = inr (DateTime (nat_of_digits yy) m (nat_of_digits dd)
                             (nat_of_digits hh) (nat_of_digits mm))).
  { intros d Hi.
    rewrite (strptime_fields d _ m) by (assumption || lia).
    rewrite Ey, Ed. reflexivity. }
  unfold strptime_either. destruct sp.
  - rewrite (Ok PctB) by (apply month_index_full, Hm). reflexivity.
  - pose proof (month_index_abbr_full m Hm) as Hf.
    destruct (m =? 5).
    + rewrite (Ok PctB) by exact Hf. reflexivity.
    + destruct (strptime_unknown_month PctB _
                  (dd ++ la " " ++ yy ++ la " " ++ hh ++ la ":" ++ mm)
                  Ha Hf) as [e He].
      unfold join_fields, fstr in *. rewrite He.
      apply (Ok Pctb), month_index_abbr, Hm.
Qed.

Lemma valid_token_facts tk :
  valid_token tk = true ->
  match tk_weekday tk with Some w => w < 7 | None => True end
  /\ 1 <= tk_month tk <= 12
  /\ 1 <= tk_year tk < 100 * 100
  /\ 1 <= tk_day tk <= days_in_month (tk_year tk) (tk_month tk)
  /\ tk_hour tk <= 23 /\ tk_minute tk <= 59
  /\ tk_end_hour tk <= 23 /\ tk_end_minute tk <= 59.
Proof.
  unfold valid_token. intros H.
  repeat (apply andb_prop in H as [H ?]).
  repeat match goal with
         | E : (_ <=? _) = true |- _ => apply Nat.leb_le in E
         | E : (_ <? _) = true |- _ => apply Nat.ltb_lt in E
         end.
  repeat split; try assumption.
  destruct (tk_weekday tk); [apply Nat.ltb_lt; assumption | exact I].
Qed.

Lemma parse_found_token tk issue_body dm :
  valid_token tk = true ->
  re_search date_pattern (la issue_body) = Some dm ->
  token_groups (la issue_body) dm
    (month_text (tk_spelled tk) (tk_month tk)) (dec_of_nat (tk_day tk))
    (pad4 (tk_year tk)) (pad2 (tk_hour tk)) (pad2 (tk_minute tk))
    (pad2 (tk_end_hour tk)) (pad2 (tk_end_minute tk)) ->
  re_search duration_pattern (la issue_body) = None ->
  re_search bullet_pattern (la issue_body) = None ->
  parse_issue_for_time issue_body = token_outcome tk.
Proof.
  intros Hv Hs G Hdur Hbul.
  destruct (valid_token_facts tk Hv)
    as (Hw & Hm & Hy & Hd & Hh & Hmi & Heh & Hem).
  assert (Hd100 : tk_day tk < 100).
  { pose proof (days_in_month_le (tk_year tk) (tk_month tk)). lia. }
  destruct (dec_of_nat_day (tk_day tk) Hd100) as (Dd & Ld & Vd).
  destruct G as [Gm Gd Gy Gh Gmi Geh Gem].
  unfold parse_issue_for_time, duration_from_end_time, has_end_time,
    start_text, end_text.
  cbv zeta.
  rewrite Hs, Gm, Gd, Gy, Gh, Gmi, Geh, Gem.
  unfold duration_search. rewrite Hdur, Hbul.
  assert (Vy : nat_of_digits (pad4 (tk_year tk)) = tk_year tk)
    by (apply nat_of_digits_pad4; lia).
  assert (Vh : nat_of_digits (pad2 (tk_hour tk)) = tk_hour tk)
    by (apply nat_of_digits_pad2; lia).
  assert (Vmi : nat_of_digits (pad2 (tk_minute tk)) = tk_minute tk)
    by (apply nat_of_digits_pad2; lia).
  assert (Veh : nat_of_digits (pad2 (tk_end_hour tk)) = tk_end_hour tk)
    by (apply nat_of_digits_pad2; lia).
  assert (Vem : nat_of_digits (pad2 (tk_end_minute tk)) = tk_end_minute tk)
    by (apply nat_of_digits_pad2; lia).
  assert (L2 : forall n, 1 <= List.length (pad2 n) <= 2) by (cbn; lia).
  assert (E1 := strptime_either_token (tk_spelled tk) (tk_month tk)
             (dec_of_nat (tk_day tk)) (pad4 (tk_year tk))
             (pad2 (tk_hour tk)) (pad2 (tk_minute tk))
             Hm Dd Ld (pad4_digits _) eq_refl (pad2_digits _) (L2 _)
             (pad2_digits _) eq_refl).
  assert (E2 := strptime_either_token (tk_spelled tk) (tk_month tk)
             (dec_of_nat (tk_day tk)) (pad4 (tk_year tk))
             (pad2 (tk_end_hour tk)) (pad2 (tk_end_minute tk))
             Hm Dd Ld (pad4_digits _) eq_refl (pad2_digits _) (L2 _)
             (pad2_digits _) eq_refl).
  rewrite Vy, Vd, Vh, Vmi in E1. rewrite Vy, Vd, Veh, Vem in E2.
  rewrite E1, E2 by lia.
  cbn [group_truthy pad2 andb].
  unfold token_outcome, minutes_of, end_minutes, start_minutes, toordinal.
  cbn [dt_year dt_month dt_day dt_hour dt_minute].
  set (o := (_ + Z.of_nat (tk_day tk))%Z).
  destruct (Nat.leb_spec (60 * tk_end_hour tk + tk_end_minute tk)
                         (60 * tk_hour tk + tk_minute tk)) as [L | L].
  - replace (_ <=? _)%Z with true by (symmetry; apply Z.leb_le; lia).
    reflexivity.
  - replace (_ <=? _)%Z with false by (symmetry; apply Z.leb_gt; lia).
    f_equal. apply f_equal2; [reflexivity | lia].
Qed.

Lemma token_found tk :
  valid_token tk = true ->
  let body := render_token tk in
  (exists dm,
      re_search date_pattern body = Some dm
      /\ token_groups body dm
           (month_text (tk_spelled tk) (tk_month tk))
           (dec_of_nat (tk_day tk)) (pad4 (tk_year tk))
           (pad2 (tk_hour tk)) (pad2 (tk_minute tk))
           (pad2 (tk_end_hour tk)) (pad2 (tk_end_minute tk)))
  /\ re_search duration_pattern body = None
  /\ re_search bullet_pattern body = None.
Proof.
  intros Hv.
  destruct (valid_token_facts tk Hv) as (Hw & Hm & _ & Hd & _).
  assert (Hd100 : tk_day tk < 100).
  { pose proof (days_in_month_le (tk_year tk) (tk_month tk)). lia. }
  destruct (dec_of_nat_day (tk_day tk) Hd100) as (Dd & Ld & _).
  exact (token_search (tk_bracketed tk) (tk_weekday tk) (tk_spelled tk)
           (tk_month tk) (dec_of_nat (tk_day tk)) (pad4 (tk_year tk))
           (pad2 (tk_hour tk)) (pad2 (tk_minute tk))
           (pad2 (tk_end_hour tk)) (pad2 (tk_end_minute tk))
           Hw Hm Dd Ld (pad4_digits _) eq_refl (pad2_digits _) eq_refl
           (pad2_digits _) eq_refl (pad2_digits _) eq_refl
           (pad2_digits _) eq_refl).
Qed.

(** C5, as amended.  For a date token [Month D, YYYY HH:MM-HH:MM UTC] that
    names an existing date and two times of day: on every body in which
    the match of [date_pattern], the first in the body, is this token, and
    in which neither the duration label nor the dash bullet matches, and in
    particular on the token itself (with or without the brackets and the
    day of the week), [parse_issue_for_time] fails with "End time must be
    after start time." when the end is not after the start, and otherwise
    returns the start in ISO-8601 with a trailing Z and the end-minus-start
    difference in minutes. *)
Theorem C5_end_time_gives_duration :
  forall tk : date_token,
    valid_token tk = true ->
    (forall (issue_body : string) (date_match : rmatch),
        re_search date_pattern (la issue_body) = Some date_match ->
        token_groups (la issue_body) date_match
          (month_text (tk_spelled tk) (tk_month tk))
          (dec_of_nat (tk_day tk)) (pad4 (tk_year tk))
          (pad2 (tk_hour tk)) (pad2 (tk_minute tk))
          (pad2 (tk_end_hour tk)) (pad2 (tk_end_minute tk)) ->
        re_search duration_pattern (la issue_body) = None ->
        re_search bullet_pattern (la issue_body) = None ->
        parse_issue_for_time issue_body = token_outcome tk)
    /\ parse_issue_for_time (str (render_token tk)) = token_outcome tk.
Proof.
  intros tk Hv. split.
  - intros issue_body dm. apply parse_found_token, Hv.
  - destruct (token_found tk Hv) as ((dm & Hs & G) & Hdur & Hbul).
    assert (E : la (str (render_token tk)) = render_token tk)
      by apply list_ascii_of_string_of_list_ascii.
    apply (parse_found_token tk _ dm Hv); rewrite E; assumption.
Qed.

(** The theorem on the body [[Tue May 14, 2024 15:00-15:30 UTC]] and on
    the same token inside a sentence. *)
Lemma C5_end_time_gives_duration_witness :
  valid_token may_14_token = true
  /\ parse_issue_for_time "[Tue May 14, 2024 15:00-15:30 UTC]"
     = inr ("2024-05-14T15:00:00Z"%string, 30%Z)
  /\ parse_issue_for_time scenario.token_in_sentence
     = inr ("2024-05-14T15:00:00Z"%string, 30%Z).
Proof.
  split; [reflexivity | split].
  - exact (proj2 (C5_end_time_gives_duration may_14_token eq_refl)).
  - destruct (re_search date_pattern (la scenario.token_in_sentence))
      as [dm |] eqn:Hdate; [| vm_compute in Hdate; discriminate].
    refine (proj1 (C5_end_time_gives_duration may_14_bare eq_refl)
                  _ dm Hdate _ _ _).
    + vm_compute in Hdate. injection Hdate as <-.
      constructor; vm_compute; reflexivity.
    + vm_compute. reflexivity.
    + vm_compute. reflexivity.
Defined.

(** C5 as stated fails on a body that has the token after an earlier
    one: the search of line 229 stops at the first token, which has no end
    time, and with no label and no bullet the extractor fails, although
    the body contains a token with an end time. *)
Lemma C5_earlier_token_takes_the_match :
  valid_token may_14_bare = true
  /\ contains (render_token may_14_bare) (la rescheduled_body) = true
  /\ token_outcome may_14_bare = inr ("2024-05-14T15:00:00Z"%string, 30%Z)
  /\ re_search duration_pattern (la rescheduled_body) = None
  /\ re_search bullet_pattern (la rescheduled_body) = None
  /\ option_map (fun m => (group (la rescheduled_body) m "day",
                           has_end_time (la rescheduled_body) m))
                (re_search date_pattern (la rescheduled_body))
     = Some (Some (la "7"), false)
  /\ parse_issue_for_time rescheduled_body
     = inl (ValueError missing_duration).
Proof. vm_compute. repeat split. Qed.

End Token.

(* ================================================================== *)
(** * The extractor: where the duration comes from *)
(* ================================================================== *)

Section Priority.

Local Open Scope string_scope.

(** What [duration_pattern] takes for a label followed by a number. *)
Example label_plain :
  option_map (fun m => group (la "Duration: 45 minutes") m "1")
             (re_search duration_pattern (la "Duration: 45 minutes"))
  = Some (Some (la "45")).
Proof. vm_compute. reflexivity. Qed.

Example label_in_minutes :
  let body := la ("Duration in minutes" ++ String newline "- 60") in
  option_map (fun m => group body m "1") (re_search duration_pattern body)
  = Some (Some (la "60")).
Proof. vm_compute. reflexivity. Qed.

Example label_needs_word_end :
  re_search duration_pattern (la "Duration: 45abc") = None.
Proof. vm_compute. reflexivity. Qed.

(** C6 as stated fails on a body with a dash bullet, no duration label
    and no end time: the extractor returns the number of the bullet. *)
Lemma C6_dash_bullet_is_not_an_error :
  re_search duration_pattern (la scenario.bullet_only) = None
  /\ option_map (has_end_time (la scenario.bullet_only))
                (re_search date_pattern (la scenario.bullet_only))
     = Some false
  /\ parse_issue_for_time scenario.bullet_only
     = inr ("2024-05-14T15:00:00Z", 15%Z)
  /\ ~ (exists e, parse_issue_for_time scenario.bullet_only = inl e).
Proof.
  vm_compute. repeat split. intros [e H]. discriminate.
Qed.

Lemma py_int_small t :
  List.length t <= int_max_str_digits -> py_int t = inr (int_of_digits t).
Proof.
  intros H. unfold py_int.
  destruct (Nat.ltb_spec int_max_str_digits (List.length t)); [lia |].
  reflexivity.
Qed.

Lemma int_of_digits_number t : int_of_digits t = number t.
Proof.
  unfold int_of_digits, number, nat_of_digits.
  assert (H : forall acc,
            fold_left (fun a c => (10 * a + Z.of_nat (digit_val c))%Z) t
                      (Z.of_nat acc)
            = Z.of_nat (fold_left (fun a c => 10 * a + digit_val c) t acc)).
  { induction t as [| c t IH]; intros acc; cbn [fold_left]; [reflexivity |].
    rewrite <- IH. f_equal. lia. }
  exact (H 0).
Qed.

Lemma number_ok_facts nn :
  number_ok nn = true ->
  forallb is_digit nn = true /\ 1 <= List.length nn <= 3.
Proof.
  unfold number_ok. intros H.
  apply andb_prop in H as [H L2]. apply andb_prop in H as [H L1].
  apply Nat.leb_le in L1, L2. auto.
Qed.

(** What the three searches find in a body made of a token and the lines
    after it, for every month in either spelling, every run of digits of
    the right length and every number of one to three digits. *)
Lemma body_searches with_end sp m (dd yy hh mm eh em : text) l :
  1 <= m <= 12 ->
  forallb is_digit dd = true -> 1 <= List.length dd <= 2 ->
  forallb is_digit yy = true -> List.length yy = 4 ->
  forallb is_digit hh = true -> List.length hh = 2 ->
  forallb is_digit mm = true -> List.length mm = 2 ->
  forallb is_digit eh = true -> List.length eh = 2 ->
  forallb is_digit em = true -> List.length em = 2 ->
  lines_ok l = true ->
  let body :=
    flat (body_segments with_end (month_text sp m) dd yy hh mm eh em l) in
  (exists dm,
      re_search date_pattern body = Some dm
      /\ group body dm "month" = Some (month_text sp m)
      /\ group body dm "day" = Some dd
      /\ group body dm "year" = Some yy
      /\ group body dm "hour" = Some hh
      /\ group body dm "minute" = Some mm
      /\ group body dm "end_hour" = (if with_end then Some eh else None)
      /\ group body dm "end_minute" = (if with_end then Some em else None))
  /\ match l with
     | LabelLine nn | BulletThenLabel _ nn =>
         exists lm, re_search duration_pattern body = Some lm
                    /\ group body lm "1" = Some nn
     | NoLine | BulletLine _ => re_search duration_pattern body = None
     end
  /\ match l with
     | BulletLine nn =>
         exists bm, re_search bullet_pattern body = Some bm
                    /\ group body bm "1" = Some nn
     | NoLine => re_search bullet_pattern body = None
     | LabelLine _ | BulletThenLabel _ _ => True
     end.
Proof.
  intros Hm Hdd Ldd Hyy Lyy Hhh Lhh Hmm Lmm Heh Leh Hem Lem Hl body.
  assert (Hruns : digit_runs
                    (body_segments with_end (month_text sp m) dd yy hh mm
                                   eh em l) = true).
  { destruct with_end, l as [| nn | nn | nb nn]; cbn in Hl |- *;
      repeat match goal with
             | H : number_ok _ && number_ok _ = true |- _ =>
                 apply andb_prop in H as [? ?]
             | H : number_ok _ = true |- _ =>
                 apply number_ok_facts in H as [? _]
             end;
      repeat match goal with
             | H : forallb is_digit _ = true |- _ => rewrite H; clear H
             end;
      reflexivity. }
  clear Hdd Hyy Hhh Hmm Heh Hem.
  subst body.
  assert (Hm' : m = 1 \/ m = 2 \/ m = 3 \/ m = 4 \/ m = 5 \/ m = 6 \/ m = 7
                \/ m = 8 \/ m = 9 \/ m = 10 \/ m = 11 \/ m = 12) by lia.
  clear Hm.
  destruct l as [| nn | nn | nb nn]; cbn [lines_ok] in Hl;
    repeat match goal with
           | H : number_ok _ && number_ok _ = true |- _ =>
               apply andb_prop in H as [? ?]
           end;
    repeat match goal with
           | H : number_ok ?x = true |- _ =>
               let L := fresh "L" x in
               apply number_ok_facts in H as [_ L]
           end.
  all: explicit_length dd Ldd; explicit_length yy Lyy; explicit_length hh Lhh;
    explicit_length mm Lmm; explicit_length eh Leh; explicit_length em Lem.
  all: try explicit_length nn Lnn.
  all: try explicit_length nb Lnb.
  all: clear Ldd Lyy Lhh Lmm Leh Lem; try clear Lnn; try clear Lnb.
  all: repeat (destruct Hm' as [-> | Hm']); try subst m.
  all: destruct with_end, sp.
  all: split; [| split].
  all: try exact I.
  all: try (apply spans_none;
            first [ apply (search_zeroed _ _ _ blind_duration Hruns)
                  | apply (search_zeroed _ _ _ blind_bullet Hruns) ];
            vm_compute; reflexivity).
  all: match goal with
       | |- exists _, re_search ?r _ = _ /\ _ =>
           let B := lazymatch r with
                    | date_pattern => constr:(blind_date)
                    | duration_pattern => constr:(blind_duration)
                    | bullet_pattern => constr:(blind_bullet)
                    end in
           eassert (H : option_map spans (re_search r _) = Some (_, _))
             by (apply (search_zeroed _ _ _ B Hruns); vm_compute;
                 reflexivity);
           apply spans_some in H as (dm & Hs & Hc); exists dm;
           (split; [exact Hs |]);
           unfold group; rewrite Hc; vm_compute; repeat split
       end.
Qed.

(** The extractor on a body made of a token and the lines after it. *)
Lemma parse_written_body tk with_end l :
  valid_token tk = true ->
  lines_ok l = true ->
  parse_issue_for_time (written_body tk with_end l)
  = match l with
    | LabelLine nn | BulletLine nn | BulletThenLabel _ nn =>
        inr (start_iso tk, number nn)
    | NoLine =>
        if with_end then token_outcome tk
        else inl (ValueError missing_duration)
    end.
Proof.
  intros Hv Hl.
  destruct (valid_token_facts tk Hv)
    as (Hw & Hm & Hy & Hd & Hh & Hmi & Heh & Hem).
  assert (Hd100 : tk_day tk < 100).
  { pose proof (days_in_month_le (tk_year tk) (tk_month tk)). lia. }
  destruct (dec_of_nat_day (tk_day tk) Hd100) as (Dd & Ld & Vd).
  assert (L2 : forall n, 1 <= List.length (pad2 n) <= 2) by (cbn; lia).
  assert (Vy : nat_of_digits (pad4 (tk_year tk)) = tk_year tk)
    by (apply nat_of_digits_pad4; lia).
  assert (Vh : nat_of_digits (pad2 (tk_hour tk)) = tk_hour tk)
    by (apply nat_of_digits_pad2; lia).
  assert (Vmi : nat_of_digits (pad2 (tk_minute tk)) = tk_minute tk)
    by (apply nat_of_digits_pad2; lia).
  assert (Hstart := strptime_either_token (tk_spelled tk) (tk_month tk)
             (dec_of_nat (tk_day tk)) (pad4 (tk_year tk))
             (pad2 (tk_hour tk)) (pad2 (tk_minute tk))
             Hm Dd Ld (pad4_digits _) eq_refl (pad2_digits _) (L2 _)
             (pad2_digits _) eq_refl).
  rewrite Vy, Vd, Vh, Vmi in Hstart.
  specialize (Hstart ltac:(lia) ltac:(lia) ltac:(lia) ltac:(lia)).
  destruct (body_searches with_end (tk_spelled tk) (tk_month tk)
              (dec_of_nat (tk_day tk)) (pad4 (tk_year tk))
              (pad2 (tk_hour tk)) (pad2 (tk_minute tk))
              (pad2 (tk_end_hour tk)) (pad2 (tk_end_minute tk)) l
              Hm Dd Ld (pad4_digits _) eq_refl (pad2_digits _) eq_refl
              (pad2_digits _) eq_refl (pad2_digits _) eq_refl
              (pad2_digits _) eq_refl Hl)
    as ((dm & Hs & Gm & Gd & Gy & Gh & Gmi & Geh & Gem) & Hdur & Hbul).
  assert (E : la (written_body tk with_end l)
              = flat (body_segments with_end
                        (month_text (tk_spelled tk) (tk_month tk))
                        (dec_of_nat (tk_day tk)) (pad4 (tk_year tk))
                        (pad2 (tk_hour tk)) (pad2 (tk_minute tk))
                        (pad2 (tk_end_hour tk)) (pad2 (tk_end_minute tk)) l))
    by apply list_ascii_of_string_of_list_ascii.
  assert (Small : forall nn, number_ok nn = true ->
                             py_int nn = inr (number nn)).
  { intros nn H. apply number_ok_facts in H as [_ H].
    rewrite py_int_small by (unfold int_max_str_digits; lia).
    rewrite int_of_digits_number. reflexivity. }
  destruct l as [| nn | nn | nb nn]; cbn [lines_ok] in Hl.
  - destruct with_end.
    + apply (parse_found_token tk _ dm Hv); rewrite E; try assumption.
      constructor; assumption.
    + unfold parse_issue_for_time, start_text, duration_search,
        duration_from_end_time, has_end_time.
      cbv zeta. rewrite E, Hs, Gm, Gd, Gy, Gh, Gmi, Hstart, Hdur, Hbul.
      rewrite Geh. reflexivity.
  - destruct Hdur as (lm & Hlm & Gn).
    unfold parse_issue_for_time, start_text, duration_search. cbv zeta.
    rewrite E, Hs, Gm, Gd, Gy, Gh, Gmi, Hstart, Hlm, Gn.
    cbn [fstr]. rewrite (Small nn Hl). reflexivity.
  - destruct Hbul as (bm & Hbm & Gn).
    unfold parse_issue_for_time, start_text, duration_search. cbv zeta.
    rewrite E, Hs, Gm, Gd, Gy, Gh, Gmi, Hstart, Hdur, Hbm, Gn.
    cbn [fstr]. rewrite (Small nn Hl). reflexivity.
  - destruct Hdur as (lm & Hlm & Gn).
    apply andb_prop in Hl as [_ Hl].
    unfold parse_issue_for_time, start_text, duration_search. cbv zeta.
    rewrite E, Hs, Gm, Gd, Gy, Gh, Gmi, Hstart, Hlm, Gn.
    cbn [fstr]. rewrite (Small nn Hl). reflexivity.
Qed.

(** C6, as amended.  The priority of the sources of the duration, on the
    bodies made of a date token [Month D, YYYY HH:MM-HH:MM UTC] (or the
    same without the end time) that names an existing date and times, and
    of lines for a number of one to three digits.  A line [Duration: N
    minutes] gives [N], whether or not the token has an end time, and also
    when a line [- M minutes] comes before it; without the label, a line
    [- N minutes] gives [N], whether or not the token has an end time;
    without either line, the end time gives the end-minus-start
    difference, or the error "End time must be after start time."; and a
    token without end time and without either line makes the extractor
    fail with "Missing or invalid duration format. ...". *)
Theorem C6_duration_priority :
  forall (tk : date_token) (bullet nn : text),
    valid_token tk = true ->
    number_ok bullet = true ->
    number_ok nn = true ->
    let found := inr (start_iso tk, number nn) in
    parse_issue_for_time (written_body tk true (LabelLine nn)) = found
    /\ parse_issue_for_time (written_body tk false (LabelLine nn)) = found
    /\ parse_issue_for_time (written_body tk true (BulletThenLabel bullet nn))
       = found
    /\ parse_issue_for_time (written_body tk false (BulletThenLabel bullet nn))
       = found
    /\ parse_issue_for_time (written_body tk true (BulletLine nn)) = found
    /\ parse_issue_for_time (written_body tk false (BulletLine nn)) = found
    /\ parse_issue_for_time (written_body tk true NoLine) = token_outcome tk
    /\ parse_issue_for_time (written_body tk false NoLine)
       = inl (ValueError missing_duration).
Proof.
  intros tk bullet nn Hv Hb Hn found.
  assert (Hbn : lines_ok (BulletThenLabel bullet nn) = true)
    by (cbn; rewrite Hb, Hn; reflexivity).
  repeat split.
  - exact (parse_written_body tk true (LabelLine nn) Hv Hn).
  - exact (parse_written_body tk false (LabelLine nn) Hv Hn).
  - exact (parse_written_body tk true (BulletThenLabel bullet nn) Hv Hbn).
  - exact (parse_written_body tk false (BulletThenLabel bullet nn) Hv Hbn).
  - exact (parse_written_body tk true (BulletLine nn) Hv Hn).
  - exact (parse_written_body tk false (BulletLine nn) Hv Hn).
  - exact (parse_written_body tk true NoLine Hv eq_refl).
  - exact (parse_written_body tk false NoLine Hv eq_refl).
Qed.

(** The theorem on the token of May 14, 2024, 15:00 to 15:30, with a
    label of 45 minutes and a bullet of 15. *)
Lemma C6_duration_priority_witness :
  parse_issue_for_time
    ("May 14, 2024 15:00-15:30 UTC" ++ String newline "Duration: 45 minutes")
  = inr ("2024-05-14T15:00:00Z", 45%Z)
  /\ parse_issue_for_time
       ("May 14, 2024 15:00-15:30 UTC" ++ String newline
          ("- 15 minutes" ++ String newline "Duration: 45 minutes"))
     = inr ("2024-05-14T15:00:00Z", 45%Z)
  /\ parse_issue_for_time scenario.bullet_and_end_time
     = inr ("2024-05-14T15:00:00Z", 15%Z)
  /\ parse_issue_for_time scenario.bullet_only
     = inr ("2024-05-14T15:00:00Z", 15%Z)
  /\ parse_issue_for_time scenario.end_time_only
     = inr ("2024-05-14T15:00:00Z", 30%Z)
  /\ parse_issue_for_time scenario.start_only
     = inl (ValueError missing_duration).
Proof.
  pose proof (C6_duration_priority may_14_bare (la "15") (la "45")
                eq_refl eq_refl eq_refl) as A.
  pose proof (C6_duration_priority may_14_bare (la "15") (la "15")
                eq_refl eq_refl eq_refl) as B.
  cbv zeta in A, B.
  split; [exact (proj1 A) |].
  split; [exact (proj1 (proj2 (proj2 A))) |].
  split; [exact (proj1 (proj2 (proj2 (proj2 (proj2 B))))) |].
  split; [exact (proj1 (proj2 (proj2 (proj2 (proj2 (proj2 B)))))) |].
  split; [exact (proj1 (proj2 (proj2 (proj2 (proj2 (proj2 (proj2 A))))))) |].
  exact (proj2 (proj2 (proj2 (proj2 (proj2 (proj2 (proj2 A))))))).
Defined.

End Priority.

(* ================================================================== *)
(** * The reconciler: what each phase may call and change *)
(* ================================================================== *)

Section Reconciler.

Local Open Scope string_scope.
Import handle_issue.

Lemma count_app {A} (p : A -> bool) (l1 l2 : list A) :
  count p (l1 ++ l2) = count p l1 + count p l2.
Proof. unfold count. rewrite filter_app, length_app. reflexivity. Qed.

Create HintDb py.
#[local] Hint Unfold save_and_commit save_meeting_topic_mapping do_call
  set_mapping append_comment topic_comment read_local
  load_meeting_topic_mapping try_catch bind ret lift raise get modify : py.

#[local] Arguments count : simpl never.
#[local] Arguments calendar_handling : simpl never.
#[local] Arguments discourse_handling : simpl never.
#[local] Arguments meeting_and_calendar : simpl never.
#[local] Arguments parse_issue_for_time : simpl never.
#[local] Arguments join_lines : simpl never.
#[local] Arguments telegram_message : simpl never.
#[local] Arguments prune : simpl never.

Ltac run_monad :=
  repeat autounfold with py in *;
  cbn [fst snd file calls mapping comment_lines] in *.

Ltac case_step :=
  match goal with
  | |- context [match ?x with _ => _ end] =>
      lazymatch x with
      | context [match _ with _ => _ end] => fail
      | _ => destruct x eqn:?
      end
  | |- context [if ?x then _ else _] =>
      lazymatch x with
      | context [if _ then _ else _] => fail
      | _ => destruct x eqn:?
      end
  end;
  cbn [fst snd file calls mapping comment_lines] in *.


Lemma count_snoc_false {A} (p : A -> bool) l c :
  p c = false -> count p (l ++ [c]) = count p l.
Proof.
  intros H. rewrite count_app. unfold count at 2. cbn. rewrite H. cbn. lia.
Qed.

Lemma count_snoc_true {A} (p : A -> bool) l c :
  p c = true -> count p (l ++ [c]) = count p l + 1.
Proof.
  intros H. rewrite count_app. unfold count at 2. cbn. rewrite H. reflexivity.
Qed.

Ltac count_calls :=
  repeat first [ rewrite count_snoc_false by reflexivity
               | rewrite count_snoc_true by reflexivity ].

Lemma discourse_handling_frame sv n st p :
  backstage p ->
  let r := discourse_handling sv n st in
  file (snd r) = file st /\ mapping (snd r) = mapping st
  /\ count p (calls (snd r)) = count p (calls st).
Proof.
  intros (Hu & Hc & _ & _). unfold discourse_handling. run_monad.
  repeat case_step; repeat split; try reflexivity;
    apply count_snoc_false; auto.
Qed.

Lemma calendar_handling_unbound sv mid s d st :
  exists e, calendar_handling sv mid None s d st = (inl e, st).
Proof.
  unfold calendar_handling. run_monad.
  repeat case_step; eexists; reflexivity.
Qed.


Lemma find_by_issue_found m n k e :
  find_by_issue m n = inr (Some (k, e)) ->
  exists d, e = VDict d /\ truthy e = true.
Proof.
  induction m as [| [k' v] m IH]; cbn; [discriminate |].
  destruct v as [| b | z | s | d]; cbn; try discriminate.
  destruct (dict_get d "issue_number") as [x |] eqn:E.
  - destruct (eq_int x n).
    + intros H. injection H as <- <-. exists d. split; [reflexivity |].
      destruct d; [discriminate | reflexivity].
    + exact IH.
  - cbn. exact IH.
Qed.


Lemma meeting_and_calendar_unchanged sv n t st key entry start duration :
  parse_issue_for_time (issue_body sv) = inr (start, duration) ->
  find_by_issue (mapping st) n = inr (Some (key, entry)) ->
  schedule_unchanged entry start duration = true ->
  exists e, meeting_and_calendar sv n t st = (inl e, st).
Proof.
  intros Hp Hf Hs.
  destruct (find_by_issue_found _ _ _ _ Hf) as (d & -> & _).
  unfold schedule_unchanged in Hs. cbn in Hs.
  unfold meeting_and_calendar, resolve_meeting. run_monad.
  rewrite Hp. cbn. rewrite Hf. cbn. rewrite Hs. cbn.
  destruct (calendar_handling_unbound sv key start duration st) as [e He].
  exists e. destruct st. exact He.
Qed.



(** The run after the forum phase: the comment, the notification and the
    pruning pass make no backstage call and leave the file alone. *)
Lemma run_issue_frame sv f n p :
  backstage p ->
  let st0 := State f [] (stored_mapping f) [] in
  let st := snd (run_issue sv f n) in
  match discourse_handling sv n st0 with
  | (inl _, st1) => st = st1
  | (inr t, st1) =>
      let st2 := snd (meeting_and_calendar sv n t st1) in
      file st = file st2 /\ count p (calls st) = count p (calls st2)
  end.
Proof.
  intros (_ & _ & Hc & Ht).
  unfold run_issue, handle_github_issue, initial, stored_mapping.
  run_monad.
  destruct (discourse_handling sv n _) as [[e | t] st1]; cbn; [reflexivity |].
  destruct (meeting_and_calendar sv n t st1) as [[e | u] st2]; cbn.
  all: repeat case_step; split; try reflexivity; count_calls;
    try reflexivity.
  all: rewrite ?count_snoc_false by auto; reflexivity.
Qed.


Lemma parse_start_nonempty body start duration :
  parse_issue_for_time body = inr (start, duration) -> start <> "".
Proof.
  unfold parse_issue_for_time.
  assert (H : forall dt, str (isoformat dt ++ la "Z")%list <> "")
    by (intros dt; unfold isoformat, pad4; cbn; discriminate).
  repeat case_step; try discriminate;
    intros E; injection E as <- _; apply H.
Qed.




Lemma backstage_meeting_create : backstage is_meeting_create.
Proof. repeat split. Qed.

Lemma backstage_event_update : backstage is_event_update.
Proof. repeat split. Qed.




Lemma dict_get_set m k v : dict_get (dict_set m k v) k = Some v.
Proof.
  induction m as [| [k' v'] m IH]; cbn.
  - rewrite String.eqb_refl. reflexivity.
  - destruct (String.eqb k' k) eqn:E; cbn.
    + rewrite String.eqb_refl. reflexivity.
    + rewrite E. exact IH.
Qed.

Lemma calendar_handling_fresh sv mid ju s d st topic n :
  dict_get (mapping st) mid = Some (new_record sv topic s d n mid) ->
  count is_event_update
    (calls (snd (calendar_handling sv mid (Some ju) s d st)))
  = count is_event_update (calls st).
Proof.
  intros H. unfold calendar_handling. run_monad. rewrite H. cbn.
  repeat case_step; count_calls; reflexivity.
Qed.

Lemma meeting_and_calendar_no_event_update sv n t st :
  count is_event_update (calls (snd (meeting_and_calendar sv n t st)))
  = count is_event_update (calls st).
Proof.
  unfold meeting_and_calendar, resolve_meeting. run_monad.
  destruct (parse_issue_for_time (issue_body sv)) as [e | [start duration]];
    cbn; [reflexivity |].
  destruct (find_by_issue (mapping st) n) as [e | [[key entry] |]]; cbn;
    [reflexivity | |].
  - repeat case_step; count_calls; try reflexivity.
    all: match goal with
         | |- context [calendar_handling ?a ?b None ?c ?d ?s] =>
             destruct (calendar_handling_unbound a b c d s) as [e' He'];
             rewrite He'
         end; cbn; count_calls; try reflexivity.
  - destruct (create_meeting sv (issue_title sv) start duration)
      as [e | [ju zid]]; cbn; [count_calls; reflexivity |].
    destruct (commit_mapping_file sv _); cbn; [count_calls; reflexivity |].
    erewrite calendar_handling_fresh; cbn.
    + count_calls. reflexivity.
    + apply dict_get_set.
Qed.

(** In no run at all is [gcal.update_event] called. *)
Lemma update_event_never_called sv f n :
  count is_event_update (calls (snd (run_issue sv f n))) = 0.
Proof.
  pose proof (run_issue_frame sv f n _ backstage_event_update) as F.
  pose proof (discourse_handling_frame sv n
                (State f [] (stored_mapping f) []) _ backstage_event_update)
    as (_ & _ & D).
  cbn zeta in F.
  destruct (discourse_handling sv n _) as [[e | t] st1]; cbn in *.
  - rewrite F. exact D.
  - destruct F as [_ ->].
    rewrite meeting_and_calendar_no_event_update. exact D.
Qed.

(** When the extractor fails, the [try] block ends at once: nothing is
    added to [comment_lines], no call is made, the mapping is not
    touched. *)
Lemma parse_failure_ends_try sv n t st e :
  parse_issue_for_time (issue_body sv) = inl e ->
  meeting_and_calendar sv n t st = (inl e, st).
Proof.
  intros Hp. unfold meeting_and_calendar. run_monad. rewrite Hp.
  reflexivity.
Qed.

(** When the schedule of an existing record changed and the provider
    answers the update, the record is replaced by a new one, whatever it
    held. *)
Lemma drift_overwrites_record sv n t st key entry start duration zr :
  parse_issue_for_time (issue_body sv) = inr (start, duration) ->
  find_by_issue (mapping st) n = inr (Some (key, entry)) ->
  schedule_unchanged entry start duration = false ->
  update_meeting sv key (issue_title sv) start duration = inr (VDict zr) ->
  file (snd (meeting_and_calendar sv n t st))
  = Some (dict_set (mapping st) key
            (new_record sv t start duration n key)).
Proof.
  intros Hp Hf Hs Hu.
  destruct (find_by_issue_found _ _ _ _ Hf) as (d & -> & _).
  unfold schedule_unchanged in Hs. cbn in Hs.
  unfold meeting_and_calendar, resolve_meeting. run_monad.
  rewrite Hp. cbn. rewrite Hf. cbn. rewrite Hs. cbn. rewrite Hu. cbn.
  destruct (commit_mapping_file sv _); cbn; [reflexivity |].
  match goal with
  | |- context [calendar_handling ?a ?b None ?c ?d ?s] =>
      destruct (calendar_handling_unbound a b c d s) as [e He];
      rewrite He
  end.
  reflexivity.
Qed.



End Reconciler.


(* ================================================================== *)
(** * The harvester: forced mode *)
(* ================================================================== *)

Section Forced.

Local Open Scope string_scope.
Import poll_zoom_recordings.

Ltac run_monad :=
  unfold run_main, main, force_process, save_and_commit, do_call, set_mapping,
         load_meeting_topic_mapping, initial, try_catch, bind, ret,
         lift, raise, get, modify in *; cbn [fst snd file calls mapping] in *.

(** C9, as amended.  Forced mode with an id that is not empty once
    stripped.  When the mapping has no topic for the id, the run makes no
    call, leaves the file as it was and returns normally: the error raised
    at line 82 is caught at line 95.  When the entry is a record with a
    topic id and the transcript call and the commit answer, the transcript
    is fetched and posted once and the record stored under the id is
    replaced by one with [discourse_topic_id] and [issue_title] only. *)
Theorem C9_forced_harvest :
  forall (sv : services) (f : option pydict) (id : string),
    let meeting_id := validate_meeting_id id in
    let m := stored_mapping f in
    let entry := mapping_get m meeting_id in
    id <> "" -> meeting_id <> "" ->
    (truthy (mapped_topic entry) = false ->
       run_main sv f (Some id) = (inr tt, State f [] m))
    /\ (forall d title answer,
          entry = VDict d ->
          truthy (mapped_topic entry) = true ->
          py_get entry "issue_title" (VStr ("Meeting " ++ meeting_id))
            = inr title ->
          let minimized :=
            dict_set m meeting_id
              (VDict [("discourse_topic_id", mapped_topic entry);
                      ("issue_title", title)]) in
          post_transcript sv meeting_id = inr answer ->
          commit_mapping_file sv minimized = inr tt ->
          run_main sv f (Some id)
          = (inr tt,
             State (Some minimized)
                   [post_zoom_transcript_to_discourse meeting_id;
                    commit minimized]
                   minimized)).
Proof.
  intros sv f id meeting_id m entry Hid Hmid.
  assert (Em : stored_mapping f = m) by reflexivity.
  assert (Ee : mapping_get m meeting_id = entry) by reflexivity.
  assert (Ei : validate_meeting_id id = meeting_id) by reflexivity.
  clearbody entry m meeting_id.
  apply String.eqb_neq in Hid. apply String.eqb_neq in Hmid.
  unfold run_main, main. rewrite Hid, Ei, Hmid.
  unfold stored_mapping in Em.
  split.
  - intros Hno. run_monad. rewrite Em, Ee.
    destruct entry as [| b | z | s | d]; cbn in Hno |- *;
      try rewrite Hno; cbn; try reflexivity.
  - intros d title answer E Hyes Ht Hpost Hcommit.
    run_monad. rewrite Em, Ee. rewrite E in *. cbn in Hyes, Ht |- *.
    injection Ht as <-.
    assert (Ht : truthy match dict_get d "discourse_topic_id" with
                        | Some x => x | None => VNone end = true) by exact Hyes.
    rewrite Ht. cbn. rewrite Hpost. cbn.
    cbn in Hcommit. rewrite Hcommit. reflexivity.
Qed.

(** The theorem on an id without a mapping and on one with a record. *)
Lemma C9_forced_harvest_witness :
  scenario.unmapped_forced = (inr tt, State None [] [])
  /\ scenario.mapped_forced
     = (inr tt,
        State (Some scenario.minimized_store)
              [post_zoom_transcript_to_discourse "555";
               commit scenario.minimized_store]
              scenario.minimized_store).
Proof.
  split.
  - refine (proj1 (C9_forced_harvest scenario.fetching None "555" _ _) _).
    + discriminate.
    + discriminate.
    + reflexivity.
  - refine (proj2 (C9_forced_harvest scenario.fetching
                     (Some scenario.exhausted_store) "555" _ _)
                  _ (VStr "ACDE #1") (VInt 7) _ _ _ _ _).
    + discriminate.
    + discriminate.
    + reflexivity.
    + reflexivity.
    + reflexivity.
    + reflexivity.
    + reflexivity.
Defined.

End Forced.
(* ================================================================== *)
(** * The reconciler on the runs of [scenario] *)
(* ================================================================== *)

Section ReconcilerRuns.

Import scenario.
Local Open Scope string_scope.

(** C1.  The pruning pass does not reach the mapping file.  When the forum
    answers the creation without a [topic_id], the run stores a record
    whose [discourse_topic_id] is [None], ends normally, and leaves that
    record in the file: the last statement of [handle_github_issue] only
    rebinds the local [mapping], which it empties. *)
Theorem C1_null_topic_record_stays_in_file :
  fst failed_create_run = inr tt
  /\ stored_field (handle_issue.file (snd failed_create_run))
                  "123" "discourse_topic_id"
     = Some VNone
  /\ handle_issue.mapping (snd failed_create_run) = [].
Proof. vm_compute. repeat split. Qed.

(** C2.  The record of an issue whose duration changed is written anew:
    the flags the harvester had set are back to [False], the attempt
    counters are back to 0, and [calendar_event_id] is gone. *)
Theorem C2_upsert_resets_flags_and_drops_event_id :
  fst drift_run = inr tt
  /\ map (stored_field (Some harvested_store) "123")
         ["transcript_processed"; "Youtube_upload_processed";
          "upload_attempt_count"; "transcript_attempt_count";
          "calendar_event_id"; "duration"]
     = [Some (VBool true); Some (VBool true); Some (VInt 3); Some (VInt 2);
        Some (VStr "abc"); Some (VInt 30)]
  /\ map (stored_field (handle_issue.file (snd drift_run)) "123")
         ["transcript_processed"; "Youtube_upload_processed";
          "upload_attempt_count"; "transcript_attempt_count";
          "calendar_event_id"; "duration"]
     = [Some (VBool false); Some (VBool false); Some (VInt 0); Some (VInt 0);
        None; Some (VInt 60)].
Proof. vm_compute. repeat split. Qed.

(** C4.  A run on a record that has a [calendar_event_id], with the
    schedule unchanged, makes no calendar call at all: [description] reads
    [join_url], which is assigned only when a meeting is created, and the
    [UnboundLocalError] ends the [try] block before [gcal.update_event] is
    called. *)
Theorem C4_event_update_not_invoked :
  stored_field (Some harvested_store) "123" "calendar_event_id"
  = Some (VStr "abc")
  /\ fst unchanged_run = inr tt
  /\ count is_event_update (handle_issue.calls (snd unchanged_run)) = 0
  /\ count is_event_create (handle_issue.calls (snd unchanged_run)) = 0
  /\ fst (handle_issue.calendar_handling (answering half_hour) "123" None
            "2024-05-14T15:00:00Z" 30
            (handle_issue.State (Some harvested_store) [] harvested_store []))
     = inl (UnboundLocalError "join_url").
Proof. vm_compute. repeat split. Qed.

(** C7.  On a body with no date the extractor fails, the run ends
    normally, and the one comment it posts has the three lines of the
    topic only: the reason of the failure is not in it. *)
Theorem C7_comment_without_parse_failure_reason :
  parse_issue_for_time no_date_body
  = inl (ValueError "Missing or invalid date/time format.")
  /\ fst no_date_run = inr tt
  /\ handle_issue.file (snd no_date_run) = None
  /\ filter is_comment (handle_issue.calls (snd no_date_run))
     = [handle_issue.issue_create_comment
          ("**Discourse Topic ID:** 7" ++ String newline "- Action: Created"
           ++ String newline "- URL: https://ethereum-magicians.org/t/7")]
  /\ existsb (fun c =>
                match c with
                | handle_issue.issue_create_comment body =>
                    contains (la "Missing or invalid date/time format.")
                             (la body)
                | _ => false
                end) (handle_issue.calls (snd no_date_run))
     = false.
Proof. vm_compute. repeat split. Qed.

(** C10.  A legacy entry makes the run raise.  Alone in the mapping, it
    stops the lookup by [issue_number] before any call is made; placed
    after the record of the issue, it lets the lookups pass and stops the
    pruning pass, after the comment has been posted. *)
Theorem C10_legacy_entry_raises :
  fst legacy_run = inl AttributeError
  /\ handle_issue.calls (snd legacy_run) = []
  /\ find_by_issue legacy_store 1 = inl AttributeError
  /\ fst mixed_run = inl AttributeError
  /\ find_by_issue mixed_store 1 = inr (Some ("123", harvested_record))
  /\ prune mixed_store = inl AttributeError
  /\ count is_comment (handle_issue.calls (snd mixed_run)) = 1.
Proof. vm_compute. repeat split. Qed.

(** C3.  A second run on an unchanged issue whose duration is 0 is not
    a no-op.  The stored [start_time] and [duration] are present and equal
    to the parsed ones, and still the run updates the meeting, writes the
    record anew and commits the file: line 98 tests the stored values by
    their truth value, and 0 is false. *)
Theorem C3_zero_duration_updates_again :
  parse_issue_for_time zero_duration_body
  = inr ("2024-05-14T15:00:00Z", 0%Z)
  /\ stored_field (Some [("123", zero_duration_record)]) "123" "start_time"
     = Some (VStr "2024-05-14T15:00:00Z")
  /\ stored_field (Some [("123", zero_duration_record)]) "123" "duration"
     = Some (VInt 0)
  /\ fst zero_duration_run = inr tt
  /\ count is_meeting_update (handle_issue.calls (snd zero_duration_run)) = 1
  /\ count is_meeting_create (handle_issue.calls (snd zero_duration_run)) = 0
  /\ count is_commit (handle_issue.calls (snd zero_duration_run)) = 1
  /\ handle_issue.file (snd zero_duration_run)
     = Some [("123",
              handle_issue.new_record (answering zero_duration_body)
                (VInt 7) "2024-05-14T15:00:00Z" 0 1 "123")]
  /\ ~ (count is_meeting_update (handle_issue.calls (snd zero_duration_run))
        + count is_meeting_create
            (handle_issue.calls (snd zero_duration_run)) = 0).
Proof. vm_compute. repeat split. discriminate. Qed.

End ReconcilerRuns.

(* ================================================================== *)
(** * The harvester on the runs of [scenario] *)
(* ================================================================== *)

Section HarvesterRuns.

Import scenario.
Local Open Scope string_scope.

(** The loop over the provider's recordings has the ceiling: a candidate
    that has reached 10 attempts is left alone. *)
Lemma candidate_at_ceiling_is_skipped sv st meeting_id d n :
  dict_get (poll_zoom_recordings.mapping st) meeting_id = Some (VDict d) ->
  dict_get d "transcript_processed" = Some (VBool false) ->
  dict_get d "upload_attempt_count" = Some (VInt n) ->
  (10 <= n)%Z ->
  poll_zoom_recordings.process_candidate sv meeting_id st = (inr tt, st).
Proof.
  intros Hm Hp Hc Hn.
  unfold poll_zoom_recordings.process_candidate,
    poll_zoom_recordings.mapping_get, dict_has, bind, get, ret, lift.
  rewrite Hm. cbn. rewrite Hm. cbn. rewrite Hp. cbn. rewrite Hc. cbn.
  apply Z.leb_le in Hn. rewrite Hn. reflexivity.
Qed.

(** C8.  The sweep over the last five entries does not look at
    [upload_attempt_count]: a record that has reached 10 is fetched again,
    and since the failed fetch leaves the file as it was, so it is on every
    later run. *)
Theorem C8_recent_sweep_ignores_ceiling :
  stored_field (Some exhausted_store) "555" "upload_attempt_count"
  = Some (VInt 10)
  /\ fst exhausted_sweep = inr tt
  /\ count (is_fetch_of "555") (poll_zoom_recordings.calls (snd exhausted_sweep))
     = 1
  /\ poll_zoom_recordings.file (snd exhausted_sweep) = Some exhausted_store.
Proof. vm_compute. repeat split. Qed.

(** C9 as stated fails: forced mode on an id the mapping does not have
    ends normally, nothing is raised to the caller. *)
Lemma C9_missing_mapping_is_not_raised :
  poll_zoom_recordings.mapping_get [] "555" = VNone
  /\ fst unmapped_forced = inr tt
  /\ ~ (exists e, fst unmapped_forced = inl e).
Proof.
  vm_compute. repeat split. intros [e H]. discriminate.
Qed.

End HarvesterRuns.
(* ================================================================== *)
(** * Texts and dictionaries *)
(* ================================================================== *)

Section Texts.

Lemma contains_app needle pre t :
  contains needle t = true -> contains needle (pre ++ t) = true.
Proof.
  intros H. induction pre as [| c pre IH]; [exact H |].
  cbn [app contains]. rewrite IH. apply orb_true_r.
Qed.

Lemma starts_with_app sep t : starts_with sep (sep ++ t) = true.
Proof.
  induction sep as [| c sep IH]; [reflexivity |].
  cbn. rewrite Ascii.eqb_refl. exact IH.
Qed.

Lemma contains_here sep t : starts_with sep t = true -> contains sep t = true.
Proof. intros H. destruct t; cbn in *; rewrite H; reflexivity. Qed.

Lemma contains_skipn sep k t :
  contains sep (skipn k t) = true -> contains sep t = true.
Proof.
  revert t. induction k as [| k IH]; intros t H; [exact H |].
  destruct t as [| c t]; [exact H |].
  cbn [skipn] in H. cbn [contains]. rewrite (IH t H). apply orb_true_r.
Qed.

(** No occurrence of the separator starts inside another. *)
Lemma eid_no_overlap t :
  contains eid (la "id=" ++ t) = contains eid t.
Proof.
  unfold eid. cbn [la list_ascii_of_string app].
  destruct t as [| c t]; reflexivity.
Qed.

Lemma after_last_absent sep t :
  contains sep t = false -> after_last sep t = t.
Proof.
  destruct t as [| c t]; [reflexivity |].
  cbn [contains after_last]. intros H.
  apply orb_false_elim in H as [Hs Hc]. rewrite Hc.
  destruct sep as [| x sep]; [discriminate |].
  cbn [starts_with] in Hs |- *. rewrite Hs. reflexivity.
Qed.

Lemma after_last_eid_free t : contains eid (after_last eid t) = false.
Proof.
  induction t as [| c t IH]; [reflexivity |].
  cbn [after_last].
  destruct (contains eid t) eqn:Hc; [exact IH |].
  destruct (starts_with eid (c :: t)) eqn:Hs.
  - destruct (contains eid (skipn (List.length eid) (c :: t))) eqn:E;
      [| reflexivity].
    change (skipn (List.length eid) (c :: t)) with (skipn 3 t) in E.
    apply contains_skipn in E. congruence.
  - cbn [contains]. unfold eid in *. rewrite Hc.
    cbn [la list_ascii_of_string] in Hs |- *. rewrite Hs. reflexivity.
Qed.

Lemma after_last_eid_found pre id :
  contains eid id = false -> after_last eid (pre ++ eid ++ id) = id.
Proof.
  intros H. induction pre as [| c pre IH].
  - change (after_last eid ([] ++ eid ++ id))
      with (if contains eid (la "id=" ++ id)
            then after_last eid (la "id=" ++ id)
            else if starts_with eid (eid ++ id)
                 then skipn (List.length eid) (eid ++ id)
                 else eid ++ id).
    rewrite eid_no_overlap, H, starts_with_app. reflexivity.
  - cbn [app after_last].
    rewrite (contains_app eid pre (eid ++ id))
      by (apply contains_here, starts_with_app).
    exact IH.
Qed.

(** X1.  The event id stored at line 177 is what follows the last [eid=]
    of the link the calendar returned, and has no [eid=] in it.  A link
    without [eid=] is stored whole. *)
Theorem event_id_is_what_follows_eid :
  forall event_link : string,
    contains eid (la (event_id_of event_link)) = false
    /\ (contains eid (la event_link) = false ->
        event_id_of event_link = event_link)
    /\ (forall pre id : string,
          event_link = (pre ++ "eid=" ++ id)%string ->
          contains eid (la id) = false ->
          event_id_of event_link = id).
Proof.
  intros event_link. unfold event_id_of.
  split; [| split].
  - rewrite list_ascii_of_string_of_list_ascii. apply after_last_eid_free.
  - intros H. rewrite (after_last_absent _ _ H).
    apply string_of_list_ascii_of_string.
  - intros pre id -> H.
    assert (E : la (pre ++ "eid=" ++ id)%string = la pre ++ eid ++ la id).
    { clear H. induction pre as [| c pre IH]; [reflexivity |].
      cbn. f_equal. exact IH. }
    rewrite E, (after_last_eid_found _ _ H).
    apply string_of_list_ascii_of_string.
Qed.

Lemma event_id_is_what_follows_eid_witness :
  event_id_of "https://calendar.google.com/event?eid=abc" = "abc"%string
  /\ event_id_of "no id here" = "no id here"%string.
Proof.
  split.
  - exact (proj2 (proj2 (event_id_is_what_follows_eid
                           "https://calendar.google.com/event?eid=abc"))
                 "https://calendar.google.com/event?"%string "abc"%string
                 eq_refl eq_refl).
  - exact (proj1 (proj2 (event_id_is_what_follows_eid "no id here"))
                 eq_refl).
Defined.

Lemma drop_while_hd p t : hd_fails p (drop_while p t) = true.
Proof.
  induction t as [| c t IH]; [reflexivity |].
  cbn [drop_while]. destruct (p c) eqn:E; [exact IH |].
  cbn. rewrite E. reflexivity.
Qed.

Lemma drop_while_fixed p t : hd_fails p t = true -> drop_while p t = t.
Proof.
  destruct t as [| c t]; [reflexivity |]. cbn.
  destruct (p c); [discriminate | reflexivity].
Qed.

Lemma drop_while_all p t : forallb p t = true -> drop_while p t = [].
Proof.
  induction t as [| c t IH]; [reflexivity |]. cbn.
  destruct (p c); [exact IH | discriminate].
Qed.

Lemma drop_while_suffix p t : exists pre, t = pre ++ drop_while p t
                                          /\ forallb p pre = true.
Proof.
  induction t as [| c t (pre & E & H)]; [exists []; auto |].
  cbn [drop_while]. destruct (p c) eqn:Hc.
  - exists (c :: pre). cbn. rewrite Hc, H. split; [congruence | reflexivity].
  - exists []. auto.
Qed.

(** Dropping at the front keeps the last character. *)
Lemma drop_while_keeps_last p q t :
  hd_fails q (rev t) = true ->
  hd_fails q (rev (drop_while p t)) = true.
Proof.
  induction t as [| c t IH]; [auto |].
  intros H. cbn [drop_while]. destruct (p c); [| exact H].
  destruct t as [| c' t]; [reflexivity |].
  apply IH. cbn [rev] in H |- *.
  destruct (rev t ++ [c']) as [| x l] eqn:E.
  - destruct (rev t); discriminate.
  - exact H.
Qed.

Lemma strip_trimmed t : trimmed (strip t) = true.
Proof.
  unfold trimmed, strip. rewrite rev_involutive, drop_while_hd, andb_true_r.
  apply drop_while_keeps_last with (t := rev (drop_while is_space t)).
  rewrite rev_involutive. apply drop_while_hd.
Qed.

Lemma strip_fixed t : trimmed t = true -> strip t = t.
Proof.
  unfold trimmed, strip. intros H. apply andb_prop in H as [H1 H2].
  rewrite (drop_while_fixed _ _ H1), (drop_while_fixed _ _ H2).
  apply rev_involutive.
Qed.

Lemma strip_blank t : forallb is_space t = true -> strip t = [].
Proof.
  intros H. unfold strip. rewrite (drop_while_all _ _ H). reflexivity.
Qed.

Lemma strip_empty_blank t : strip t = [] -> forallb is_space t = true.
Proof.
  unfold strip. intros H.
  destruct (drop_while_suffix is_space t) as (pre & E & Hp).
  destruct (drop_while_suffix is_space (rev (drop_while is_space t)))
    as (pre' & E' & Hp').
  apply (f_equal (@rev ascii)) in H. rewrite rev_involutive in H.
  cbn in H. rewrite H, app_nil_r in E'.
  apply (f_equal (@rev ascii)) in E'. rewrite rev_involutive in E'.
  rewrite E, E', forallb_app, Hp. cbn.
  rewrite forallb_forall in Hp' |- *.
  intros x Hx. apply Hp', in_rev, Hx.
Qed.

(** X2.  [validate_meeting_id] removes the white space around the id and
    nothing else: its result has none at either end, an id that has none
    is returned as it is, applying it twice changes nothing, and the
    result is empty exactly for an id made of white space only. *)
Theorem validate_meeting_id_trims :
  forall id : string,
    let meeting_id := poll_zoom_recordings.validate_meeting_id id in
    trimmed (la meeting_id) = true
    /\ (trimmed (la id) = true -> meeting_id = id)
    /\ poll_zoom_recordings.validate_meeting_id meeting_id = meeting_id
    /\ (meeting_id = ""%string <-> forallb is_space (la id) = true).
Proof.
  intros id. cbv zeta. unfold poll_zoom_recordings.validate_meeting_id.
  rewrite !list_ascii_of_string_of_list_ascii.
  split; [apply strip_trimmed |].
  split.
  { intros H. rewrite (strip_fixed _ H).
    apply string_of_list_ascii_of_string. }
  split.
  { rewrite (strip_fixed (strip (la id))) by apply strip_trimmed.
    reflexivity. }
  split.
  - intros H. apply strip_empty_blank.
    apply (f_equal list_ascii_of_string) in H.
    rewrite list_ascii_of_string_of_list_ascii in H. exact H.
  - intros H. rewrite (strip_blank _ H). reflexivity.
Qed.

Lemma validate_meeting_id_trims_witness :
  poll_zoom_recordings.validate_meeting_id "555" = "555"%string
  /\ poll_zoom_recordings.validate_meeting_id "   " = ""%string.
Proof.
  split.
  - exact (proj1 (proj2 (validate_meeting_id_trims "555")) eq_refl).
  - exact (proj2 (proj2 (proj2 (proj2 (validate_meeting_id_trims "   "))))
                 eq_refl).
Defined.

End Texts.

Section Dicts.

Local Open Scope string_scope.

Lemma dict_get_set_other m k k' v :
  k <> k' -> dict_get (dict_set m k v) k' = dict_get m k'.
Proof.
  intros H. apply String.eqb_neq in H.
  induction m as [| [k0 v0] m IH]; cbn.
  - rewrite H. reflexivity.
  - destruct (String.eqb k0 k) eqn:E; cbn.
    + apply String.eqb_eq in E. subst k0. rewrite H. reflexivity.
    + rewrite IH. reflexivity.
Qed.

Lemma dict_set_set m k v v' :
  dict_set (dict_set m k v) k v' = dict_set m k v'.
Proof.
  induction m as [| [k0 v0] m IH]; cbn.
  - rewrite String.eqb_refl. reflexivity.
  - destruct (String.eqb k0 k) eqn:E; cbn.
    + rewrite String.eqb_refl. reflexivity.
    + rewrite E, IH. reflexivity.
Qed.

Lemma dict_has_set m k v k' :
  dict_has m k' = true -> dict_has (dict_set m k v) k' = true.
Proof.
  unfold dict_has. destruct (String.eqb k k') eqn:E.
  - apply String.eqb_eq in E. subst k'. rewrite dict_get_set. reflexivity.
  - apply String.eqb_neq in E. rewrite (dict_get_set_other _ _ _ _ E).
    auto.
Qed.

(** [d[k] = v] keeps the keys in their order; a new key goes last. *)
Lemma keys_set m k v :
  keys (dict_set m k v)
  = if dict_has m k then keys m else (keys m ++ [k])%list.
Proof.
  unfold keys, dict_has. induction m as [| [k0 v0] m IH]; cbn; [reflexivity |].
  destruct (String.eqb k0 k) eqn:E; cbn.
  - apply String.eqb_eq in E. subst k0. reflexivity.
  - rewrite IH. destruct (dict_get m k); reflexivity.
Qed.

Lemma all_dicts_set m k d :
  all_dicts m = true -> all_dicts (dict_set m k (VDict d)) = true.
Proof.
  unfold all_dicts. induction m as [| [k0 v0] m IH]; cbn; [reflexivity |].
  intros H. apply andb_prop in H as [H0 H].
  destruct (String.eqb k0 k); cbn.
  - exact H.
  - rewrite H0. apply IH, H.
Qed.

Lemma all_dicts_get m k v :
  all_dicts m = true -> dict_get m k = Some v -> is_dict v = true.
Proof.
  unfold all_dicts. induction m as [| [k0 v0] m IH]; cbn; [discriminate |].
  intros H. apply andb_prop in H as [H0 H].
  destruct (String.eqb k0 k).
  - intros E. injection E as <-. exact H0.
  - apply IH, H.
Qed.

Lemma prune_filter m :
  prune m
  = if all_dicts m then inr (filter has_topic m) else inl AttributeError.
Proof.
  unfold all_dicts. induction m as [| [k v] m IH]; [reflexivity |].
  cbn [prune forallb filter snd].
  destruct v as [| b | z | s | d]; try reflexivity.
  cbn [py_get is_dict andb]. rewrite IH.
  destruct (forallb _ m); [| reflexivity].
  unfold has_topic. cbn [snd mapped_topic].
  destruct (dict_get d "discourse_topic_id") as [[| | | |] |]; reflexivity.
Qed.

Lemma all_dicts_filter p m :
  all_dicts m = true -> all_dicts (filter p m) = true.
Proof.
  unfold all_dicts. induction m as [| kv m IH]; [reflexivity |].
  cbn. intros H. apply andb_prop in H as [H0 H].
  destruct (p kv); cbn; [rewrite H0 |]; apply IH, H.
Qed.

Lemma filter_filter {A} (p : A -> bool) l : filter p (filter p l) = filter p l.
Proof.
  induction l as [| x l IH]; [reflexivity |]. cbn.
  destruct (p x) eqn:E; cbn; [rewrite E, IH |]; auto.
Qed.

(** X3.  The pruning pass of line 201 is a filter: it keeps, in their
    order and as they are, the records whose [discourse_topic_id] is not
    [None]; it raises [AttributeError] exactly when some entry of the
    mapping is not a [dict]; and pruning what it returns changes
    nothing. *)
Theorem prune_is_a_filter :
  forall m : pydict,
    prune m
    = (if all_dicts m then inr (filter has_topic m) else inl AttributeError)
    /\ (forall kept, prune m = inr kept -> prune kept = inr kept).
Proof.
  intros m. split; [apply prune_filter |].
  intros kept. rewrite !prune_filter.
  destruct (all_dicts m) eqn:E; [| discriminate].
  intros H. injection H as <-.
  rewrite (all_dicts_filter _ _ E), filter_filter. reflexivity.
Qed.

Lemma prune_is_a_filter_witness :
  prune scenario.harvested_store = inr scenario.harvested_store.
Proof.
  exact (proj2 (prune_is_a_filter scenario.harvested_store)
               scenario.harvested_store eq_refl).
Defined.

Lemma find_by_issue_none_all_dicts m n :
  find_by_issue m n = inr None -> all_dicts m = true.
Proof.
  unfold all_dicts. induction m as [| [k v] m IH]; cbn; intros H;
    [reflexivity |].
  destruct v as [| b | z | s | d]; try discriminate. cbn in H |- *.
  destruct (eq_int _ n); [discriminate | apply IH, H].
Qed.

Lemma find_by_issue_total m n :
  all_dicts m = true -> exists r, find_by_issue m n = inr r.
Proof.
  unfold all_dicts. induction m as [| [k v] m IH]; cbn; intros H.
  - eexists. reflexivity.
  - apply andb_prop in H as [H0 H].
    destruct v as [| b | z | s | d]; try discriminate. cbn.
    destruct (eq_int _ n); [eexists; reflexivity | apply IH, H].
Qed.

(** A record stored for an issue that had none is the one a later lookup
    finds. *)
Lemma find_by_issue_set m n k d :
  find_by_issue m n = inr None ->
  dict_get d "issue_number" = Some (VInt n) ->
  find_by_issue (dict_set m k (VDict d)) n = inr (Some (k, VDict d)).
Proof.
  intros H Hd.
  assert (Hit : forall k0,
            find_by_issue [(k0, VDict d)] n = inr (Some (k0, VDict d))).
  { intros k0. cbn. rewrite Hd. cbn. rewrite Z.eqb_refl. reflexivity. }
  induction m as [| [k0 v0] m IH]; [apply Hit |].
  cbn [find_by_issue] in H. cbn [dict_set].
  destruct (String.eqb k0 k).
  - cbn. rewrite Hd. cbn. rewrite Z.eqb_refl. reflexivity.
  - cbn [find_by_issue].
    destruct (py_get v0 "issue_number" VNone) as [e | x]; [discriminate |].
    destruct (eq_int x n); [discriminate |]. apply IH, H.
Qed.

End Dicts.
(* ================================================================== *)
(** * The extractor: what it returns and how it fails *)
(* ================================================================== *)

Section ExtractorResults.

Lemma take_while_all p t a b :
  take_while p t = (a, b) -> forallb p a = true /\ t = a ++ b.
Proof.
  revert a b. induction t as [| c t IH]; cbn; intros a b H.
  - injection H as <- <-. auto.
  - destruct (p c) eqn:E.
    + destruct (take_while p t) as [a' b'].
      injection H as <- <-. destruct (IH _ _ eq_refl) as [Ha Ht].
      cbn. rewrite E, Ha. split; [reflexivity | congruence].
    + injection H as <- <-. auto.
Qed.

Lemma digit_val_le c : is_digit c = true -> digit_val c <= 9.
Proof.
  unfold is_digit, in_range, digit_val. intros H.
  apply andb_prop in H as [A B]. apply Nat.leb_le in A, B. lia.
Qed.

Lemma fold_digits_bound t acc :
  forallb is_digit t = true ->
  fold_left (fun a c => 10 * a + digit_val c) t acc
  < (acc + 1) * 10 ^ List.length t.
Proof.
  revert acc. induction t as [| c t IH]; cbn [fold_left List.length forallb];
    intros acc H.
  - cbn. lia.
  - apply andb_prop in H as [Hc Ht]. pose proof (digit_val_le c Hc).
    specialize (IH (10 * acc + digit_val c) Ht).
    rewrite Nat.pow_succ_r'. nia.
Qed.

Lemma nat_of_digits_bound t :
  forallb is_digit t = true -> nat_of_digits t < 10 ^ List.length t.
Proof.
  intros H. pose proof (fold_digits_bound t 0 H) as B.
  rewrite Nat.add_0_l, Nat.mul_1_l in B. exact B.
Qed.

Lemma index_of_range x l i m :
  index_of x l i = Some m -> i <= m < i + List.length l.
Proof.
  revert i. induction l as [| y l IH]; cbn; intros i H; [discriminate |].
  destruct (text_eqb x y).
  - injection H as <-. lia.
  - apply IH in H. lia.
Qed.

Lemma read_minute_range t mm unread :
  read_minute t = Some (mm, unread) -> nat_of_digits mm <= 59.
Proof.
  unfold read_minute.
  destruct t as [| c1 [| c2 t]]; [discriminate | |].
  - destruct (is_digit c1) eqn:E; [| discriminate].
    intros H. injection H as <- <-.
    pose proof (digit_val_le c1 E). unfold nat_of_digits. cbn. lia.
  - destruct (in_range 48 53 c1 && is_digit c2) eqn:E.
    + intros H. injection H as <- <-.
      apply andb_prop in E as [E1 E2]. pose proof (digit_val_le c2 E2).
      unfold in_range in E1. apply andb_prop in E1 as [A B].
      apply Nat.leb_le in A, B.
      unfold nat_of_digits, digit_val in *. cbn. lia.
    + destruct (is_digit c1) eqn:E1; [| discriminate].
      intros H. injection H as <- <-.
      pose proof (digit_val_le c1 E1). unfold nat_of_digits. cbn. lia.
Qed.

(** What [strptime] returns is a date and a time of day that exist. *)
Lemma strptime_existing d s dt :
  strptime d s = inr dt -> existing_datetime dt.
Proof.
  unfold strptime.
  destruct (take_while is_alpha s) as [mon s1].
  destruct (index_of (lower mon) (directive_names d) 1) as [m |] eqn:Hi;
    [| discriminate].
  destruct (take_while is_space s1) as [w1 s2].
  destruct (take_while is_digit s2) as [dd s3].
  destruct (take_while is_space s3) as [w2 s4].
  destruct (take_while is_digit s4) as [yy s5] eqn:Hy.
  destruct (take_while is_space s5) as [w3 s6].
  destruct (take_while is_digit s6) as [hh s7].
  destruct (negb _) eqn:Hc; [discriminate |].
  apply negb_false_iff in Hc.
  repeat (apply andb_prop in Hc as [Hc ?]).
  destruct s7 as [| sep s8]; [discriminate |].
  destruct (Ascii.eqb sep ":"); [| discriminate].
  destruct (read_minute s8) as [[mm unread] |] eqn:Hm; [| discriminate].
  destruct unread; [| discriminate].
  destruct (nat_of_digits yy =? 0) eqn:Hy0; [discriminate |].
  destruct (days_in_month (nat_of_digits yy) m <? nat_of_digits dd) eqn:Hd;
    [discriminate |].
  intros E. injection E as <-.
  apply Nat.eqb_neq in Hy0. apply Nat.ltb_ge in Hd.
  apply index_of_range in Hi.
  replace (List.length (directive_names d)) with 12 in Hi
    by (destruct d; reflexivity).
  apply take_while_all in Hy as [Dy _].
  pose proof (nat_of_digits_bound yy Dy) as By.
  repeat match goal with
         | H : (_ <=? _) = true |- _ => apply Nat.leb_le in H
         | H : (_ =? _) = true |- _ => apply Nat.eqb_eq in H
         end.
  apply read_minute_range in Hm.
  unfold existing_datetime. cbn [dt_year dt_month dt_day dt_hour dt_minute].
  replace (List.length yy) with 4 in By by lia.
  change (10 ^ 4) with (100 * 100) in By.
  lia.
Qed.

Lemma strptime_either_existing s dt :
  strptime_either s = inr dt -> existing_datetime dt.
Proof.
  unfold strptime_either.
  destruct (strptime PctB s) eqn:E.
  - apply strptime_existing.
  - intros H. injection H as <-. apply (strptime_existing _ _ _ E).
Qed.

Lemma int_of_digits_nonneg t : (0 <= int_of_digits t)%Z.
Proof.
  unfold int_of_digits.
  assert (H : forall acc, (0 <= acc)%Z ->
            (0 <= fold_left
                    (fun a c => (10 * a + Z.of_nat (digit_val c))%Z) t acc)%Z).
  { induction t as [| c t IH]; cbn [fold_left]; intros acc Ha; [exact Ha |].
    apply IH. lia. }
  apply H. lia.
Qed.

(** X4.  Whatever [parse_issue_for_time] returns is a start time of the
    form YYYY-MM-DDTHH:MM:00Z, twenty characters that name an existing day
    and time of day, and a duration that is not negative; a duration
    computed from the end time is at least one minute. *)
Theorem parse_result_is_well_formed :
  forall (issue_body start : string) (duration : Z),
    parse_issue_for_time issue_body = inr (start, duration) ->
    (exists dt,
        existing_datetime dt
        /\ start = str (isoformat dt ++ la "Z"))
    /\ String.length start = 20
    /\ (0 <= duration)%Z
    /\ (duration_search (la issue_body) = None -> (1 <= duration)%Z).
Proof.
  intros issue_body start duration.
  unfold parse_issue_for_time. cbv zeta.
  destruct (re_search date_pattern (la issue_body)) as [dm |]; [| discriminate].
  destruct (strptime_either (start_text (la issue_body) dm)) as [e | dt] eqn:Hs;
    [discriminate |].
  apply strptime_either_existing in Hs.
  assert (L : String.length (str (isoformat dt ++ la "Z")) = 20)
    by reflexivity.
  destruct (duration_search (la issue_body)) as [m |].
  - unfold py_int.
    destruct (int_max_str_digits <? _); [discriminate |].
    intros E. injection E as <- <-.
    split; [eauto |]. split; [exact L |].
    split; [apply int_of_digits_nonneg | discriminate].
  - unfold duration_from_end_time.
    destruct (has_end_time (la issue_body) dm); [| discriminate].
    destruct (strptime_either (end_text (la issue_body) dm)) as [e | edt];
      [discriminate |].
    destruct (minutes_of edt <=? minutes_of dt)%Z eqn:Hle; [discriminate |].
    intros E. injection E as <- <-. apply Z.leb_gt in Hle.
    split; [eauto |]. split; [exact L |]. split; [lia |]. intros _. lia.
Qed.

Lemma parse_result_is_well_formed_witness :
  (exists dt,
      existing_datetime dt
      /\ "2024-05-14T15:00:00Z"%string = str (isoformat dt ++ la "Z"))
  /\ String.length "2024-05-14T15:00:00Z" = 20
  /\ (0 <= 30)%Z
  /\ (duration_search (la scenario.half_hour) = None -> (1 <= 30)%Z).
Proof.
  apply (parse_result_is_well_formed scenario.half_hour).
  vm_compute. reflexivity.
Defined.

(** X5.  When [parse_issue_for_time] fails it raises a [ValueError], so it
    is the first [except] clause of [handle_github_issue] that takes it.
    The message is one of the three the function words itself, or the
    reason [strptime] gave for the start time behind the prefix "Unable to
    parse the start time: ", or the reason [strptime] gave for the end
    time, unprefixed, or the message of [int] for a duration of more than
    4300 digits, unprefixed too. *)
Theorem parse_fails_with_value_error :
  forall (issue_body : string) (e : exn),
    parse_issue_for_time issue_body = inl e ->
    exists msg,
      e = ValueError msg
      /\ (In msg extractor_messages
          \/ (exists reason,
                msg = ("Unable to parse the start time: " ++ reason)%string)
          \/ (exists dm,
                re_search date_pattern (la issue_body) = Some dm
                /\ strptime_either (end_text (la issue_body) dm) = inl msg)
          \/ (exists m,
                duration_search (la issue_body) = Some m
                /\ int_max_str_digits
                   < List.length (fstr (group (la issue_body) m "1"))
                /\ py_int (fstr (group (la issue_body) m "1")) = inl msg)).
Proof.
  intros issue_body e.
  unfold parse_issue_for_time, extractor_messages. cbv zeta.
  destruct (re_search date_pattern (la issue_body)) as [dm |].
  - destruct (strptime_either (start_text (la issue_body) dm)) as [r | dt].
    + intros E. injection E as <-. eexists. split; [reflexivity |].
      right. left. eexists. reflexivity.
    + destruct (duration_search (la issue_body)) as [m |].
      * destruct (py_int (fstr (group (la issue_body) m "1"))) as [r | z]
          eqn:Hint; [| discriminate].
        intros E. injection E as <-. eexists. split; [reflexivity |].
        right. right. right. exists m.
        split; [reflexivity |]. split; [| exact Hint].
        unfold py_int in Hint.
        destruct (Nat.ltb_spec int_max_str_digits
                    (List.length (fstr (group (la issue_body) m "1"))));
          [assumption | discriminate].
      * unfold duration_from_end_time.
        destruct (has_end_time (la issue_body) dm).
        -- destruct (strptime_either (end_text (la issue_body) dm))
             as [r | edt] eqn:He.
           ++ intros E. injection E as <-. eexists. split; [reflexivity |].
              right. right. left. exists dm. auto.
           ++ destruct (minutes_of edt <=? minutes_of dt)%Z; [| discriminate].
              intros E. injection E as <-. eexists. split; [reflexivity |].
              left. cbn. auto.
        -- intros E. injection E as <-. eexists. split; [reflexivity |].
           left. cbn. auto.
  - intros E. injection E as <-. eexists. split; [reflexivity |].
    left. cbn. auto.
Qed.

(** The theorem on a body whose duration label has 4301 digits: the
    message is that of [int]. *)
Lemma parse_fails_with_value_error_witness :
  exists msg,
    ValueError
      "Exceeds the limit (4300 digits) for integer string conversion: value has 4301 digits; use sys.set_int_max_str_digits() to increase the limit"
    = ValueError msg
    /\ (In msg extractor_messages
        \/ (exists reason,
              msg = ("Unable to parse the start time: " ++ reason)%string)
        \/ (exists dm,
              re_search date_pattern (la long_label) = Some dm
              /\ strptime_either (end_text (la long_label) dm) = inl msg)
        \/ (exists m,
              duration_search (la long_label) = Some m
              /\ int_max_str_digits
                 < List.length (fstr (group (la long_label) m "1"))
              /\ py_int (fstr (group (la long_label) m "1")) = inl msg)).
Proof.
  apply (parse_fails_with_value_error long_label).
  vm_compute. reflexivity.
Defined.

End ExtractorResults.

Section ExtractorTokens.

Lemma parse_rendered_token tk :
  valid_token tk = true ->
  parse_issue_for_time (str (render_token tk)) = token_outcome tk.
Proof.
  intros Hv.
  destruct (token_found tk Hv) as ((dm & Hs & G) & Hdur & Hbul).
  assert (E : la (str (render_token tk)) = render_token tk)
    by apply list_ascii_of_string_of_list_ascii.
  apply (parse_found_token tk _ dm Hv); rewrite E; assumption.
Qed.

(** X6.  How the token is dressed does not matter: with or without the
    brackets, with or without a day of the week (whichever it is, it is
    not checked against the date), with the month in full or abbreviated,
    the extractor gives the same answer. *)
Theorem token_dressing_is_ignored :
  forall (br br' : bool) (wd wd' : option nat) (sp sp' : spelling)
         (m d y h mi eh em : nat),
    valid_token (DateToken br wd sp m d y h mi eh em) = true ->
    valid_token (DateToken br' wd' sp' m d y h mi eh em) = true ->
    parse_issue_for_time
      (str (render_token (DateToken br wd sp m d y h mi eh em)))
    = parse_issue_for_time
        (str (render_token (DateToken br' wd' sp' m d y h mi eh em))).
Proof.
  intros br br' wd wd' sp sp' m d y h mi eh em H H'.
  rewrite (parse_rendered_token _ H), (parse_rendered_token _ H').
  reflexivity.
Qed.

Lemma token_dressing_is_ignored_witness :
  parse_issue_for_time "[Tue May 14, 2024 15:00-15:30 UTC]"
  = parse_issue_for_time "Sun May 14, 2024 15:00-15:30 UTC".
Proof.
  exact (token_dressing_is_ignored true false (Some 1) (Some 6)
           Abbreviation FullName 5 14 2024 15 0 15 30 eq_refl eq_refl).
Defined.

Lemma month_index_full_abbr m :
  1 <= m <= 12 ->
  index_of (lower (month_text FullName m)) (directive_names Pctb) 1
  = if m =? 5 then Some m else None.
Proof.
  intros H. do 13 (destruct m as [| m]; [try lia; reflexivity |]). lia.
Qed.

Lemma strptime_either_past_month_end sp m (dd yy hh mm : text) :
  1 <= m <= 12 ->
  forallb is_digit dd = true -> 1 <= List.length dd <= 2 ->
  forallb is_digit yy = true -> List.length yy = 4 ->
  forallb is_digit hh = true -> 1 <= List.length hh <= 2 ->
  forallb is_digit mm = true -> List.length mm = 2 ->
  1 <= nat_of_digits yy ->
  days_in_month (nat_of_digits yy) m < nat_of_digits dd <= 31 ->
  nat_of_digits hh <= 23 -> nat_of_digits mm <= 59 ->
  exists reason,
    strptime_either
      (join_fields (Some (month_text sp m)) (Some dd) (Some yy) (Some hh)
                   (Some mm))
    = inl reason.
Proof.
  intros Hm Hdd Ldd Hyy Lyy Hhh Lhh Hmm Lmm Vy Vd Vh Vmi.
  assert (Hy0 : (nat_of_digits yy =? 0) = false) by (apply Nat.eqb_neq; lia).
  assert (Hd : (days_in_month (nat_of_digits yy) m <? nat_of_digits dd) = true)
    by (apply Nat.ltb_lt; lia).
  assert (Vd' : 1 <= nat_of_digits dd <= 31) by lia.
  assert (Fails : forall d,
            index_of (lower (month_text sp m)) (directive_names d) 1
            = Some m \/
            index_of (lower (month_text sp m)) (directive_names d) 1
            = None ->
            exists reason,
              strptime d (join_fields (Some (month_text sp m)) (Some dd)
                            (Some yy) (Some hh) (Some mm))
              = inl reason).
  { intros d [Hi | Hi].
    - rewrite (strptime_fields d (month_text sp m) m dd yy hh mm
                 (month_text_alpha sp m Hm) Hi Hdd Ldd Vd' Hyy Lyy Hhh Lhh Vh
                 Hmm Lmm Vmi).
      rewrite Hy0, Hd. eexists. reflexivity.
    - unfold join_fields, fstr.
      apply (strptime_unknown_month d (month_text sp m) _
               (month_text_alpha sp m Hm) Hi). }
  assert (Idx : forall d,
            index_of (lower (month_text sp m)) (directive_names d) 1
            = Some m \/
            index_of (lower (month_text sp m)) (directive_names d) 1
            = None).
  { intros d. destruct sp, d.
    - left. apply month_index_full, Hm.
    - rewrite (month_index_full_abbr m Hm). destruct (m =? 5); auto.
    - rewrite (month_index_abbr_full m Hm). destruct (m =? 5); auto.
    - left. apply month_index_abbr, Hm. }
  unfold strptime_either.
  destruct (Fails PctB (Idx PctB)) as [r ->].
  apply (Fails Pctb (Idx Pctb)).
Qed.

Lemma past_month_end_facts tk :
  day_past_month_end tk = true ->
  match tk_weekday tk with Some w => w < 7 | None => True end
  /\ 1 <= tk_month tk <= 12
  /\ 1 <= tk_year tk < 100 * 100
  /\ days_in_month (tk_year tk) (tk_month tk) < tk_day tk <= 31
  /\ tk_hour tk <= 23 /\ tk_minute tk <= 59
  /\ tk_end_hour tk <= 23 /\ tk_end_minute tk <= 59.
Proof.
  unfold day_past_month_end. intros H.
  repeat (apply andb_prop in H as [H ?]).
  repeat match goal with
         | E : (_ <=? _) = true |- _ => apply Nat.leb_le in E
         | E : (_ <? _) = true |- _ => apply Nat.ltb_lt in E
         end.
  repeat split; try assumption.
  destruct (tk_weekday tk); [apply Nat.ltb_lt; assumption | exact I].
Qed.

(** X7.  A token whose day is past the end of its month (February 30,
    April 31, February 29 of a common year) is found by the pattern and
    rejected by [strptime]: the extractor raises a [ValueError] that
    starts with "Unable to parse the start time: ". *)
Theorem day_past_month_end_is_rejected :
  forall tk : date_token,
    day_past_month_end tk = true ->
    exists reason,
      parse_issue_for_time (str (render_token tk))
      = inl (ValueError ("Unable to parse the start time: " ++ reason)).
Proof.
  intros tk Hv.
  destruct (past_month_end_facts tk Hv)
    as (Hw & Hm & Hy & Hd & Hh & Hmi & Heh & Hem).
  assert (Hd100 : tk_day tk < 100) by lia.
  destruct (dec_of_nat_day (tk_day tk) Hd100) as (Dd & Ld & Vd).
  destruct (token_search (tk_bracketed tk) (tk_weekday tk) (tk_spelled tk)
              (tk_month tk) (dec_of_nat (tk_day tk)) (pad4 (tk_year tk))
              (pad2 (tk_hour tk)) (pad2 (tk_minute tk))
              (pad2 (tk_end_hour tk)) (pad2 (tk_end_minute tk))
              Hw Hm Dd Ld (pad4_digits _) eq_refl (pad2_digits _) eq_refl
              (pad2_digits _) eq_refl (pad2_digits _) eq_refl
              (pad2_digits _) eq_refl)
    as ((dm & Hs & [Gm Gd Gy Gh Gmi _ _]) & _ & _).
  assert (L2 : forall n, 1 <= List.length (pad2 n) <= 2) by (cbn; lia).
  destruct (strptime_either_past_month_end (tk_spelled tk) (tk_month tk)
              (dec_of_nat (tk_day tk)) (pad4 (tk_year tk))
              (pad2 (tk_hour tk)) (pad2 (tk_minute tk))
              Hm Dd Ld (pad4_digits _) eq_refl (pad2_digits _) (L2 _)
              (pad2_digits _) eq_refl) as [reason Hr].
  - rewrite nat_of_digits_pad4; lia.
  - rewrite nat_of_digits_pad4, Vd; lia.
  - rewrite nat_of_digits_pad2; lia.
  - rewrite nat_of_digits_pad2; lia.
  - exists reason.
    unfold parse_issue_for_time, start_text. cbv zeta.
    assert (E : la (str (render_token tk)) = render_token tk)
      by apply list_ascii_of_string_of_list_ascii.
    rewrite E. unfold render_token.
    rewrite Hs, Gm, Gd, Gy, Gh, Gmi, Hr. reflexivity.
Qed.

Lemma day_past_month_end_is_rejected_witness :
  exists reason,
    parse_issue_for_time "Feb 30, 2024 15:00-15:30 UTC"
    = inl (ValueError ("Unable to parse the start time: " ++ reason)).
Proof.
  exact (day_past_month_end_is_rejected
           (DateToken false None Abbreviation 2 30 2024 15 0 15 30) eq_refl).
Defined.

End ExtractorTokens.
(* ================================================================== *)
(** * The reconciler: bounds on what a run does *)
(* ================================================================== *)

Section ReconcilerCalls.

Local Open Scope string_scope.
Import handle_issue.

Create HintDb run.
#[local] Hint Unfold save_and_commit save_meeting_topic_mapping do_call
  set_mapping append_comment topic_comment read_local
  load_meeting_topic_mapping try_catch bind ret lift raise get modify : run.

#[local] Arguments count : simpl never.
#[local] Arguments calendar_handling : simpl never.
#[local] Arguments discourse_handling : simpl never.
#[local] Arguments meeting_and_calendar : simpl never.
#[local] Arguments parse_issue_for_time : simpl never.
#[local] Arguments join_lines : simpl never.
#[local] Arguments telegram_message : simpl never.
#[local] Arguments prune : simpl never.
#[local] Arguments new_record : simpl never.
#[local] Arguments dict_set : simpl never.
#[local] Arguments py_str : simpl never.
#[local] Arguments event_description : simpl never.

Ltac run_monad :=
  repeat autounfold with run in *;
  cbn [fst snd file calls mapping comment_lines] in *.

Ltac case_step :=
  py_cases; cbn [fst snd file calls mapping comment_lines] in *.

Ltac count_calls :=
  repeat first [ rewrite count_snoc_false by reflexivity
               | rewrite count_snoc_true by reflexivity ].

Ltac effect_leaf :=
  cbn [fst snd file calls mapping comment_lines];
  split;
  [ first [ left; split; [reflexivity |]; split; [reflexivity |];
            count_calls; reflexivity
          | right; eexists; eexists; split; [reflexivity |];
            split; [reflexivity |]; count_calls; lia ] |];
  split; [count_calls; lia |];
  split; [count_calls; lia |];
  split; [count_calls; lia |];
  split; [count_calls; reflexivity |];
  split; [first [ exists []; symmetry; apply app_nil_r
                | eexists; rewrite <- ?app_assoc; reflexivity ] |];
  intros ? ? E;
  first [ discriminate E
        | split; [count_calls; reflexivity |];
          rewrite ?keys_set;
          repeat match goal with H : dict_has _ _ = true |- _ => rewrite H end;
          reflexivity ].

Lemma backstage_meeting_call : backstage is_meeting_call.
Proof. repeat split. Qed.

Lemma backstage_event_call : backstage is_event_call.
Proof. repeat split. Qed.

Lemma backstage_event_create : backstage is_event_create.
Proof. repeat split. Qed.

Lemma backstage_commit : backstage is_commit.
Proof. repeat split. Qed.

Lemma parse_failure_frame sv f n e p :
  parse_issue_for_time (issue_body sv) = inl e ->
  backstage p ->
  file (snd (run_issue sv f n)) = f
  /\ count p (calls (snd (run_issue sv f n))) = 0.
Proof.
  intros Hp Hb.
  pose proof (run_issue_frame sv f n p Hb) as F.
  pose proof (discourse_handling_frame sv n
                (State f [] (stored_mapping f) []) p Hb) as (Df & _ & Dc).
  cbn zeta in F.
  destruct (discourse_handling sv n _) as [[e' | t] st1]; cbn in *.
  - rewrite F. auto.
  - rewrite (parse_failure_ends_try sv n t st1 e Hp) in F. cbn in F.
    destruct F as [-> ->]. auto.
Qed.

(** The calendar phase on a record that line 134 has just written: the
    event is created, and when the calendar answers, its id is stored and
    the file committed. *)
Lemma calendar_handling_new_record sv id ju s d st t n :
  dict_get (mapping st) id = Some (new_record sv t s d n id) ->
  calendar_handling sv id (Some ju) s d st
  = let c := gcal_create_event (issue_title sv) s d
               (event_description sv ju) in
    match create_event sv (issue_title sv) s d (event_description sv ju) with
    | inl e =>
        (inl e,
         State (file st) (calls st ++ [c]) (mapping st) (comment_lines st))
    | inr link =>
        let m := dict_set (mapping st) id
                   (with_event_id (new_record sv t s d n id) link) in
        (commit_mapping_file sv m,
         State (Some m) ((calls st ++ [c]) ++ [commit m]) m
               (comment_lines st))
    end.
Proof.
  intros H. unfold calendar_handling. run_monad. rewrite H.
  change (py_get (new_record sv t s d n id) "calendar_event_id" VNone)
    with (@inr exn pyval VNone).
  cbn.
  destruct (create_event sv _ _ _ _) as [e | link]; cbn; [reflexivity |].
  rewrite H. reflexivity.
Qed.

Lemma find_by_issue_key m n k e :
  find_by_issue m n = inr (Some (k, e)) -> dict_has m k = true.
Proof.
  unfold dict_has.
  induction m as [| [k0 v0] m IH]; cbn; [discriminate |].
  destruct (py_get v0 "issue_number" VNone) as [x | x]; [discriminate |].
  destruct (eq_int x n).
  - intros H. injection H as <- <-. rewrite String.eqb_refl. reflexivity.
  - intros H. destruct (String.eqb k0 k); [reflexivity | apply IH, H].
Qed.

(** What the [try] block does to the mapping, the file and the calls, on
    every path through it. *)
Lemma meeting_and_calendar_effect sv n t st :
  let st' := snd (meeting_and_calendar sv n t st) in
  ((file st' = file st /\ mapping st' = mapping st
    /\ count is_commit (calls st') = count is_commit (calls st))
   \/ (exists id r,
         mapping st' = dict_set (mapping st) id (VDict r)
         /\ file st' = Some (mapping st')
         /\ count is_commit (calls st) < count is_commit (calls st')))
  /\ count is_meeting_call (calls st') <= count is_meeting_call (calls st) + 1
  /\ count is_event_create (calls st') <= count is_event_create (calls st) + 1
  /\ count is_commit (calls st') <= count is_commit (calls st) + 2
  /\ count is_comment (calls st') = count is_comment (calls st)
  /\ (exists l, comment_lines st' = (comment_lines st ++ l)%list)
  /\ (forall k e,
        find_by_issue (mapping st) n = inr (Some (k, e)) ->
        count is_meeting_create (calls st')
        = count is_meeting_create (calls st)
        /\ keys (mapping st') = keys (mapping st)).
Proof.
  unfold meeting_and_calendar, resolve_meeting. run_monad.
  destruct (parse_issue_for_time (issue_body sv)) as [e | [start duration]];
    cbn.
  { effect_leaf. }
  destruct (find_by_issue (mapping st) n) as [e | [[key entry] |]] eqn:Hf; cbn.
  { effect_leaf. }
  - destruct (find_by_issue_found _ _ _ _ Hf) as (r & -> & _).
    pose proof (find_by_issue_key _ _ _ _ Hf) as Hk.
    cbn [py_get]. cbn.
    destruct (_ && _); cbn; change (py_str (VStr key)) with key.
    + destruct (calendar_handling_unbound sv key start duration st)
        as [e He].
      rewrite He. effect_leaf.
    + destruct (update_meeting sv key (issue_title sv) start duration)
        as [e | zr]; cbn; [effect_leaf |].
      destruct (py_get zr "join_url" VNone); cbn; [effect_leaf |].
      change (py_str (VStr key)) with key.
      destruct (commit_mapping_file sv _); cbn; [effect_leaf |].
      match goal with
      | |- context [calendar_handling ?a ?b None ?c ?d ?s] =>
          destruct (calendar_handling_unbound a b c d s) as [e He];
          rewrite He
      end.
      effect_leaf.
  - destruct (create_meeting sv (issue_title sv) start duration)
      as [e | [ju zid]]; cbn; [effect_leaf |].
    destruct (commit_mapping_file sv _); cbn; [effect_leaf |].
    erewrite calendar_handling_new_record by apply dict_get_set.
    cbv zeta.
    destruct (create_event sv _ _ _ _);
      cbn [fst snd mapping file calls comment_lines];
      rewrite ?dict_set_set; effect_leaf.
Qed.

(** The run is the forum phase, the [try] block, and a tail that makes
    no backstage call and does not write the file. *)
Lemma run_issue_phases sv f n :
  match discourse_handling sv n (loaded f) with
  | (inl _, st1) => snd (run_issue sv f n) = st1
  | (inr t, st1) =>
      let st2 := snd (meeting_and_calendar sv n t st1) in
      file (snd (run_issue sv f n)) = file st2
      /\ forall p, backstage p ->
           count p (calls (snd (run_issue sv f n))) = count p (calls st2)
  end.
Proof.
  pose proof (fun p Hb => run_issue_frame sv f n p Hb) as F.
  cbn zeta in F. fold (loaded f) in F.
  destruct (discourse_handling sv n (loaded f)) as [[e | t] st1].
  - exact (F _ backstage_commit).
  - split; [exact (proj1 (F _ backstage_commit)) |].
    intros p Hb. exact (proj2 (F p Hb)).
Qed.

Lemma backstage_count_bound sv f n p bound :
  backstage p ->
  (forall t st,
      count p (calls (snd (meeting_and_calendar sv n t st)))
      <= count p (calls st) + bound) ->
  count p (calls (snd (run_issue sv f n))) <= bound.
Proof.
  intros Hb Hm.
  pose proof (run_issue_phases sv f n) as F.
  pose proof (discourse_handling_frame sv n (loaded f) p Hb) as (_ & _ & D).
  destruct (discourse_handling sv n (loaded f)) as [[e | t] st1]; cbn in *.
  - rewrite F, D. unfold count. cbn. lia.
  - destruct F as [_ F]. rewrite (F p Hb).
    specialize (Hm t st1). rewrite D in Hm. unfold count in Hm at 2.
    cbn in Hm. exact Hm.
Qed.

(** X8.  When the extractor rejects the body, the run calls neither the
    meeting provider nor the calendar, commits nothing and leaves the
    mapping file as it was. *)
Theorem parse_failure_leaves_no_trace :
  forall (sv : services) (f : option pydict) (n : Z) (e : exn),
    parse_issue_for_time (issue_body sv) = inl e ->
    let st := snd (run_issue sv f n) in
    file st = f
    /\ count is_meeting_call (calls st) = 0
    /\ count is_event_call (calls st) = 0
    /\ count is_commit (calls st) = 0.
Proof.
  intros sv f n e Hp st. subst st.
  destruct (parse_failure_frame sv f n e _ Hp backstage_meeting_call)
    as [Hf Hm].
  destruct (parse_failure_frame sv f n e _ Hp backstage_event_call)
    as [_ He].
  destruct (parse_failure_frame sv f n e _ Hp backstage_commit) as [_ Hc].
  auto.
Qed.

Lemma parse_failure_leaves_no_trace_witness :
  file (snd scenario.no_date_run) = None
  /\ count is_meeting_call (calls (snd scenario.no_date_run)) = 0
  /\ count is_event_call (calls (snd scenario.no_date_run)) = 0
  /\ count is_commit (calls (snd scenario.no_date_run)) = 0.
Proof.
  refine (parse_failure_leaves_no_trace
            (scenario.answering scenario.no_date_body) None 1
            (ValueError "Missing or invalid date/time format.") _).
  vm_compute. reflexivity.
Defined.

(** X9.  An issue without a body, [None] or empty, gets a topic and a
    comment at most: the placeholder of line 45 has no date in it, so no
    meeting is made, no event, no commit, and the mapping file stays as
    it was. *)
Theorem issue_without_body_gets_no_meeting :
  forall (sv : services) (f : option pydict) (n : Z),
    no_body sv = true ->
    let st := snd (run_issue sv f n) in
    file st = f
    /\ count is_meeting_call (calls st) = 0
    /\ count is_event_call (calls st) = 0
    /\ count is_commit (calls st) = 0.
Proof.
  intros sv f n Hn st. subst st.
  assert (Hp : parse_issue_for_time (issue_body sv)
               = inl (ValueError "Missing or invalid date/time format.")).
  { unfold issue_body. unfold no_body in Hn.
    destruct (issue_body_field sv) as [b |].
    - rewrite Hn. vm_compute. reflexivity.
    - vm_compute. reflexivity. }
  destruct (parse_failure_frame sv f n _ _ Hp backstage_meeting_call)
    as [Hf Hm].
  destruct (parse_failure_frame sv f n _ _ Hp backstage_event_call)
    as [_ He].
  destruct (parse_failure_frame sv f n _ _ Hp backstage_commit) as [_ Hc].
  auto.
Qed.

Lemma issue_without_body_gets_no_meeting_witness :
  let st := snd (run_issue (scenario.answering "") None 1) in
  file st = None
  /\ count is_meeting_call (calls st) = 0
  /\ count is_event_call (calls st) = 0
  /\ count is_commit (calls st) = 0.
Proof.
  exact (issue_without_body_gets_no_meeting (scenario.answering "") None 1
           eq_refl).
Defined.

(** X10.  Whatever the services answer and whatever the mapping holds, a
    run calls the meeting provider at most once, creates at most one
    calendar event, never updates one, and commits the mapping file at
    most twice. *)
Theorem run_calls_are_bounded :
  forall (sv : services) (f : option pydict) (n : Z),
    let st := snd (run_issue sv f n) in
    count is_meeting_call (calls st) <= 1
    /\ count is_event_create (calls st) <= 1
    /\ count is_event_update (calls st) = 0
    /\ count is_commit (calls st) <= 2.
Proof.
  intros sv f n st. subst st.
  split; [| split; [| split]].
  - apply backstage_count_bound; [apply backstage_meeting_call |].
    intros t st. apply (meeting_and_calendar_effect sv n t st).
  - apply backstage_count_bound; [apply backstage_event_create |].
    intros t st. apply (meeting_and_calendar_effect sv n t st).
  - apply update_event_never_called.
  - apply backstage_count_bound; [apply backstage_commit |].
    intros t st. apply (meeting_and_calendar_effect sv n t st).
Qed.

(** X11.  A run rewrites at most one record of the mapping file and
    deletes none: the file it leaves is the one it found, or the one it
    found with a [dict] stored under one key.  The file is not written
    without a commit being attempted. *)
Theorem run_rewrites_at_most_one_record :
  forall (sv : services) (f : option pydict) (n : Z),
    let st := snd (run_issue sv f n) in
    (file st = f
     \/ exists id r,
          file st = Some (dict_set (stored_mapping f) id (VDict r))
          /\ 1 <= count is_commit (calls st))
    /\ (forall k, dict_has (stored_mapping f) k = true ->
                  dict_has (stored_mapping (file st)) k = true)
    /\ (exists id, forall k,
           k <> id ->
           dict_get (stored_mapping (file st)) k
           = dict_get (stored_mapping f) k).
Proof.
  intros sv f n st. subst st.
  assert (H : file (snd (run_issue sv f n)) = f
              \/ exists id r,
                   file (snd (run_issue sv f n))
                   = Some (dict_set (stored_mapping f) id (VDict r))
                   /\ 1 <= count is_commit (calls (snd (run_issue sv f n)))).
  { pose proof (run_issue_phases sv f n) as F.
    pose proof (discourse_handling_frame sv n (loaded f) _ backstage_commit)
      as (Df & Dm & Dc).
    destruct (discourse_handling sv n (loaded f)) as [[e | t] st1];
      cbn in *.
    - left. rewrite F. exact Df.
    - destruct F as [Ff Fc]. rewrite Ff, (Fc _ backstage_commit).
      destruct (meeting_and_calendar_effect sv n t st1)
        as ([(E & _ & _) | (id & r & Em & Ef & Ec)] & _).
      + left. congruence.
      + right. exists id, r. rewrite Ef, Em, Dm. split; [reflexivity | lia]. }
  split; [exact H |].
  destruct H as [-> | (id & r & -> & _)].
  - split; [auto |]. exists ""%string. auto.
  - split.
    + intros k. apply dict_has_set.
    + exists id. intros k Hk. apply dict_get_set_other. congruence.
Qed.

Lemma run_rewrites_at_most_one_record_witness :
  dict_has (stored_mapping (file (snd scenario.drift_run))) "123" = true.
Proof.
  exact (proj1 (proj2 (run_rewrites_at_most_one_record
                         (scenario.answering scenario.full_hour)
                         (Some scenario.harvested_store) 1))
               "123" eq_refl).
Defined.

(** X12.  An issue that has a record never gets a second meeting: the run
    creates none, and the keys of the mapping file stay as they were, in
    their order. *)
Theorem existing_record_keeps_its_meeting :
  forall (sv : services) (f : option pydict) (n : Z) (key : string)
         (entry : pyval),
    find_by_issue (stored_mapping f) n = inr (Some (key, entry)) ->
    let st := snd (run_issue sv f n) in
    count is_meeting_create (calls st) = 0
    /\ keys (stored_mapping (file st)) = keys (stored_mapping f).
Proof.
  intros sv f n key entry Hf st. subst st.
  pose proof (run_issue_phases sv f n) as F.
  pose proof (discourse_handling_frame sv n (loaded f) _
                backstage_meeting_create) as (Df & Dm & Dc).
  destruct (discourse_handling sv n (loaded f)) as [[e | t] st1]; cbn in *.
  - rewrite F, Df, Dc. auto.
  - destruct F as [Ff Fc]. rewrite Ff, (Fc _ backstage_meeting_create).
    rewrite <- Dm in Hf.
    destruct (meeting_and_calendar_effect sv n t st1)
      as (Hfile & _ & _ & _ & _ & _ & Hfound).
    destruct (Hfound _ _ Hf) as [Hc Hk].
    split; [rewrite Hc; exact Dc |].
    destruct Hfile as [(E & _ & _) | (id & r & Em & Ef & _)].
    + rewrite E, Df. reflexivity.
    + rewrite Ef. unfold stored_mapping at 1. rewrite Hk, Dm. reflexivity.
Qed.

Lemma existing_record_keeps_its_meeting_witness :
  count is_meeting_create (calls (snd scenario.drift_run)) = 0
  /\ keys (stored_mapping (file (snd scenario.drift_run))) = ["123"].
Proof.
  refine (existing_record_keeps_its_meeting
            (scenario.answering scenario.full_hour)
            (Some scenario.harvested_store) 1 "123"
            scenario.harvested_record _).
  vm_compute. reflexivity.
Defined.

Lemma discourse_handling_outcome sv n st :
  match discourse_handling sv n st with
  | (inl _, st1) =>
      comment_lines st1 = comment_lines st
      /\ count is_comment (calls st1) = count is_comment (calls st)
  | (inr t, st1) =>
      (exists action,
          comment_lines st1 = (comment_lines st ++ topic_lines sv t action)%list
          /\ (action = "Updated" \/ action = "Created"))
      /\ count is_comment (calls st1) = count is_comment (calls st)
  end.
Proof.
  unfold discourse_handling. run_monad.
  repeat case_step;
    repeat match goal with
           | H : (_, _) = (_, _) |- _ => injection H as <- <-
           | H : inl _ = inr _ |- _ => discriminate H
           | H : inr _ = inl _ |- _ => discriminate H
           end;
    cbn [fst snd file calls mapping comment_lines];
    (split;
     [ first [ reflexivity
             | eexists; split;
               [ unfold topic_lines; rewrite <- ?app_assoc; reflexivity
               | auto ] ]
     | count_calls; reflexivity ]).
Qed.

Lemma discourse_handling_total sv n st :
  forum_answers sv ->
  all_dicts (mapping st) = true ->
  exists t st1, discourse_handling sv n st = (inr t, st1).
Proof.
  intros [Hu Hc] Ha.
  destruct (find_by_issue_total (mapping st) n Ha) as [r Hr].
  unfold discourse_handling. run_monad. rewrite Hr. cbn.
  assert (Ht : match r with
               | Some (_, e) => truthy e = true /\ exists d, e = VDict d
               | None => True
               end).
  { destruct r as [[k e] |]; [| exact I].
    destruct (find_by_issue_found _ _ _ _ Hr) as (d & -> & Ht). eauto. }
  assert (Created : forall st0 : state,
            exists t st1,
              bind (do_call (discourse_create_topic (issue_title sv)
                                                    (issue_body sv))
                            (create_topic sv (issue_title sv) (issue_body sv)))
                   (fun discourse_response =>
                      bind (lift (py_get discourse_response "topic_id" VNone))
                           (fun topic_id =>
                              bind (topic_comment sv topic_id "Created")
                                   (fun _ => ret topic_id))) st0
              = (inr t, st1)).
  { intros st0. run_monad.
    destruct (Hc (issue_title sv) (issue_body sv)) as [d' ->]. cbn.
    eexists. eexists. reflexivity. }
  destruct r as [[k e] |]; cbn.
  - destruct Ht as (Ht & d & ->). cbn [truthy] in Ht |- *. rewrite Ht. cbn.
    destruct (truthy _) eqn:E; [| apply Created].
    match goal with
    | |- context [update_topic sv ?a ?b ?c] => destruct (Hu a b c) as [? ->]
    end.
    eexists. eexists. reflexivity.
  - apply Created.
Qed.

Lemma meeting_and_calendar_all_dicts sv n t st :
  all_dicts (mapping st) = true ->
  all_dicts (mapping (snd (meeting_and_calendar sv n t st))) = true.
Proof.
  intros H.
  destruct (meeting_and_calendar_effect sv n t st)
    as ([(_ & -> & _) | (id & r & -> & _)] & _).
  - exact H.
  - apply all_dicts_set, H.
Qed.

(** X13.  No failure after the forum phase can make the run fail.  When
    the forum answers, the comment can be posted and every entry of the
    mapping is a [dict], the run ends normally, whatever the extractor,
    the meeting provider, the calendar, the commit and the notification
    do. *)
Theorem run_survives_meeting_failures :
  forall (sv : services) (f : option pydict) (n : Z),
    forum_answers sv ->
    (forall body, create_comment sv body = inr tt) ->
    all_dicts (stored_mapping f) = true ->
    fst (run_issue sv f n) = inr tt.
Proof.
  intros sv f n Hforum Hcomment Hall.
  destruct (discourse_handling_total sv n (loaded f) Hforum Hall)
    as (t & st1 & Hd).
  pose proof (discourse_handling_frame sv n (loaded f) _ backstage_commit)
    as (_ & Dm & _).
  rewrite Hd in Dm. cbn in Dm.
  assert (Hall1 : all_dicts (mapping st1) = true) by (rewrite Dm; exact Hall).
  pose proof (meeting_and_calendar_all_dicts sv n t st1 Hall1) as Hall2.
  unfold run_issue, handle_github_issue, initial. run_monad.
  change (State f [] match f with Some m => m | None => [] end [])
    with (loaded f).
  rewrite Hd.
  destruct (meeting_and_calendar sv n t st1) as [[e | u] st2];
    cbn [fst snd] in *.
  all: destruct (comment_lines st2); cbn; rewrite ?Hcomment; cbn.
  all: destruct (send_message sv _); cbn.
  all: rewrite prune_filter, Hall2; reflexivity.
Qed.

Lemma run_survives_meeting_failures_witness :
  fst (run_issue (scenario.answering scenario.no_date_body) None 1) = inr tt.
Proof.
  apply run_survives_meeting_failures.
  - split; intros; eexists; reflexivity.
  - reflexivity.
  - reflexivity.
Defined.

(** X14.  The answer of the notification changes nothing: with any other
    answer of [telegram.send_message], a failure included, the run ends
    the same way, leaves the same file and has made the same calls. *)
Theorem notification_outcome_is_irrelevant :
  forall (sv : services) (answer : string -> exn + unit)
         (f : option pydict) (n : Z),
    run_issue (with_send_message sv answer) f n = run_issue sv f n.
Proof.
  intros sv answer f n.
  assert (D : discourse_handling (with_send_message sv answer) n
              = discourse_handling sv n) by (destruct sv; reflexivity).
  assert (M : forall t, meeting_and_calendar (with_send_message sv answer) n t
                        = meeting_and_calendar sv n t)
    by (destruct sv; reflexivity).
  assert (T : forall t, telegram_message (with_send_message sv answer) t
                        = telegram_message sv t)
    by (destruct sv; reflexivity).
  unfold run_issue, handle_github_issue, initial. run_monad.
  rewrite D.
  destruct (discourse_handling sv n _) as [[e | t] st1]; [reflexivity |].
  rewrite M, T.
  change (create_comment (with_send_message sv answer))
    with (create_comment sv).
  change (send_message (with_send_message sv answer)) with answer.
  destruct (meeting_and_calendar sv n t st1) as [[e | u] st2]; cbn.
  all: destruct (comment_lines st2); cbn.
  all: try (destruct (create_comment sv _); cbn; [reflexivity |]).
  all: destruct (answer _), (send_message sv _); reflexivity.
Qed.

(** X15.  A run in which the forum phase returns a topic posts one
    comment and one only, whatever happens afterwards, and the comment
    starts with the three lines of the topic.  A run in which the forum
    phase fails posts none. *)
Theorem one_comment_per_run :
  forall (sv : services) (f : option pydict) (n : Z),
    let st := snd (run_issue sv f n) in
    match fst (discourse_handling sv n (loaded f)) with
    | inl _ => count is_comment (calls st) = 0
    | inr t =>
        count is_comment (calls st) = 1
        /\ exists action more,
             (action = "Updated" \/ action = "Created")
             /\ In (issue_create_comment
                      (join_lines (topic_lines sv t action ++ more)))
                   (calls st)
    end.
Proof.
  intros sv f n st. subst st.
  pose proof (discourse_handling_outcome sv n (loaded f)) as D.
  unfold run_issue, handle_github_issue, initial. run_monad.
  change (State f [] match f with Some m => m | None => [] end [])
    with (loaded f).
  destruct (discourse_handling sv n (loaded f)) as [[e | t] st1];
    cbn [fst snd] in *.
  - destruct D as [_ ->]. reflexivity.
  - destruct D as [(action & Dl & Da) Dc].
    destruct (meeting_and_calendar_effect sv n t st1)
      as (_ & _ & _ & _ & Mc & [more Ml] & _).
    rewrite Dl in Ml. cbn [comment_lines loaded app] in Ml.
    rewrite Dc in Mc. change (count is_comment (calls (loaded f))) with 0 in Mc.
    destruct (meeting_and_calendar sv n t st1) as [[e | u] st2];
      cbn [fst snd] in *.
    all: rewrite Ml; cbn [topic_lines app].
    all: destruct (create_comment sv _); cbn [fst snd calls].
    all: try destruct (send_message sv _); cbn [fst snd calls].
    all: repeat match goal with
                | |- context [prune ?m] => destruct (prune m)
                end; cbn [fst snd calls].
    all: split; [count_calls; rewrite Mc; reflexivity |].
    all: exists action, more; split;
      [ exact Da | rewrite ?in_app_iff; cbn; tauto ].
Qed.

(** The first run for an issue, when every service answers. *)
Lemma first_run_state sv f n resp t s d ju zid link :
  find_by_issue (stored_mapping f) n = inr None ->
  create_topic sv (issue_title sv) (issue_body sv) = inr resp ->
  py_get resp "topic_id" VNone = inr t ->
  parse_issue_for_time (issue_body sv) = inr (s, d) ->
  create_meeting sv (issue_title sv) s d = inr (ju, zid) ->
  create_event sv (issue_title sv) s d (event_description sv ju)
  = inr link ->
  (forall m, commit_mapping_file sv m = inr tt) ->
  (forall body, create_comment sv body = inr tt) ->
  let id := py_str zid in
  let record := new_record sv t s d n id in
  let m1 := dict_set (stored_mapping f) id record in
  let m2 := dict_set (stored_mapping f) id (with_event_id record link) in
  run_issue sv f n
  = (inr tt,
     State (Some m2)
       [ discourse_create_topic (issue_title sv) (issue_body sv);
         zoom_create_meeting (issue_title sv) s d;
         commit m1;
         gcal_create_event (issue_title sv) s d (event_description sv ju);
         commit m2;
         issue_create_comment
           (join_lines (topic_lines sv t "Created" ++ created_lines ju zid));
         telegram_send_message (telegram_message sv t) ]
       (filter has_topic m2)
       (topic_lines sv t "Created" ++ created_lines ju zid)).
Proof.
  intros Hf Htopic Hid Hp Hm He Hcommit Hcomment id record m1 m2.
  assert (Hall : all_dicts m2 = true).
  { apply all_dicts_set. apply (find_by_issue_none_all_dicts _ _ Hf). }
  unfold run_issue, handle_github_issue, initial, discourse_handling.
  run_monad.
  change (match f with Some m => m | None => [] end) with (stored_mapping f).
  rewrite Hf. cbn. rewrite Htopic. cbn. rewrite Hid. cbn.
  unfold meeting_and_calendar, resolve_meeting. run_monad.
  rewrite Hp. cbn. rewrite Hf. cbn. rewrite Hm. cbn.
  rewrite Hcommit. cbn.
  erewrite calendar_handling_new_record by apply dict_get_set.
  cbv zeta. rewrite He. cbn [fst snd file calls mapping comment_lines].
  rewrite Hcommit, dict_set_set. cbn.
  rewrite Hcomment. cbn.
  destruct (send_message sv _); cbn [fst snd file calls mapping comment_lines].
  all: fold id; fold record; fold m2.
  all: rewrite prune_filter, Hall; reflexivity.
Qed.

(** X16.  The first run for an issue, when every service answers: the
    topic is created, then the meeting, then the event; the file is
    written and committed after the meeting and again after the event; the
    record stored under the meeting id has the ten fields of line 134 and
    the id of the event; the comment has the lines of the topic and of the
    meeting; the notification comes last and its answer does not count. *)
Theorem first_run_schedules_the_meeting :
  forall (sv : services) (f : option pydict) (n : Z) (resp t : pyval)
         (s : string) (d : Z) (ju zid : pyval) (link : string),
    find_by_issue (stored_mapping f) n = inr None ->
    create_topic sv (issue_title sv) (issue_body sv) = inr resp ->
    py_get resp "topic_id" VNone = inr t ->
    parse_issue_for_time (issue_body sv) = inr (s, d) ->
    create_meeting sv (issue_title sv) s d = inr (ju, zid) ->
    create_event sv (issue_title sv) s d (event_description sv ju)
    = inr link ->
    (forall m, commit_mapping_file sv m = inr tt) ->
    (forall body, create_comment sv body = inr tt) ->
    let id := py_str zid in
    let record := new_record sv t s d n id in
    let m1 := dict_set (stored_mapping f) id record in
    let m2 := dict_set (stored_mapping f) id (with_event_id record link) in
    fst (run_issue sv f n) = inr tt
    /\ file (snd (run_issue sv f n)) = Some m2
    /\ dict_get m2 id = Some (with_event_id record link)
    /\ calls (snd (run_issue sv f n))
       = [ discourse_create_topic (issue_title sv) (issue_body sv);
           zoom_create_meeting (issue_title sv) s d;
           commit m1;
           gcal_create_event (issue_title sv) s d (event_description sv ju);
           commit m2;
           issue_create_comment
             (join_lines (topic_lines sv t "Created" ++ created_lines ju zid));
           telegram_send_message (telegram_message sv t) ].
Proof.
  intros sv f n resp t s d ju zid link Hf Htopic Hid Hp Hm He Hcommit
         Hcomment id record m1 m2.
  rewrite (first_run_state sv f n resp t s d ju zid link Hf Htopic Hid Hp Hm
             He Hcommit Hcomment).
  cbn [fst snd file calls].
  split; [reflexivity |]. split; [reflexivity |].
  split; [apply dict_get_set | reflexivity].
Qed.

Lemma first_run_schedules_the_meeting_witness :
  let sv := scenario.answering scenario.half_hour in
  let record := new_record sv (VInt 7) "2024-05-14T15:00:00Z" 30 1 "123" in
  let link := "https://calendar.google.com/event?eid=abc" in
  let m1 := [("123", record)] in
  let m2 := [("123", with_event_id record link)] in
  fst (run_issue sv None 1) = inr tt
  /\ file (snd (run_issue sv None 1)) = Some m2
  /\ dict_get m2 "123" = Some (with_event_id record link)
  /\ calls (snd (run_issue sv None 1))
     = [ discourse_create_topic "ACDE #1" scenario.half_hour;
         zoom_create_meeting "ACDE #1" "2024-05-14T15:00:00Z" 30;
         commit m1;
         gcal_create_event "ACDE #1" "2024-05-14T15:00:00Z" 30
           (event_description sv (VStr "https://zoom.us/j/123"));
         commit m2;
         issue_create_comment
           (join_lines (topic_lines sv (VInt 7) "Created"
                        ++ created_lines (VStr "https://zoom.us/j/123")
                                         (VInt 123)));
         telegram_send_message (telegram_message sv (VInt 7)) ].
Proof.
  refine (first_run_schedules_the_meeting
            (scenario.answering scenario.half_hour) None 1
            (VDict [("topic_id", VInt 7)]) (VInt 7) "2024-05-14T15:00:00Z" 30
            (VStr "https://zoom.us/j/123") (VInt 123)
            "https://calendar.google.com/event?eid=abc" _ _ _ _ _ _ _ _).
  - reflexivity.
  - reflexivity.
  - reflexivity.
  - vm_compute. reflexivity.
  - reflexivity.
  - reflexivity.
  - reflexivity.
  - reflexivity.
Defined.

(** A run that finds the record of the issue with the schedule it parsed
    makes no backstage call and leaves the file as it was. *)
Lemma unchanged_run_frame sv f n key entry s d p :
  parse_issue_for_time (issue_body sv) = inr (s, d) ->
  find_by_issue (stored_mapping f) n = inr (Some (key, entry)) ->
  schedule_unchanged entry s d = true ->
  backstage p ->
  file (snd (run_issue sv f n)) = f
  /\ count p (calls (snd (run_issue sv f n))) = 0.
Proof.
  intros Hp Hf Hs Hb.
  pose proof (run_issue_phases sv f n) as F.
  pose proof (discourse_handling_frame sv n (loaded f) p Hb) as (Df & Dm & Dc).
  destruct (discourse_handling sv n (loaded f)) as [[e | t] st1]; cbn in *.
  - rewrite F. auto.
  - destruct F as [Ff Fc]. rewrite Ff, (Fc p Hb).
    rewrite <- Dm in Hf.
    destruct (meeting_and_calendar_unchanged sv n t st1 _ _ _ _ Hp Hf Hs)
      as [e ->].
    cbn. auto.
Qed.

(** X17.  Running twice is the same as running once.  After a first run
    in which every service answered, a second run on the file the first
    one left, for the same issue with the same body and a duration that
    is not 0, calls neither the meeting provider nor the calendar, commits
    nothing and leaves the file as it is. *)
Theorem second_run_is_a_no_op :
  forall (sv : services) (f : option pydict) (n : Z) (resp t : pyval)
         (s : string) (d : Z) (ju zid : pyval) (link : string),
    find_by_issue (stored_mapping f) n = inr None ->
    create_topic sv (issue_title sv) (issue_body sv) = inr resp ->
    py_get resp "topic_id" VNone = inr t ->
    parse_issue_for_time (issue_body sv) = inr (s, d) ->
    create_meeting sv (issue_title sv) s d = inr (ju, zid) ->
    create_event sv (issue_title sv) s d (event_description sv ju)
    = inr link ->
    (forall m, commit_mapping_file sv m = inr tt) ->
    (forall body, create_comment sv body = inr tt) ->
    d <> 0%Z ->
    let first := snd (run_issue sv f n) in
    let second := snd (run_issue sv (file first) n) in
    file second = file first
    /\ count is_meeting_call (calls second) = 0
    /\ count is_event_call (calls second) = 0
    /\ count is_commit (calls second) = 0.
Proof.
  intros sv f n resp t s d ju zid link Hf Htopic Hid Hp Hm He Hcommit
         Hcomment Hd first second.
  subst second first.
  rewrite (first_run_state sv f n resp t s d ju zid link Hf Htopic Hid Hp Hm
             He Hcommit Hcomment).
  cbn [snd file].
  set (id := py_str zid).
  set (stored := with_event_id (new_record sv t s d n id) link).
  set (m2 := dict_set (stored_mapping f) id stored).
  assert (Hfound : find_by_issue (stored_mapping (Some m2)) n
                   = inr (Some (id, stored))).
  { apply find_by_issue_set; [exact Hf | reflexivity]. }
  assert (Hsame : schedule_unchanged stored s d = true).
  { pose proof (parse_start_nonempty _ _ _ Hp) as Hne.
    apply String.eqb_neq in Hne. apply Z.eqb_neq in Hd.
    unfold schedule_unchanged, stored, with_event_id, new_record.
    cbn [py_get]. rewrite !dict_get_set_other by discriminate. cbn.
    rewrite Hne, Hd, String.eqb_refl, Z.eqb_refl. reflexivity. }
  destruct (unchanged_run_frame sv (Some m2) n id stored s d _ Hp Hfound
              Hsame backstage_meeting_call) as [Hfile Hmeet].
  destruct (unchanged_run_frame sv (Some m2) n id stored s d _ Hp Hfound
              Hsame backstage_event_call) as [_ Hevent].
  destruct (unchanged_run_frame sv (Some m2) n id stored s d _ Hp Hfound
              Hsame backstage_commit) as [_ Hcom].
  auto.
Qed.

Lemma second_run_is_a_no_op_witness :
  let sv := scenario.answering scenario.half_hour in
  let first := snd (run_issue sv None 1) in
  let second := snd (run_issue sv (file first) 1) in
  file second = file first
  /\ count is_meeting_call (calls second) = 0
  /\ count is_event_call (calls second) = 0
  /\ count is_commit (calls second) = 0.
Proof.
  refine (second_run_is_a_no_op
            (scenario.answering scenario.half_hour) None 1
            (VDict [("topic_id", VInt 7)]) (VInt 7) "2024-05-14T15:00:00Z" 30
            (VStr "https://zoom.us/j/123") (VInt 123)
            "https://calendar.google.com/event?eid=abc" _ _ _ _ _ _ _ _ _).
  - reflexivity.
  - reflexivity.
  - reflexivity.
  - vm_compute. reflexivity.
  - reflexivity.
  - reflexivity.
  - reflexivity.
  - reflexivity.
  - discriminate.
Defined.

End ReconcilerCalls.
(* ================================================================== *)
(** * The harvester: forced mode and the two sweeps *)
(* ================================================================== *)

Section Harvester.

Local Open Scope string_scope.
Import poll_zoom_recordings.

Create HintDb harvest.
#[local] Hint Unfold save_and_commit do_call set_mapping set_entry_field
  load_meeting_topic_mapping try_catch try_finally bind ret lift raise get
  modify : harvest.

#[local] Arguments count : simpl never.
#[local] Arguments dict_set : simpl never.
#[local] Arguments dict_get : simpl never.
#[local] Arguments validate_meeting_id : simpl never.
#[local] Arguments String.eqb : simpl never.

Ltac run_monad :=
  repeat autounfold with harvest in *;
  cbn [fst snd file calls mapping] in *.

Ltac case_step := py_cases; cbn [fst snd file calls mapping] in *.

Ltac count_calls :=
  repeat first [ rewrite count_snoc_false by reflexivity
               | rewrite count_snoc_true by reflexivity ].

(** X18.  A forced id that is empty once stripped is no forced id: the
    run is the sweep the script makes without [--force_meeting_id]. *)
Theorem blank_forced_id_is_ignored :
  forall (sv : services) (f : option pydict) (id : string),
    forallb is_space (la id) = true ->
    run_main sv f (Some id) = run_main sv f None.
Proof.
  intros sv f id H. unfold run_main, main.
  destruct (String.eqb id ""); [reflexivity |].
  unfold validate_meeting_id. rewrite (strip_blank _ H). reflexivity.
Qed.

Lemma blank_forced_id_is_ignored_witness :
  run_main scenario.fetching (Some scenario.exhausted_store) (Some "  ")
  = run_main scenario.fetching (Some scenario.exhausted_store) None.
Proof.
  apply blank_forced_id_is_ignored. reflexivity.
Defined.

(** X19.  Forced mode never fails and never looks further than its id.
    It ends normally on every path; it fetches at most the transcript of
    the stripped id, commits at most once after that, and never lists the
    recordings; the file it leaves is the one it found, or the one it
    found with the two-field record stored under the id. *)
Theorem forced_mode_is_contained :
  forall (sv : services) (f : option pydict) (id : string),
    let meeting_id := validate_meeting_id id in
    let st := snd (run_main sv f (Some id)) in
    meeting_id <> "" ->
    fst (run_main sv f (Some id)) = inr tt
    /\ (calls st = []
        \/ calls st = [post_zoom_transcript_to_discourse meeting_id]
        \/ exists m,
             calls st = [post_zoom_transcript_to_discourse meeting_id;
                         commit m]
             /\ file st = Some m)
    /\ (file st = f
        \/ exists topic_id title,
             truthy topic_id = true
             /\ file st
                = Some (dict_set (stored_mapping f) meeting_id
                          (minimal_record topic_id title))).
Proof.
  intros sv f id meeting_id st Hmid. subst st.
  assert (Hid : String.eqb id "" = false).
  { destruct (String.eqb id "") eqn:E; [| reflexivity].
    apply String.eqb_eq in E. subst id. elim Hmid. reflexivity. }
  apply String.eqb_neq in Hmid.
  unfold run_main, main. rewrite Hid. fold meeting_id. rewrite Hmid.
  unfold force_process, initial. run_monad.
  change (match f with Some m => m | None => [] end) with (stored_mapping f).
  repeat case_step; cbn [app];
    repeat match goal with u : unit |- _ => destruct u end;
    (split; [reflexivity |]);
    (split;
     [ first [ left; reflexivity
             | right; left; reflexivity
             | right; right; eexists; split; reflexivity ]
     | first [ left; reflexivity
             | right; eexists; eexists; split; [| reflexivity];
               match goal with
               | H : negb (truthy _) = false |- _ =>
                   apply negb_false_iff in H; exact H
               end ] ]).
Qed.

Lemma forced_mode_is_contained_witness :
  let meeting_id := validate_meeting_id " 555 " in
  let st := snd (run_main scenario.fetching (Some scenario.exhausted_store)
                          (Some " 555 ")) in
  fst (run_main scenario.fetching (Some scenario.exhausted_store)
                (Some " 555 ")) = inr tt
  /\ (calls st = []
      \/ calls st = [post_zoom_transcript_to_discourse meeting_id]
      \/ exists m,
           calls st = [post_zoom_transcript_to_discourse meeting_id;
                       commit m]
           /\ file st = Some m)
  /\ (file st = Some scenario.exhausted_store
      \/ exists topic_id title,
           truthy topic_id = true
           /\ file st
              = Some (dict_set (stored_mapping (Some scenario.exhausted_store))
                        meeting_id (minimal_record topic_id title))).
Proof.
  refine (forced_mode_is_contained scenario.fetching
            (Some scenario.exhausted_store) " 555 " _).
  vm_compute. discriminate.
Defined.

(** X20.  Forced mode on an entry of the old format, a bare topic id: the
    transcript is fetched and posted, and the entry is left as it was.
    Line 90 calls [entry.get] on a value that is not a [dict]; the
    [AttributeError] is swallowed at line 95, after the call and before
    the file is written. *)
Theorem forced_mode_leaves_a_bare_topic_id :
  forall (sv : services) (f : option pydict) (id : string),
    let meeting_id := validate_meeting_id id in
    let entry := mapping_get (stored_mapping f) meeting_id in
    meeting_id <> "" ->
    is_dict entry = false ->
    truthy entry = true ->
    run_main sv f (Some id)
    = (inr tt,
       State f [post_zoom_transcript_to_discourse meeting_id]
             (stored_mapping f)).
Proof.
  intros sv f id meeting_id entry Hmid Hd Ht.
  assert (Hid : String.eqb id "" = false).
  { destruct (String.eqb id "") eqn:E; [| reflexivity].
    apply String.eqb_eq in E. subst id. elim Hmid. reflexivity. }
  apply String.eqb_neq in Hmid.
  unfold run_main, main. rewrite Hid. fold meeting_id. rewrite Hmid.
  unfold force_process, initial. run_monad.
  change (match f with Some m => m | None => [] end) with (stored_mapping f).
  fold entry. rewrite Hd. cbn. rewrite Ht. cbn.
  destruct (post_transcript sv meeting_id); cbn; [reflexivity |].
  destruct entry; try discriminate; reflexivity.
Qed.

Lemma forced_mode_leaves_a_bare_topic_id_witness :
  run_main scenario.fetching (Some scenario.legacy_store) (Some "111")
  = (inr tt,
     State (Some scenario.legacy_store)
           [post_zoom_transcript_to_discourse "111"] scenario.legacy_store).
Proof.
  refine (forced_mode_leaves_a_bare_topic_id scenario.fetching
            (Some scenario.legacy_store) "111" _ _ _).
  - vm_compute. discriminate.
  - reflexivity.
  - reflexivity.
Defined.

Lemma keeps_keys_set f m k v :
  keeps_keys f m -> keeps_keys f (dict_set m k v).
Proof. intros H k' Hk. apply dict_has_set, H, Hk. Qed.

Ltac keys_leaf :=
  first [ assumption
        | unfold keys_kept; cbn [file mapping stored_mapping]; split;
          repeat apply keeps_keys_set; assumption ].

(** One round of the loop over the last five entries: it does not fail,
    fetches at most one transcript, counts one only if it fetched, lists
    nothing and loses no key. *)
Lemma process_recent_effect sv meeting_id entry st :
  exists k st',
    process_recent sv meeting_id entry st = (inr k, st')
    /\ count is_fetch (calls st) + k <= count is_fetch (calls st')
    /\ count is_fetch (calls st') <= count is_fetch (calls st) + 1
    /\ count is_listing (calls st') = count is_listing (calls st)
    /\ (forall f, keys_kept f st -> keys_kept f st')
    /\ (settled (meeting_id, entry) = true -> k = 0 /\ st' = st).
Proof.
  assert (Quiet : exists k st',
            (@inr exn nat 0, st) = (inr k, st')
            /\ count is_fetch (calls st) + k <= count is_fetch (calls st')
            /\ count is_fetch (calls st') <= count is_fetch (calls st) + 1
            /\ count is_listing (calls st') = count is_listing (calls st)
            /\ (forall f, keys_kept f st -> keys_kept f st')
            /\ (true = true -> k = 0 /\ st' = st)).
  { exists 0, st. split; [reflexivity |]. split; [lia |]. split; [lia |].
    auto. }
  unfold process_recent, settled. run_monad. cbn [snd].
  destruct entry as [| b | z | s | d]; cbn [is_dict negb]; try exact Quiet.
  cbn [py_get].
  destruct (truthy _) eqn:Ht; [exact Quiet |]. clear Quiet.
  repeat case_step; eexists; eexists; (split; [reflexivity |]);
    cbn [file calls mapping];
    (split; [count_calls; lia |]);
    (split; [count_calls; lia |]);
    (split; [count_calls; reflexivity |]);
    (split; [intros f [Hm Hf]; keys_leaf | discriminate]).
Qed.

Lemma recent_loop_effect sv items st :
  exists k st',
    recent_loop sv items st = (inr k, st')
    /\ count is_fetch (calls st) + k <= count is_fetch (calls st')
    /\ count is_fetch (calls st')
       <= count is_fetch (calls st) + List.length items
    /\ count is_listing (calls st') = count is_listing (calls st)
    /\ (forall f, keys_kept f st -> keys_kept f st')
    /\ (forallb settled items = true -> k = 0 /\ st' = st).
Proof.
  revert st. induction items as [| [meeting_id entry] items IH]; intros st.
  - exists 0, st. cbn [recent_loop List.length]. unfold ret.
    split; [reflexivity |]. split; [lia |]. split; [lia |]. auto.
  - destruct (process_recent_effect sv meeting_id entry st)
      as (k1 & st1 & E1 & A1 & B1 & L1 & K1 & S1).
    destruct (IH st1) as (k2 & st2 & E2 & A2 & B2 & L2 & K2 & S2).
    exists (k1 + k2), st2.
    cbn [recent_loop]. unfold bind at 1. rewrite E1.
    unfold bind at 1. rewrite E2. unfold ret. cbn [List.length forallb].
    split; [reflexivity |]. split; [lia |]. split; [lia |].
    split; [congruence |]. split; [auto |].
    intros H. apply andb_prop in H as [H1 H2].
    destruct (S1 H1) as [-> ->]. destruct (S2 H2) as [-> ->]. auto.
Qed.

Lemma last_five_length m : List.length (last_five m) <= 5.
Proof.
  unfold last_five. rewrite length_rev, length_skipn. lia.
Qed.

(** X21.  The sweep over the last five entries cannot fail and is
    bounded: whatever the mapping holds and the services answer, it ends
    with a count, fetches at most five transcripts, at least as many as
    it counts, and never lists the recordings. *)
Theorem recent_sweep_is_bounded :
  forall (sv : services) (m : pydict) (st : state),
    exists processed_count st',
      recent_loop sv (last_five m) st = (inr processed_count, st')
      /\ count is_fetch (calls st) + processed_count
         <= count is_fetch (calls st')
      /\ count is_fetch (calls st') <= count is_fetch (calls st) + 5
      /\ count is_listing (calls st') = count is_listing (calls st).
Proof.
  intros sv m st.
  destruct (recent_loop_effect sv (last_five m) st)
    as (k & st' & E & A & B & L & _).
  pose proof (last_five_length m).
  exists k, st'. repeat split; auto; lia.
Qed.

(** Screening the provider's list reads the mapping and changes
    nothing. *)
Lemma screen_recording_same sv meeting st :
  snd (screen_recording sv meeting st) = st.
Proof.
  unfold screen_recording. run_monad. repeat case_step; reflexivity.
Qed.

Lemma screen_loop_same sv recordings st :
  snd (screen_loop sv recordings st) = st.
Proof.
  revert st. induction recordings as [| r rs IH]; intros st; [reflexivity |].
  cbn [screen_loop]. unfold bind at 1.
  pose proof (screen_recording_same sv r st) as E.
  destruct (screen_recording sv r st) as [[e | c] st1]; cbn in E; subst st1;
    [reflexivity |].
  unfold bind at 1. specialize (IH st).
  destruct (screen_loop sv rs st) as [[e | cs] st2]; cbn in IH; subst st2;
    reflexivity.
Qed.

(** One candidate of the provider's list: at most one fetch, no listing,
    no key lost. *)
Lemma process_candidate_effect sv meeting_id st :
  let st' := snd (process_candidate sv meeting_id st) in
  count is_fetch (calls st') <= count is_fetch (calls st) + 1
  /\ count is_listing (calls st') = count is_listing (calls st)
  /\ (forall f, keys_kept f st -> keys_kept f st')
  /\ (exists l, calls st' = (calls st ++ l)%list).
Proof.
  unfold process_candidate. run_monad.
  repeat case_step;
    (split; [count_calls; lia |]);
    (split; [count_calls; reflexivity |]);
    (split; [intros f [Hm Hf]; keys_leaf |]);
    first [ exists []; symmetry; apply app_nil_r
          | eexists; rewrite <- ?app_assoc; reflexivity ].
Qed.

Lemma candidates_loop_effect sv cs st :
  let st' := snd (candidates_loop sv cs st) in
  count is_fetch (calls st') <= count is_fetch (calls st) + List.length cs
  /\ count is_listing (calls st') = count is_listing (calls st)
  /\ (forall f, keys_kept f st -> keys_kept f st')
  /\ (exists l, calls st' = (calls st ++ l)%list).
Proof.
  revert st. induction cs as [| [meeting_id topic] cs IH]; intros st.
  - cbn. split; [lia |]. split; [reflexivity |]. split; [auto |].
    exists []. symmetry. apply app_nil_r.
  - cbn [candidates_loop List.length]. unfold bind. cbv beta zeta.
    destruct (process_candidate_effect sv meeting_id st)
      as (B1 & L1 & K1 & [l1 G1]).
    destruct (process_candidate sv meeting_id st) as [[e | u] st1];
      cbn [snd] in *.
    + split; [lia |]. split; [exact L1 |]. split; [exact K1 |].
      exists l1. exact G1.
    + destruct (IH st1) as (B2 & L2 & K2 & [l2 G2]).
      cbn zeta in B2, L2, K2, G2.
      split; [lia |]. split; [congruence |]. split; [auto |].
      exists (l1 ++ l2)%list. rewrite G2, G1, app_assoc. reflexivity.
Qed.

Lemma keys_kept_initial f : keys_kept f (State f [] (stored_mapping f)).
Proof. split; intros k Hk; exact Hk. Qed.

(** The sweep, from the state in which [main] enters it. *)
Lemma sweep_effect sv f :
  let st' := snd (sweep sv (initial f)) in
  count is_listing (calls st') <= 1
  /\ keys_kept f st'
  /\ (forallb settled (last_five (stored_mapping f)) = true ->
      count is_listing (calls st') = 1
      /\ hd_error (calls st') = Some zoom_get_recordings_list).
Proof.
  unfold sweep, initial. run_monad.
  change (match f with Some m => m | None => [] end) with (stored_mapping f).
  destruct (recent_loop_effect sv (last_five (stored_mapping f))
              (State f [] (stored_mapping f)))
    as (k & st1 & E & _ & _ & L & K & S).
  rewrite E. cbn [fst snd].
  specialize (K f (keys_kept_initial f)).
  change (count is_listing (calls (State f [] (stored_mapping f)))) with 0
    in L.
  destruct (Nat.eqb k 0) eqn:Hk; cbn [fst snd file calls mapping].
  2: { split; [lia |]. split; [exact K |].
       intros H. destruct (S H) as [-> _]. discriminate. }
  set (st2 := State (file st1) (calls st1 ++ [zoom_get_recordings_list])
                    (match file st1 with Some m => m | None => [] end)).
  assert (K2 : keys_kept f st2).
  { destruct K as [_ Kf]. split; exact Kf. }
  assert (L2 : count is_listing (calls st2) = 1).
  { cbn [st2 calls]. count_calls. lia. }
  assert (Final : forall st3,
            count is_listing (calls st3) = count is_listing (calls st2) ->
            keys_kept f st3 ->
            (exists l, calls st3 = (calls st2 ++ l)%list) ->
            count is_listing (calls st3) <= 1
            /\ keys_kept f st3
            /\ (forallb settled (last_five (stored_mapping f)) = true ->
                count is_listing (calls st3) = 1
                /\ hd_error (calls st3) = Some zoom_get_recordings_list)).
  { intros st3 L3 K3 [l G3]. split; [lia |]. split; [exact K3 |].
    intros H. destruct (S H) as [_ ->]. split; [lia |].
    rewrite G3. reflexivity. }
  destruct (get_recordings_list sv) as [e | recordings].
  { apply Final; [reflexivity | exact K2 |].
    exists []. symmetry. apply app_nil_r. }
  cbn [fst snd]. fold st2.
  pose proof (screen_loop_same sv recordings st2) as Same.
  destruct (screen_loop sv recordings st2) as [[e | cs] st3]; cbn in Same;
    subst st3.
  { apply Final; [reflexivity | exact K2 |].
    exists []. symmetry. apply app_nil_r. }
  destruct (candidates_loop_effect sv cs st2) as (_ & L4 & K4 & G4).
  apply Final; [exact L4 | exact (K4 f K2) | exact G4].
Qed.

(** X22.  When none of the last five entries is waiting for its
    transcript (each is of the old format or has [transcript_processed]
    set), the scheduled run fetches nothing for them and goes on to ask
    the provider for its recordings: that is its first call, and it is
    made once. *)
Theorem settled_backlog_asks_the_provider :
  forall (sv : services) (f : option pydict),
    forallb settled (last_five (stored_mapping f)) = true ->
    let st := snd (run_main sv f None) in
    hd_error (calls st) = Some zoom_get_recordings_list
    /\ count is_listing (calls st) = 1.
Proof.
  intros sv f H st. subst st. unfold run_main, main.
  destruct (sweep_effect sv f) as (_ & _ & S).
  destruct (S H) as [S1 S2]. auto.
Qed.

Lemma settled_backlog_asks_the_provider_witness :
  let st := snd (run_main scenario.fetching (Some scenario.legacy_store)
                          None) in
  hd_error (calls st) = Some zoom_get_recordings_list
  /\ count is_listing (calls st) = 1.
Proof.
  exact (settled_backlog_asks_the_provider scenario.fetching
           (Some scenario.legacy_store) eq_refl).
Defined.

Lemma force_process_effect sv meeting_id f :
  let st' := snd (try_catch (force_process sv meeting_id)
                            (fun _ => ret tt) (initial f)) in
  keys_kept f st' /\ count is_listing (calls st') = 0.
Proof.
  pose proof (keys_kept_initial f) as [Hm Hf].
  unfold force_process, initial. run_monad.
  change (match f with Some m => m | None => [] end) with (stored_mapping f).
  repeat case_step; (split; [keys_leaf | reflexivity]).
Qed.

(** X23.  The harvester deletes nothing: in forced mode or in a sweep,
    whatever the services answer, every key of the mapping file is still
    in the file when the run ends.  A run lists the recordings of the
    provider at most once. *)
Theorem harvester_never_deletes :
  forall (sv : services) (f : option pydict)
         (force_meeting_id : option string),
    let st := snd (run_main sv f force_meeting_id) in
    keeps_keys f (stored_mapping (file st))
    /\ count is_listing (calls st) <= 1.
Proof.
  intros sv f arg st. subst st. unfold run_main, main.
  destruct (sweep_effect sv f) as (SL & [_ SK] & _).
  destruct arg as [id |]; [| auto].
  destruct (String.eqb id ""); [auto |].
  destruct (String.eqb (validate_meeting_id id) ""); [auto |].
  destruct (force_process_effect sv (validate_meeting_id id) f)
    as ([_ K] & L).
  split; [exact K | lia].
Qed.

(** A candidate whose fetch fails, below the ceiling: the attempt is
    counted and the file written. *)
Lemma failed_attempt sv meeting_id st d (n : Z) e :
  dict_get (mapping st) meeting_id = Some (VDict d) ->
  truthy (match dict_get d "transcript_processed" with
          | Some v => v
          | None => VNone
          end) = false ->
  dict_get d "upload_attempt_count" = Some (VInt n) ->
  (n < 10)%Z ->
  post_transcript sv meeting_id = inl e ->
  (forall m, commit_mapping_file sv m = inr tt) ->
  let m' := dict_set (mapping st) meeting_id
              (VDict (dict_set d "upload_attempt_count" (VInt (n + 1)))) in
  process_candidate sv meeting_id st
  = (inr tt,
     State (Some m')
           ((calls st ++ [post_zoom_transcript_to_discourse meeting_id])
            ++ [commit m'])
           m').
Proof.
  intros Hm Hp Hc Hn Hpost Hcommit m'.
  apply Z.leb_gt in Hn.
  unfold process_candidate, mapping_get, dict_has. run_monad.
  repeat (first [ rewrite Hm | rewrite Hp | rewrite Hc | rewrite Hn
                | rewrite Hpost | rewrite Hcommit ]; cbn).
  reflexivity.
Qed.

Lemma candidate_at_ceiling sv meeting_id st d (n : Z) :
  dict_get (mapping st) meeting_id = Some (VDict d) ->
  truthy (match dict_get d "transcript_processed" with
          | Some v => v
          | None => VNone
          end) = false ->
  dict_get d "upload_attempt_count" = Some (VInt n) ->
  (10 <= n)%Z ->
  process_candidate sv meeting_id st = (inr tt, st).
Proof.
  intros Hm Hp Hc Hn.
  apply Z.leb_le in Hn.
  unfold process_candidate, mapping_get, dict_has. run_monad.
  repeat (first [rewrite Hm | rewrite Hp | rewrite Hc | rewrite Hn]; cbn).
  reflexivity.
Qed.

(** X24.  The retry budget of the loop over the provider's list, lines
    163-193.  A candidate whose fetch keeps failing is fetched once per
    pass while its [upload_attempt_count] is below 10, each failure adds
    one to the count and writes the file, and from 10 on the passes leave
    it alone: [k] passes from a count of [n] fetch [min k (10 - n)] times
    and leave the count at [min (n + k) 10]. *)
Theorem upload_retries_stop_at_ten :
  forall (sv : services) (meeting_id : string) (e : exn) (k n : nat)
         (st : state) (d : pydict),
    dict_get (mapping st) meeting_id = Some (VDict d) ->
    truthy (match dict_get d "transcript_processed" with
            | Some v => v
            | None => VNone
            end) = false ->
    dict_get d "upload_attempt_count" = Some (VInt (Z.of_nat n)) ->
    n <= 10 ->
    post_transcript sv meeting_id = inl e ->
    (forall m, commit_mapping_file sv m = inr tt) ->
    let st' := snd (attempts sv meeting_id k st) in
    count is_fetch (calls st') = count is_fetch (calls st) + min k (10 - n)
    /\ stored_field (Some (mapping st')) meeting_id "upload_attempt_count"
       = Some (VInt (Z.of_nat (min (n + k) 10))).
Proof.
  intros sv meeting_id e k.
  induction k as [| k IH]; intros n st d Hm Hp Hc Hn Hpost Hcommit.
  - cbn [attempts stored_field]. unfold ret. cbn [snd]. rewrite Hm, Hc.
    replace (n + 0) with n by lia. rewrite (Nat.min_l n 10) by lia.
    split; [cbn [min]; lia | reflexivity].
  - cbn [attempts]. unfold bind. cbv beta zeta.
    destruct (Nat.eq_dec n 10) as [-> | Hlt].
    + rewrite (candidate_at_ceiling sv meeting_id st d _ Hm Hp Hc)
        by (cbn; lia).
      destruct (IH 10 st d Hm Hp Hc Hn Hpost Hcommit) as [I1 I2].
      cbv zeta in I1, I2. rewrite I1, I2.
      split; [cbn; lia |].
      rewrite !Nat.min_r by lia. reflexivity.
    + rewrite (failed_attempt sv meeting_id st d _ e Hm Hp Hc)
        by (assumption || lia).
      set (d' := dict_set d "upload_attempt_count" (VInt (Z.of_nat n + 1))).
      set (m' := dict_set (mapping st) meeting_id (VDict d')).
      set (st1 := State (Some m') _ m').
      assert (Hm1 : dict_get (mapping st1) meeting_id = Some (VDict d'))
        by apply dict_get_set.
      assert (Hp1 : truthy (match dict_get d' "transcript_processed" with
                            | Some v => v
                            | None => VNone
                            end) = false).
      { unfold d'. rewrite dict_get_set_other by discriminate. exact Hp. }
      assert (Hc1 : dict_get d' "upload_attempt_count"
                    = Some (VInt (Z.of_nat (S n)))).
      { unfold d'. rewrite dict_get_set. do 2 f_equal. lia. }
      destruct (IH (S n) st1 d' Hm1 Hp1 Hc1 ltac:(lia) Hpost Hcommit)
        as [I1 I2].
      cbv zeta in I1, I2. rewrite I1, I2.
      split.
      * cbn [st1 calls]. count_calls.
        destruct (10 - n) as [| r] eqn:E; [lia |].
        replace (10 - S n) with r by lia. cbn [min]. lia.
      * do 3 f_equal. lia.
Qed.

Lemma upload_retries_stop_at_ten_witness :
  let st := State (Some scenario.harvested_store) []
                  [("555", VDict [("transcript_processed", VBool false);
                                  ("upload_attempt_count", VInt 8)])] in
  let st' := snd (attempts scenario.failing_fetch "555" 5 st) in
  count is_fetch (calls st') = count is_fetch (calls st) + min 5 (10 - 8)
  /\ stored_field (Some (mapping st')) "555" "upload_attempt_count"
     = Some (VInt (Z.of_nat (min (8 + 5) 10))).
Proof.
  refine (upload_retries_stop_at_ten scenario.failing_fetch "555"
            _ 5 8 _ _ _ _ _ _ _ _).
  - reflexivity.
  - reflexivity.
  - reflexivity.
  - lia.
  - reflexivity.
  - reflexivity.
Defined.

End Harvester.
(* ================================================================== *)
(** * The two [commit_mapping_file] *)
(* ================================================================== *)

Section Commit.

Import github.
Local Open Scope string_scope.

(** X25.  The two scripts commit the mapping file differently.  Both try
    to update the file and create it when the update fails; but
    [handle_issue.py] creates it only when the text of the failure has
    "404" in it and re-raises any other failure without a further call,
    while [poll_zoom_recordings.py] creates it after any failure.  So the
    two make the same calls with the same outcome exactly when the update
    succeeds or fails with a "404"; neither calls [create_file] more than
    once or after an update that succeeded. *)
Theorem commit_functions_differ_off_404 :
  forall (r : repository) (branch file_content : string),
    path_kept r branch ->
    let h := handle_issue_commit r branch file_content in
    let p := poll_commit r branch file_content in
    (h = p <->
     match update_failure r branch file_content with
     | Some text => contains (la "404") (la text) = true
     | None => True
     end)
    /\ (update_failure r branch file_content = None ->
        fst h = inr tt /\ count is_create (snd h) = 0
        /\ fst p = inr tt /\ count is_create (snd p) = 0)
    /\ (forall text,
          update_failure r branch file_content = Some text ->
          contains (la "404") (la text) = false ->
          fst h = inl (GithubException text)
          /\ count is_create (snd h) = 0
          /\ count is_create (snd p) = 1)
    /\ count is_create (snd h) <= 1
    /\ count is_create (snd p) <= 1.
Proof.
  intros r branch file_content Hpath h p. subst h p.
  unfold handle_issue_commit, poll_commit, update_failure, path_kept in *.
  assert (Longer : forall (x y : error + unit) (l : list call) (c : call),
            (x, l) = (y, (l ++ [c])%list) -> False).
  { intros x y l c E. apply (f_equal snd) in E. cbn in E.
    apply (f_equal (@List.length call)) in E.
    rewrite length_app in E. cbn in E. lia. }
  destruct (on_get_contents r MAPPING_FILE branch) as [t | c] eqn:Hget.
  - cbn [error_text].
    destruct (contains (la "404") (la t)) eqn:H404; cbn in H404 |- *.
    + split; [tauto |]. split; [discriminate |].
      split; [| split; apply Nat.le_refl].
      intros t' E H. injection E as <-. congruence.
    + split; [split; [intros E; elim (Longer _ _ _ _ E) | discriminate] |].
      split; [discriminate |].
      split; [| split; [apply Nat.le_0_l | apply Nat.le_refl]].
      intros t' E _. injection E as <-. auto.
  - rewrite (Hpath c eq_refl), String.eqb_refl. cbn [negb].
    destruct (on_update_file r MAPPING_FILE file_content (sha c) branch)
      as [t | u] eqn:Hup; cbn [answer error_text].
    + destruct (contains (la "404") (la t)) eqn:H404; cbn in H404 |- *.
      * split; [tauto |]. split; [discriminate |].
        split; [| split; apply Nat.le_refl].
        intros t' E H. injection E as <-. congruence.
      * split; [split; [intros E; elim (Longer _ _ _ _ E) | discriminate] |].
        split; [discriminate |].
        split; [| split; [apply Nat.le_0_l | apply Nat.le_refl]].
        intros t' E _. injection E as <-. auto.
    + destruct u. cbn.
      split; [tauto |]. split; [auto |].
      split; [discriminate |]. split; apply Nat.le_0_l.
Qed.

Lemma commit_functions_differ_off_404_witness :
  let r := Repository
             (fun p _ => inr (Contents p "abc"))
             (fun _ _ _ _ => inl "409 Conflict")
             (fun _ _ _ => inr tt) in
  fst (handle_issue_commit r "main" "{}") = inl (GithubException "409 Conflict")
  /\ count is_create (snd (handle_issue_commit r "main" "{}")) = 0
  /\ count is_create (snd (poll_commit r "main" "{}")) = 1.
Proof.
  intros r.
  refine (proj1 (proj2 (proj2
            (commit_functions_differ_off_404 r "main" "{}" _)))
            "409 Conflict" _ _).
  - intros c E. injection E as <-. reflexivity.
  - reflexivity.
  - reflexivity.
Defined.

End Commit.
